(** * Routing, termination and retry logic of the Semantic Kernel orchestrator

    Shallow embedding of [backend/src/semantic_kernel_orchestrator.py]:
    the five [route_*] functions, the methods of [CustomGroupChatManager]
    ([filter_results], [should_request_user_input], [select_next_agent],
    [should_terminate]) and the retry loop of
    [SemanticKernelOrchestrator.process_message].

    Beside it: the manager of the test client
    [sk_orchestration_scripts/groupchat_client.py], [parse_response] of
    [router/clu_router.py] and [get_entity] of [clu_hooks.py].

    Python values produced by [json.loads] are the inductive [Json.value];
    Python exceptions are values of [exn]; every function of the source that
    prints, raises or talks to the runtime is a computation in the monad [M],
    which threads the observable [world] (console and runtime events) and
    returns either a value or a raised exception.  The framework's
    [StringResult] is a pydantic model with [result: str]: building one
    without a speaker raises, see [StringResult_new]. *)

From Stdlib Require Import QArith Ascii.
From stdpp Require Import base option list strings gmap.

Set Warnings "-register-all".
Local Open Scope string_scope.
Local Open Scope list_scope.

(** ** Values of [json.loads] *)

Module Json.

(** A decoded JSON document as Python sees it: [None], [bool], a number
    ([int] or [float], both kept as the rational they denote), [str],
    [list] and [dict].  A [dict] is kept as the list of its items in
    insertion order; keys are unique in a decoded document, [lookup]
    returns the first item with the key.  The non-finite constants [NaN]
    and [Infinity], which [json.loads] accepts beyond JSON, have no
    counterpart here. *)
Inductive value : Type :=
| Null
| Bool (b : bool)
| Num (q : Q)
| Str (s : string)
| Arr (items : list value)
| Obj (items : list (string * value)).

Fixpoint lookup (key : string) (items : list (string * value)) : option value :=
  match items with
  | [] => None
  | (k, v) :: rest => if String.eqb k key then Some v else lookup key rest
  end.

(** [v == s] for a string literal [s]: only a [str] equals a [str]. *)
Definition eq_str (v : value) (s : string) : bool :=
  match v with
  | Str s' => String.eqb s' s
  | _ => false
  end.

(** [v in names] for a list of string literals (membership by [==]). *)
Definition in_strs (v : value) (names : list string) : bool :=
  existsb (eq_str v) names.

End Json.

(** ** Exceptions *)

(** The exception classes the modelled code can meet.  All of them derive
    from [Exception]; [TimeoutError] is [asyncio.TimeoutError].
    [JSONDecodeError] is what [json.loads] raises on a text that is not
    JSON; it raises [RecursionError] on a document nested too deeply and a
    plain [ValueError] on an integer literal beyond the interpreter's digit
    limit, neither of which is a [JSONDecodeError].  [ValidationError] is
    pydantic's, raised by the constructors of the framework's models. *)
Inductive exn : Type :=
| JSONDecodeError
| RecursionError
| ValueError
| ValidationError
| KeyError (key : Json.value)
| IndexError
| TypeError
| AttributeError
| TimeoutError
| RuntimeError (msg : string).

Definition is_timeout (e : exn) : bool :=
  match e with
  | TimeoutError => true
  | _ => false
  end.

(** ** The observable world *)

(** A piece of a printed line: a literal, [str(v)] of a decoded value,
    [json.dumps(v, indent=2)], [str(e)] of an exception, or an [int]. *)
Inductive fragment : Type :=
| Lit (s : string)
| Fmt (v : Json.value)
| Dumps (v : Json.value)
| FmtExn (e : exn)
| FmtInt (n : Z).

(** The newline character of the source's string literals. *)
Definition nl : string := String (Ascii.ascii_of_nat 10) EmptyString.

Inductive event : Type :=
| Print (line : list fragment)
| RuntimeStart (runtime : nat)
| Invoke (runtime : nat) (task : string)
| Get (runtime : nat) (timeout : nat)
| StopWhenIdle (runtime : nat)
| Sleep (seconds : nat).

(** [console] is everything done so far, oldest first; [next_runtime] is the
    allocator of [InProcessRuntime()] instances. *)
Record world : Type := World {
  console : list event;
  next_runtime : nat
}.

Definition emit (ev : event) (w : world) : world :=
  World (console w ++ [ev]) (next_runtime w).

(** ** The monad of effectful Python code *)

Inductive outcome (A : Type) : Type :=
| Returned (a : A)
| Raised (e : exn).
Arguments Returned {A} a.
Arguments Raised {A} e.

Definition M (A : Type) : Type := world -> outcome A * world.

Definition ret {A} (a : A) : M A := fun w => (Returned a, w).

Definition raise {A} (e : exn) : M A := fun w => (Raised e, w).

Definition bind {A B} (m : M A) (k : A -> M B) : M B :=
  fun w =>
    match m w with
    | (Returned a, w') => k a w'
    | (Raised e, w') => (Raised e, w')
    end.

Notation "x <- m ;; k" := (bind m (fun x => k))
  (at level 100, m at next level, right associativity).
Notation "m ;; k" := (bind m (fun _ => k))
  (at level 100, right associativity).

(** [try: body  except Exception as e: handler e]. *)
Definition try_except {A} (body : M A) (handler : exn -> M A) : M A :=
  fun w =>
    match body w with
    | (Returned a, w') => (Returned a, w')
    | (Raised e, w') => handler e w'
    end.

(** [try: body  finally: cleanup].  The cleanup runs on every exit of the
    body; an exception of the cleanup replaces the body's outcome. *)
Definition try_finally {A} (body : M A) (cleanup : M unit) : M A :=
  fun w =>
    match body w with
    | (r, w') =>
        match cleanup w' with
        | (Returned _, w'') => (r, w'')
        | (Raised e, w'') => (Raised e, w'')
        end
    end.

Definition print (line : list fragment) : M unit :=
  fun w => (Returned tt, emit (Print line) w).

Definition lift {A} (r : exn + A) : M A :=
  match r with
  | inl e => raise e
  | inr a => ret a
  end.

(** ** Python operations on decoded values *)

(** [v[key]] with a string key. *)
Definition getitem (v : Json.value) (key : string) : exn + Json.value :=
  match v with
  | Json.Obj items =>
      match Json.lookup key items with
      | Some x => inr x
      | None => inl (KeyError (Json.Str key))
      end
  | _ => inl TypeError
  end.

(** [v[0]]. *)
Definition getitem0 (v : Json.value) : exn + Json.value :=
  match v with
  | Json.Arr items =>
      match items with
      | x :: _ => inr x
      | [] => inl IndexError
      end
  | Json.Str s =>
      match s with
      | String c _ => inr (Json.Str (String c EmptyString))
      | EmptyString => inl IndexError
      end
  | Json.Obj _ => inl (KeyError (Json.Num 0))
  | _ => inl TypeError
  end.

(** [v.get(key, default)]; only a [dict] has the method. *)
Definition get_default (v : Json.value) (key : string) (default : Json.value)
  : exn + Json.value :=
  match v with
  | Json.Obj items =>
      match Json.lookup key items with
      | Some x => inr x
      | None => inr default
      end
  | _ => inl AttributeError
  end.

(** [v.get(key)], the default being [None]. *)
Definition get (v : Json.value) (key : string) : exn + Json.value :=
  get_default v key Json.Null.

(** [v >= threshold] for a float [threshold]: defined on numbers and on
    [bool] (a subclass of [int]); a [TypeError] on anything else. *)
Definition ge_float (v : Json.value) (threshold : Q) : exn + bool :=
  match v with
  | Json.Num q => inr (Qle_bool threshold q)
  | Json.Bool b => inr (Qle_bool threshold (if b then 1 else 0))
  | _ => inl TypeError
  end.

Definition is_str (v : Json.value) : bool :=
  match v with
  | Json.Str _ => true
  | _ => false
  end.

Definition str_of (v : Json.value) : string :=
  match v with
  | Json.Str s => s
  | _ => ""
  end.

Fixpoint chars (s : string) : list string :=
  match s with
  | EmptyString => []
  | String c rest => String c EmptyString :: chars rest
  end.

Fixpoint join (sep : string) (parts : list string) : string :=
  match parts with
  | [] => ""
  | [p] => p
  | p :: rest => p +:+ sep +:+ join sep rest
  end.

(** [sep.join(v)]: [v] must be iterable and yield only strings.  A list of
    strings, a string (its characters) and a dict (its keys) qualify. *)
Definition str_join (sep : string) (v : Json.value) : exn + string :=
  match v with
  | Json.Arr items =>
      if forallb is_str items then inr (join sep (map str_of items))
      else inl TypeError
  | Json.Str s => inr (join sep (chars s))
  | Json.Obj items => inr (join sep (map fst items))
  | _ => inl TypeError
  end.

(** ** Messages and results of the group chat framework *)

Inductive AuthorRole : Type := SYSTEM | USER | ASSISTANT | TOOL | DEVELOPER.

Definition is_user (r : AuthorRole) : bool :=
  match r with
  | USER => true
  | _ => false
  end.

(** [ChatMessageContent]: the fields the orchestrator reads. *)
Record ChatMessageContent : Type := Message {
  role : AuthorRole;
  name : option string;
  content : string
}.

(** [ChatHistory]: the ordered log of one exchange, oldest turn first. *)
Abbreviation ChatHistory := (list ChatMessageContent).

(** [StringResult]: the framework declares [result: str] and
    [reason: str]; an instance always names a participant. *)
Record StringResult : Type := MkStringResult {
  result : string;
  reason : string
}.

(** [StringResult(result=..., reason=...)]: pydantic validates the fields
    on construction, and [None] is no [str]. *)
Definition StringResult_new (result : option string) (reason : string)
  : M StringResult :=
  match result with
  | Some agent => ret (MkStringResult agent reason)
  | None => raise ValidationError
  end.

Record BooleanResult : Type := MkBooleanResult {
  bresult : bool;
  breason : string
}.

Record MessageResult : Type := MkMessageResult {
  mresult : ChatMessageContent;
  mreason : string
}.

(** [m.name == s]. *)
Definition name_is (m : ChatMessageContent) (s : string) : bool :=
  match name m with
  | Some n => String.eqb n s
  | None => false
  end.

(** [m.name in names]. *)
Definition name_in (m : ChatMessageContent) (names : list string) : bool :=
  existsb (name_is m) names.

(** [m.name if m.name else 'USER']. *)
Definition display_name (m : ChatMessageContent) : string :=
  match name m with
  | Some n => if String.eqb n "" then "USER" else n
  | None => "USER"
  end.

(** [next((agent for agent in participant_descriptions.keys()
          if agent == wanted), None)]. *)
Definition next_agent (participant_descriptions : gmap string string)
    (wanted : string) : option string :=
  head (filter (λ agent, agent = wanted)
               (map_to_list participant_descriptions).*1).

Definition valid_agents : list string :=
  ["SciencesAgent"; "GovernanceAgent"; "AnalyticsAgent"; "ExperienceAgent"].

(** ** What one orchestration attempt can do *)

(** What the group chat framework does with one attempt is outside the
    orchestrator: [orchestration.invoke] either raises or hands back an
    [OrchestrationResult], whose [get(timeout)] either yields the final
    message content or raises ([asyncio.TimeoutError] when the timeout
    expires); [runtime.stop_when_idle()] may raise as well. *)
Inductive get_outcome : Type :=
| GetValue (value_content : string)
| GetRaises (e : exn).

Inductive invoke_outcome : Type :=
| InvokeRaises (e : exn)
| InvokeReturns (orchestration_result : get_outcome).

Record attempt : Type := Attempt {
  on_invoke : invoke_outcome;
  on_stop : option exn
}.

(** The dict kept in [last_exception]. *)
Record failure : Type := Failure {
  ftype : string;
  fmessage : string
}.

(** First component of the returned tuple: the final answer, or the dict
    [{"error": f"Orchestration failed: {last_exception}"}], kept with the
    [last_exception] it renders ([None] when no attempt was made). *)
Inductive response_text : Type :=
| FinalAnswer (final_answer : Json.value)
| ErrorResult (last_exception : option failure).

(** How one iteration of the [while] loop ends: by [return], or by falling
    through to [asyncio.sleep] with [last_exception] set and
    [retry_count] incremented. *)
Inductive iteration : Type :=
| Return (r : response_text * Json.value)
| Retry (last_exception : failure).

(** ** The intent router and the entity lookup of its hooks

    [router/clu_router.py] and [clu_hooks.py] compute on the dict the
    language service returns; they raise where a subscript fails and log
    through [logging], not through [print]. *)

(** Sequencing of operations that may raise. *)
Definition and_then {A B} (r : exn + A) (k : A -> exn + B) : exn + B :=
  match r with
  | inl e => inl e
  | inr a => k a
  end.

Notation "x <~ r ;; k" := (and_then r (fun x => k))
  (at level 100, r at next level, right associativity).

(** [v < threshold] for a float [threshold]. *)
Definition lt_float (v : Json.value) (threshold : Q) : exn + bool :=
  match v with
  | Json.Num q => inr (negb (Qle_bool threshold q))
  | Json.Bool b => inr (negb (Qle_bool threshold (if b then 1 else 0)))
  | _ => inl TypeError
  end.

(** [parse_response]: the dict it returns and the warnings it logs, or the
    exception of a failed subscript or comparison (all of which come before
    the first warning).  [confidence_threshold] is the float read from
    [CLU_CONFIDENCE_THRESHOLD] at each call. *)
Definition parse_response (confidence_threshold : Q) (response : Json.value)
  : exn + (Json.value * list string) :=
  result <~ getitem response "result" ;;
  prediction <~ getitem result "prediction" ;;
  intents <~ getitem prediction "intents" ;;
  top <~ getitem0 intents ;;
  confidence <~ getitem top "confidenceScore" ;;
  intent <~ getitem prediction "topIntent" ;;
  entities <~ getitem prediction "entities" ;;
  let error := Json.Null in
  below <~ lt_float confidence confidence_threshold ;;
  let '(error, warnings) :=
    if below : bool
    then (Json.Str "CLU confidence threshold not met",
          ["CLU confidence threshold not met"])
    else (error, []) in
  let '(error, warnings) :=
    if Json.eq_str intent "None"
    then (Json.Str "No intent recognized",
          warnings ++ ["No intent recognized"])
    else (error, warnings) in
  inr (Json.Obj [("kind", Json.Str "clu_result");
                 ("error", error);
                 ("intent", intent);
                 ("entities", entities);
                 ("confidence", confidence);
                 ("api_response", response)],
       warnings).

(** [get_entity]: [triage_agent] is [ROUTER_TYPE == "TRIAGE_AGENT"] in the
    environment; Python's [None] is [Json.Null]. *)
Fixpoint get_entity (triage_agent : bool) (entities : list Json.value)
    (entity_name : string) : exn + Json.value :=
  match entities with
  | [] => inr Json.Null
  | ent :: rest =>
      matches <~
        (by_name <~
           (if triage_agent
            then (name <~ get ent "name" ;; inr (Json.eq_str name entity_name))
            else inr false) ;;
         if by_name : bool then inr true
         else (category <~ get ent "category" ;;
               inr (Json.eq_str category entity_name))) ;;
      if matches : bool then getitem ent "text"
      else get_entity triage_agent rest entity_name
  end.

(** An entity dict that [get_entity] passes over when looking for
    [entity_name]. *)
Definition other_entity (triage_agent : bool) (entity_name : string)
    (ent : Json.value) : Prop :=
  exists items,
    ent = Json.Obj items
    /\ Json.eq_str (default Json.Null (Json.lookup "category" items))
         entity_name = false
    /\ (triage_agent = true ->
        Json.eq_str (default Json.Null (Json.lookup "name" items))
          entity_name = false).

(** An entity dict that [get_entity] takes for [entity_name]. *)
Definition named_entity (triage_agent : bool) (entity_name : string)
    (ent : Json.value) : Prop :=
  exists items,
    ent = Json.Obj items
    /\ (Json.eq_str (default Json.Null (Json.lookup "category" items))
          entity_name = true
        \/ (triage_agent = true
            /\ Json.eq_str (default Json.Null (Json.lookup "name" items))
                 entity_name = true)).

(** A response of the language service in which [parse_response] finds
    what it reads: the top intent, the entities, and the numeric confidence
    of the first listed intent. *)
Definition clu_prediction (response intent entities : Json.value)
    (confidence : Q) : Prop :=
  exists top result prediction first others,
    response = Json.Obj top
    /\ Json.lookup "result" top = Some (Json.Obj result)
    /\ Json.lookup "prediction" result = Some (Json.Obj prediction)
    /\ Json.lookup "intents" prediction
       = Some (Json.Arr (Json.Obj first :: others))
    /\ Json.lookup "confidenceScore" first = Some (Json.Num confidence)
    /\ Json.lookup "topIntent" prediction = Some intent
    /\ Json.lookup "entities" prediction = Some entities.

(** The service's answer to "Employee got 3 stitches" with a given top
    intent and confidence. *)
Definition stitches_entities : Json.value :=
  Json.Arr [Json.Obj [("category", Json.Str "InjuryType");
                      ("text", Json.Str "laceration")];
            Json.Obj [("category", Json.Str "TreatmentType");
                      ("text", Json.Str "stitches")];
            Json.Obj [("category", Json.Str "TreatmentType");
                      ("text", Json.Str "bandage")]].

Definition clu_response (top_intent : string) (confidence : Q) : Json.value :=
  Json.Obj
    [("kind", Json.Str "ConversationResult");
     ("result",
      Json.Obj
        [("query", Json.Str "Employee got 3 stitches");
         ("prediction",
          Json.Obj
            [("topIntent", Json.Str top_intent);
             ("projectKind", Json.Str "Conversation");
             ("intents",
              Json.Arr [Json.Obj [("category", Json.Str top_intent);
                                  ("confidenceScore", Json.Num confidence)]]);
             ("entities", stitches_entities)])])].

(** ** A concrete Python runtime for the examples

    [Decoder.decode] reads the JSON texts used in the examples below: objects,
    arrays, strings with the simple escapes, decimal numbers without exponent,
    [null], [true], [false].  The properties of the orchestrator are proved
    for every decoder; this one only supplies concrete instances. *)

Module Decoder.

Definition is_ws (c : Ascii.ascii) : bool :=
  match Ascii.nat_of_ascii c with
  | 32 | 9 | 10 | 13 => true
  | _ => false
  end%nat.

Fixpoint skip_ws (s : string) : string :=
  match s with
  | String c rest => if is_ws c then skip_ws rest else s
  | EmptyString => s
  end.

Definition digit (c : Ascii.ascii) : option Z :=
  let n := Ascii.nat_of_ascii c in
  if ((48 <=? n) && (n <=? 57))%nat then Some (Z.of_nat (n - 48)) else None.

(** Reads a run of decimal digits: its value on top of [acc], how many
    digits were read, and the rest of the text. *)
Fixpoint digits (acc : Z) (count : nat) (s : string) : Z * nat * string :=
  match s with
  | String c rest =>
      match digit c with
      | Some d => digits (acc * 10 + d) (S count) rest
      | None => (acc, count, s)
      end
  | EmptyString => (acc, count, s)
  end.

Definition number (s : string) : option (Q * string) :=
  let (negative, s1) :=
    match s with
    | String "-"%char rest => (true, rest)
    | _ => (false, s)
    end in
  let sign (q : Q) := if negative : bool then Qopp q else q in
  let '(int_part, n, s2) := digits 0 0 s1 in
  if (n =? 0)%nat then None
  else
    match s2 with
    | String "."%char s3 =>
        let '(all_digits, k, s4) := digits int_part 0 s3 in
        if (k =? 0)%nat then None
        else Some (sign (Qmake all_digits (Z.to_pos (10 ^ Z.of_nat k))), s4)
    | _ => Some (sign (inject_Z int_part), s2)
    end.

Definition unescape (c : Ascii.ascii) : option Ascii.ascii :=
  match Ascii.nat_of_ascii c with
  | 34 => Some c
  | 92 => Some c
  | 47 => Some c
  | 110 => Some (Ascii.ascii_of_nat 10)
  | 116 => Some (Ascii.ascii_of_nat 9)
  | 114 => Some (Ascii.ascii_of_nat 13)
  | _ => None
  end%nat.

(** The text after an opening quote, up to the closing one. *)
Fixpoint string_body (s : string) : option (string * string) :=
  match s with
  | EmptyString => None
  | String c rest =>
      match Ascii.nat_of_ascii c with
      | 34%nat => Some (EmptyString, rest)
      | 92%nat =>
          match rest with
          | String e rest' =>
              match unescape e, string_body rest' with
              | Some e', Some (body, after) => Some (String e' body, after)
              | _, _ => None
              end
          | EmptyString => None
          end
      | _ =>
          match string_body rest with
          | Some (body, after) => Some (String c body, after)
          | None => None
          end
      end
  end.

Definition quote : Ascii.ascii := Ascii.ascii_of_nat 34.

Definition starts_quote (s : string) : bool :=
  match s with
  | String c _ => Ascii.eqb c quote
  | EmptyString => false
  end.

Definition tail (s : string) : string :=
  match s with
  | String _ rest => rest
  | EmptyString => s
  end.

(** Payload texts are written with apostrophes in place of the double
    quotes of JSON; [js] puts the double quotes back. *)
Fixpoint js (s : string) : string :=
  match s with
  | String c rest =>
      String (if Ascii.eqb c "'"%char then quote else c) (js rest)
  | EmptyString => s
  end.

Fixpoint strip (word : string) (s : string) : option string :=
  match word, s with
  | EmptyString, _ => Some s
  | String a word', String b s' => if Ascii.eqb a b then strip word' s' else None
  | _, _ => None
  end.

(** [d[key] = v] on the items of a dict: an existing key keeps its place. *)
Fixpoint dict_set (key : string) (v : Json.value)
    (items : list (string * Json.value)) : list (string * Json.value) :=
  match items with
  | [] => [(key, v)]
  | (k, x) :: rest =>
      if String.eqb k key then (k, v) :: rest
      else (k, x) :: dict_set key v rest
  end.

Fixpoint value (fuel : nat) (s : string) : option (Json.value * string) :=
  match fuel with
  | O => None
  | S fuel' =>
      match skip_ws s with
      | String "{"%char rest =>
          match skip_ws rest with
          | String "}"%char after => Some (Json.Obj [], after)
          | _ => members fuel' rest []
          end
      | String "["%char rest =>
          match skip_ws rest with
          | String "]"%char after => Some (Json.Arr [], after)
          | _ => elements fuel' rest []
          end
      | text =>
          if starts_quote text then
            match string_body (tail text) with
            | Some (body, after) => Some (Json.Str body, after)
            | None => None
            end
          else
          match strip "null" text, strip "true" text, strip "false" text with
          | Some after, _, _ => Some (Json.Null, after)
          | _, Some after, _ => Some (Json.Bool true, after)
          | _, _, Some after => Some (Json.Bool false, after)
          | _, _, _ =>
              match number text with
              | Some (q, after) => Some (Json.Num q, after)
              | None => None
              end
          end
      end
  end
with members (fuel : nat) (s : string) (acc : list (string * Json.value))
  : option (Json.value * string) :=
  match fuel with
  | O => None
  | S fuel' =>
      match skip_ws s with
      | String c rest =>
          if negb (Ascii.eqb c quote) then None else
          match string_body rest with
          | Some (key, after_key) =>
              match skip_ws after_key with
              | String ":"%char after_colon =>
                  match value fuel' after_colon with
                  | Some (v, after_value) =>
                      match skip_ws after_value with
                      | String ","%char more =>
                          members fuel' more (dict_set key v acc)
                      | String "}"%char after =>
                          Some (Json.Obj (dict_set key v acc), after)
                      | _ => None
                      end
                  | None => None
                  end
              | _ => None
              end
          | None => None
          end
      | _ => None
      end
  end
with elements (fuel : nat) (s : string) (acc : list Json.value)
  : option (Json.value * string) :=
  match fuel with
  | O => None
  | S fuel' =>
      match value fuel' s with
      | Some (v, after_value) =>
          match skip_ws after_value with
          | String ","%char more => elements fuel' more (acc ++ [v])
          | String "]"%char after => Some (Json.Arr (acc ++ [v]), after)
          | _ => None
          end
      | None => None
      end
  end.

Definition decode (s : string) : option Json.value :=
  match value (2 * String.length s + 2) s with
  | Some (v, after) =>
      match skip_ws after with
      | EmptyString => Some v
      | _ => None
      end
  | None => None
  end.

End Decoder.

(** [str(e)] as used in the examples: the class of the exception and, for
    a [KeyError], the quoted key. *)
Definition py_str_exn (e : exn) : string :=
  match e with
  | JSONDecodeError => "Expecting value"
  | RecursionError => "maximum recursion depth exceeded"
  | ValueError => "Exceeds the limit for integer string conversion"
  | ValidationError => "1 validation error for StringResult"
  | KeyError (Json.Str k) => "'" +:+ k +:+ "'"
  | KeyError _ => "0"
  | IndexError => "list index out of range"
  | TypeError => "TypeError"
  | AttributeError => "AttributeError"
  | TimeoutError => ""
  | RuntimeError msg => msg
  end.

(** [str(v)] as used in the examples: a text is itself, [None] and the
    booleans carry Python's names.  The text of a number, a list or a
    dict depends on Python's formatting of floats and is only marked. *)
Definition py_str_value (v : Json.value) : string :=
  match v with
  | Json.Str s => s
  | Json.Null => "None"
  | Json.Bool true => "True"
  | Json.Bool false => "False"
  | Json.Num _ => "<number>"
  | Json.Arr _ => "<list>"
  | Json.Obj _ => "<dict>"
  end.

(** The exception of [json.loads] in the examples: their texts are short,
    so what is not decoded is not JSON. *)
Definition py_json_error (s : string) : exn := JSONDecodeError.

(** The defaults of [CLU_CONFIDENCE_THRESHOLD] and [CQA_CONFIDENCE]. *)
Definition default_confidence_threshold : Q := 7 # 10.
Definition default_cqa_confidence : Q := 8 # 10.

(** The default of the constructor's [max_retries]. *)
Definition default_max_retries : Z := 3.

(** ** Notions of the specification *)

(** [registered p agent]: the registry has a participant of that name. *)
Definition registered (participant_descriptions : gmap string string)
    (agent : string) : bool :=
  match participant_descriptions !! agent with
  | Some _ => true
  | None => false
  end.

Definition translator_turn (m : ChatMessageContent) : bool :=
  name_is m "TranslationAgent".

(** The latest turn is a Translator turn and not the first one of the log. *)
Definition later_translator_turn (chat_history : ChatHistory) : bool :=
  match rev chat_history with
  | latest :: earlier => translator_turn latest && existsb translator_turn earlier
  | [] => false
  end.

(** The latest turn is a Translator turn that follows a Domain Responder
    turn or a Router turn (the direct FAQ answer). *)
Definition follows_answer (chat_history : ChatHistory) : bool :=
  match rev chat_history with
  | latest :: previous :: _ =>
      translator_turn latest
      && (name_in previous valid_agents || name_is previous "TriageAgent")
  | _ => false
  end.

(** The Router payload of a FAQ match with the confidence of its top
    answer: [{type: "cqa_result", response: {answers: [{confidenceScore}]}}]. *)
Definition cqa_result (parsed : Json.value) (confidence : Q) : Prop :=
  exists top response answer others,
    parsed = Json.Obj top
    /\ Json.lookup "type" top = Some (Json.Str "cqa_result")
    /\ Json.lookup "response" top = Some (Json.Obj response)
    /\ Json.lookup "answers" response = Some (Json.Arr (Json.Obj answer :: others))
    /\ Json.lookup "confidenceScore" answer = Some (Json.Num confidence).

(** The Router payload of an intent result with its top intent:
    [{type: "clu_result", response: {result: {conversations:
       [{intents: [{name, confidenceScore}]}]}}}]. *)
Definition clu_result (parsed : Json.value) (intent : Json.value)
    (confidence : Q) : Prop :=
  exists top response result1 conversation conversations top_intent intents,
    parsed = Json.Obj top
    /\ Json.lookup "type" top = Some (Json.Str "clu_result")
    /\ Json.lookup "response" top = Some (Json.Obj response)
    /\ Json.lookup "result" response = Some (Json.Obj result1)
    /\ Json.lookup "conversations" result1
       = Some (Json.Arr (Json.Obj conversation :: conversations))
    /\ Json.lookup "intents" conversation
       = Some (Json.Arr (Json.Obj top_intent :: intents))
    /\ Json.lookup "name" top_intent = Some intent
    /\ Json.lookup "confidenceScore" top_intent = Some (Json.Num confidence).

(** What the specification expects after a Router turn. *)
Inductive router_expectation (cqa_confidence : Q) (parsed : Json.value)
  : string -> Prop :=
| faq_above (confidence : Q) :
    cqa_result parsed confidence ->
    (cqa_confidence < confidence)%Q ->
    router_expectation cqa_confidence parsed "TranslationAgent"
| faq_below (confidence : Q) :
    cqa_result parsed confidence ->
    (confidence < cqa_confidence)%Q ->
    router_expectation cqa_confidence parsed "Lumi"
| intent_any (intent : Json.value) (confidence : Q) :
    clu_result parsed intent confidence ->
    router_expectation cqa_confidence parsed "Lumi".

(** What [", ".join] accepts: an iterable that yields only strings. *)
Definition joinable (v : Json.value) : bool :=
  match v with
  | Json.Arr items => forallb is_str items
  | Json.Str _ => true
  | Json.Obj _ => true
  | _ => false
  end.

(** The [iri_domains] of a Dispatcher payload: absent, or joinable (a list
    of strings, as the payload shape has it). *)
Definition domains_joinable (items : list (string * Json.value)) : bool :=
  match Json.lookup "iri_domains" items with
  | None => true
  | Some v => joinable v
  end.

(** The [target_agent] of a Dispatcher payload is one of the four known
    Domain Responders (false when absent, null or anything else). *)
Definition names_responder (items : list (string * Json.value)) : bool :=
  match Json.lookup "target_agent" items with
  | Some (Json.Str t) => existsb (String.eqb t) valid_agents
  | _ => false
  end.

(** The responder a Dispatcher payload stands for: the one it names when
    that is a known Domain Responder, the default one otherwise. *)
Definition chosen_responder (items : list (string * Json.value)) : string :=
  if names_responder items
  then str_of (default Json.Null (Json.lookup "target_agent" items))
  else "GovernanceAgent".

(** The console line that records the substitution of the default
    responder for [target_agent]. *)
Definition substitution_line (items : list (string * Json.value)) : event :=
  Print [Lit "[SYSTEM]: Unknown target agent '";
         Fmt (default Json.Null (Json.lookup "target_agent" items));
         Lit "', defaulting to GovernanceAgent"].

(** ** Notions used in the statements about computations *)

(** A routing result wrapped as [select_next_agent] returns it. *)
Definition wrap {A} (x : outcome A * world) : outcome (option A) * world :=
  match x with
  | (Returned a, w) => (Returned (Some a), w)
  | (Raised e, w) => (Raised e, w)
  end.

Definition is_print (ev : event) : Prop :=
  match ev with
  | Print _ => True
  | _ => False
  end.

(** The runtimes started, the pauses taken and the timeouts given to [get],
    in the order of a run of events. *)
Fixpoint started (out : list event) : list nat :=
  match out with
  | RuntimeStart runtime :: rest => runtime :: started rest
  | _ :: rest => started rest
  | [] => []
  end.

Fixpoint pauses (out : list event) : list nat :=
  match out with
  | Sleep seconds :: rest => seconds :: pauses rest
  | _ :: rest => pauses rest
  | [] => []
  end.

Fixpoint budgets (out : list event) : list nat :=
  match out with
  | Get _ timeout :: rest => timeout :: budgets rest
  | _ :: rest => budgets rest
  | [] => []
  end.

(** An event of a single attempt: anything but the start of a runtime or a
    pause, which belong to the loop around it; a [get] has the timeout 120. *)
Definition attempt_event (ev : event) : Prop :=
  match ev with
  | RuntimeStart _ | Sleep _ => False
  | Get _ timeout => timeout = 120
  | _ => True
  end.

(** A computation that only appends events satisfying [P] to the console:
    its outcome and its output are the same from every world. *)
Definition emits {A} (P : event -> Prop) (m : M A) : Prop :=
  exists r out,
    Forall P out
    /\ forall w, m w = (r, World (console w ++ out) (next_runtime w)).

(** A postcondition: whatever the computation returns satisfies [Q]. *)
Definition ensures {A} (Q : A -> Prop) (m : M A) : Prop :=
  forall w a, fst (m w) = Returned a -> Q a.

(** Whatever the computation raises satisfies [E]. *)
Definition raises_only {A} (E : exn -> Prop) (m : M A) : Prop :=
  forall w e, fst (m w) = Raised e -> E e.

(** The names the routing functions look up in the registry. *)
Definition pipeline_agents : list string :=
  "TranslationAgent" :: "TriageAgent" :: "Lumi" :: valid_agents.

(** What every [StringResult] of a routing function looks like: its
    speaker is one of the pipeline's names, as found in the registry. *)
Definition routed (participant_descriptions : gmap string string)
    (r : StringResult) : Prop :=
  exists x, In x pipeline_agents
            /\ next_agent participant_descriptions x = Some (result r).

(** Two outcomes of the [try] block of a routing function that come to the
    same decision once its [except] clause has run: both return, naming the
    same next speaker, or both raise. *)
Definition same_routing (o1 o2 : outcome (option StringResult)) : Prop :=
  match o1, o2 with
  | Returned d1, Returned d2 => option_map result d1 = option_map result d2
  | Raised _, Raised _ => True
  | _, _ => False
  end.

(** The routing decision in an outcome of [select_next_agent]: the next
    speaker named, Python's [None], or the exception raised. *)
Definition next_speaker (o : outcome (option StringResult))
  : outcome (option string) :=
  match o with
  | Returned (Some r) => Returned (Some (result r))
  | Returned None => Returned None
  | Raised e => Raised e
  end.

(** The starts and stops of runtimes among a run of events. *)
Fixpoint lifecycle (out : list event) : list event :=
  match out with
  | RuntimeStart runtime :: rest => RuntimeStart runtime :: lifecycle rest
  | StopWhenIdle runtime :: rest => StopWhenIdle runtime :: lifecycle rest
  | _ :: rest => lifecycle rest
  | [] => []
  end.

(** An event of the guarded part of an attempt: no start, stop or pause. *)
Definition body_event (ev : event) : Prop :=
  match ev with
  | RuntimeStart _ | Sleep _ | StopWhenIdle _ => False
  | _ => True
  end.

(** A Router payload typed as a FAQ result whose top answer's confidence
    cannot be read or compared: no [response], no [answers], an empty list
    of answers, or a confidence that is not a number. *)
Inductive unreadable_faq (top : list (string * Json.value)) : Prop :=
| faq_without_response :
    Json.lookup "response" top = None ->
    unreadable_faq top
| faq_without_answers (response : list (string * Json.value)) :
    Json.lookup "response" top = Some (Json.Obj response) ->
    Json.lookup "answers" response = None ->
    unreadable_faq top
| faq_no_answer (response : list (string * Json.value)) :
    Json.lookup "response" top = Some (Json.Obj response) ->
    Json.lookup "answers" response = Some (Json.Arr []) ->
    unreadable_faq top
| faq_textual_confidence (response answer : list (string * Json.value))
    (others : list Json.value) (text : string) :
    Json.lookup "response" top = Some (Json.Obj response) ->
    Json.lookup "answers" response
    = Some (Json.Arr (Json.Obj answer :: others)) ->
    Json.lookup "confidenceScore" answer = Some (Json.Str text) ->
    unreadable_faq top.

(** A Router payload typed as an intent result whose top intent cannot be
    read or compared: no [response], an empty list of conversations or of
    intents, a top intent without a [name], or a confidence that is a
    string. *)
Inductive unreadable_intent (top : list (string * Json.value)) : Prop :=
| intent_without_response :
    Json.lookup "response" top = None ->
    unreadable_intent top
| intent_no_conversation (response result1 : list (string * Json.value)) :
    Json.lookup "response" top = Some (Json.Obj response) ->
    Json.lookup "result" response = Some (Json.Obj result1) ->
    Json.lookup "conversations" result1 = Some (Json.Arr []) ->
    unreadable_intent top
| intent_no_intents (response result1 conversation : list (string * Json.value))
    (conversations : list Json.value) :
    Json.lookup "response" top = Some (Json.Obj response) ->
    Json.lookup "result" response = Some (Json.Obj result1) ->
    Json.lookup "conversations" result1
    = Some (Json.Arr (Json.Obj conversation :: conversations)) ->
    Json.lookup "intents" conversation = Some (Json.Arr []) ->
    unreadable_intent top
| intent_without_name
    (response result1 conversation top_intent : list (string * Json.value))
    (conversations intents : list Json.value) :
    Json.lookup "response" top = Some (Json.Obj response) ->
    Json.lookup "result" response = Some (Json.Obj result1) ->
    Json.lookup "conversations" result1
    = Some (Json.Arr (Json.Obj conversation :: conversations)) ->
    Json.lookup "intents" conversation
    = Some (Json.Arr (Json.Obj top_intent :: intents)) ->
    Json.lookup "name" top_intent = None ->
    unreadable_intent top
| intent_textual_confidence
    (response result1 conversation top_intent : list (string * Json.value))
    (conversations intents : list Json.value) (intent : Json.value)
    (text : string) :
    Json.lookup "response" top = Some (Json.Obj response) ->
    Json.lookup "result" response = Some (Json.Obj result1) ->
    Json.lookup "conversations" result1
    = Some (Json.Arr (Json.Obj conversation :: conversations)) ->
    Json.lookup "intents" conversation
    = Some (Json.Arr (Json.Obj top_intent :: intents)) ->
    Json.lookup "name" top_intent = Some intent ->
    Json.lookup "confidenceScore" top_intent = Some (Json.Str text) ->
    unreadable_intent top.

(** ** Example data *)

(** The registry built at start-up: the seven participants. *)
Definition registry : gmap string string :=
  list_to_map
    [("TranslationAgent", "Translates messages to/from English.");
     ("TriageAgent", "Routes inquiries to CLU or CQA.");
     ("Lumi", "Routes to SAGE domain agents.");
     ("SciencesAgent", "Research-based guidance.");
     ("GovernanceAgent", "Regulatory guidance.");
     ("AnalyticsAgent", "Industry risk analytics.");
     ("ExperienceAgent", "Incident records and forms.")].

Definition user_turn_msg : ChatMessageContent :=
  Message USER None "What is considered first aid?".

Definition inbound_translation : ChatMessageContent :=
  Message ASSISTANT (Some "TranslationAgent")
    (Decoder.js "{'origin_language': 'en', 'response': {'current_question': 'What is considered first aid?'}, 'target_language': 'en'}").

Definition faq_match : ChatMessageContent :=
  Message ASSISTANT (Some "TriageAgent")
    (Decoder.js "{'type': 'cqa_result', 'response': {'answers': [{'confidenceScore': 0.92, 'answer': 'See 1904.7(b)(5)(ii).'}]}, 'terminated': 'True'}").

Definition weak_faq_match : ChatMessageContent :=
  Message ASSISTANT (Some "TriageAgent")
    (Decoder.js "{'type': 'cqa_result', 'response': {'answers': [{'confidenceScore': 0.35, 'answer': 'See 1904.7.'}]}, 'terminated': 'True'}").

Definition weak_intent : ChatMessageContent :=
  Message ASSISTANT (Some "TriageAgent")
    (Decoder.js "{'type': 'clu_result', 'response': {'result': {'conversations': [{'intents': [{'name': 'Recordability', 'confidenceScore': 0.21}]}]}}, 'terminated': 'False'}").

Definition outbound_translation : ChatMessageContent :=
  Message ASSISTANT (Some "TranslationAgent")
    (Decoder.js "{'origin_language': 'en', 'source_language': 'en', 'response': {'final_answer': 'See 1904.7(b)(5)(ii).', 'need_more_info': false}}").

(** Scenario A's three turns: Translator, Router, Translator. *)
Definition faq_log : ChatHistory :=
  [inbound_translation; faq_match; outbound_translation].

(** A final Translator turn whose payload is not JSON. *)
Definition garbled_translation : ChatMessageContent :=
  Message ASSISTANT (Some "TranslationAgent") "Lo siento, no puedo traducir.".

Definition garbled_final_log : ChatHistory :=
  [user_turn_msg; inbound_translation; faq_match; garbled_translation].

Definition garbled_triage : ChatMessageContent :=
  Message ASSISTANT (Some "TriageAgent") "I could not classify this.".

Definition untyped_triage : ChatMessageContent :=
  Message ASSISTANT (Some "TriageAgent") (Decoder.js "{'type': 'other', 'response': 'n/a'}").

Definition unknown_target : ChatMessageContent :=
  Message ASSISTANT (Some "Lumi")
    (Decoder.js "{'target_agent': 'UnknownAgent', 'intent': 'Recordability', 'entities': [], 'iri_domains': ['Governance'], 'terminated': 'False'}").

Definition array_payload : ChatMessageContent :=
  Message ASSISTANT (Some "Lumi") "[]".

Definition clarification_request : ChatMessageContent :=
  Message ASSISTANT (Some "GovernanceAgent")
    (Decoder.js "{'response': 'Which treatment was given?', 'terminated': 'False', 'need_more_info': 'True'}").

(** Scenario C: the responder asks for more information. *)
Definition clarification_log : ChatHistory :=
  [user_turn_msg; inbound_translation; weak_intent; unknown_target;
   clarification_request].

(** Logs of an exchange up to a Router or Dispatcher turn. *)
Definition faq_router_log : ChatHistory :=
  [user_turn_msg; inbound_translation; faq_match].

Definition weak_faq_router_log : ChatHistory :=
  [user_turn_msg; inbound_translation; weak_faq_match].

Definition intent_router_log : ChatHistory :=
  [user_turn_msg; inbound_translation; weak_intent].

Definition garbled_router_log : ChatHistory :=
  [user_turn_msg; inbound_translation; garbled_triage].

Definition untyped_router_log : ChatHistory :=
  [user_turn_msg; inbound_translation; untyped_triage].

Definition dispatcher_log : ChatHistory :=
  [user_turn_msg; inbound_translation; weak_intent; unknown_target].

(** A complete FAQ exchange, the user's turn included. *)
Definition final_log : ChatHistory :=
  [user_turn_msg; inbound_translation; faq_match; outbound_translation].

(** Scenario B: the Dispatcher names a known responder. *)
Definition known_target : ChatMessageContent :=
  Message ASSISTANT (Some "Lumi")
    (Decoder.js "{'target_agent': 'SciencesAgent', 'intent': 'ExposureLimits', 'entities': [], 'iri_domains': ['Sciences', 'Governance'], 'terminated': 'False'}").

Definition known_dispatcher_log : ChatHistory :=
  [user_turn_msg; inbound_translation; weak_intent; known_target].

(** A FAQ result with no answer in it. *)
Definition empty_faq : ChatMessageContent :=
  Message ASSISTANT (Some "TriageAgent")
    (Decoder.js "{'type': 'cqa_result', 'response': {'answers': []}, 'terminated': 'True'}").

Definition empty_faq_log : ChatHistory :=
  [user_turn_msg; inbound_translation; empty_faq].

(** An intent result in which no intent was scored. *)
Definition empty_intents : ChatMessageContent :=
  Message ASSISTANT (Some "TriageAgent")
    (Decoder.js "{'type': 'clu_result', 'response': {'result': {'conversations': [{'intents': []}]}}, 'terminated': 'False'}").

Definition empty_intents_log : ChatHistory :=
  [user_turn_msg; inbound_translation; empty_intents].

(** A FAQ result whose confidence equals the default threshold. *)
Definition threshold_faq : ChatMessageContent :=
  Message ASSISTANT (Some "TriageAgent")
    (Decoder.js "{'type': 'cqa_result', 'response': {'answers': [{'confidenceScore': 0.8}]}, 'terminated': 'True'}").

Definition threshold_faq_log : ChatHistory :=
  [user_turn_msg; inbound_translation; threshold_faq].

(** A registry from which the default responder is missing. *)
Definition registry_without_governance : gmap string string :=
  delete "GovernanceAgent" registry.

(** A registry from which the Translator is missing. *)
Definition registry_without_translator : gmap string string :=
  delete "TranslationAgent" registry.

(** A second question of the user on a log that already holds an exchange. *)
Definition follow_up_log : ChatHistory :=
  [user_turn_msg; inbound_translation; faq_match; outbound_translation;
   user_turn_msg].

(** A Dispatcher payload that names a participant other than a responder,
    and one without a target. *)
Definition translator_target : ChatMessageContent :=
  Message ASSISTANT (Some "Lumi")
    (Decoder.js "{'target_agent': 'TranslationAgent', 'terminated': 'False'}").

Definition translator_target_log : ChatHistory :=
  [user_turn_msg; inbound_translation; weak_intent; translator_target].

Definition missing_target : ChatMessageContent :=
  Message ASSISTANT (Some "Lumi") (Decoder.js "{'terminated': 'False'}").

Definition missing_target_log : ChatHistory :=
  [user_turn_msg; inbound_translation; weak_intent; missing_target].

(** A responder's answer that is not JSON. *)
Definition plain_answer : ChatMessageContent :=
  Message ASSISTANT (Some "SciencesAgent")
    "Noise at or above 85 dBA calls for a hearing conservation program.".

Definition plain_answer_log : ChatHistory :=
  [user_turn_msg; inbound_translation; weak_intent; known_target;
   plain_answer].

(** A Dispatcher payload with an unknown target whose [iri_domains] is
    null. *)
Definition null_domains : ChatMessageContent :=
  Message ASSISTANT (Some "Lumi")
    (Decoder.js "{'target_agent': 'UnknownAgent', 'iri_domains': null}").

Definition null_domains_log : ChatHistory :=
  [user_turn_msg; inbound_translation; weak_intent; null_domains].

(** A FAQ threshold above the confidence 0.92 of [faq_match]. *)
Definition strict_cqa_confidence : Q := 95 # 100.

(** The world before anything was printed or started. *)
Definition initial_world : world := World [] 0.

Definition first_aid_task : string := "What is considered first aid?".

(** An orchestration whose [invoke] raises on every runtime. *)
Definition failing_invoke (runtime : nat) (task : string) : attempt :=
  Attempt (InvokeRaises (RuntimeError "agent registration failed")) None.


(** An orchestration whose every attempt times out. *)
Definition timing_out (runtime : nat) (task : string) : attempt :=
  Attempt (InvokeReturns (GetRaises TimeoutError)) None.

(** An orchestration whose first runtime times out and whose later ones
    deliver the given final content. *)
Definition flaky (value_content : string) (runtime : nat) (task : string)
  : attempt :=
  match runtime with
  | O => Attempt (InvokeReturns (GetRaises TimeoutError)) None
  | S _ => Attempt (InvokeReturns (GetValue value_content)) None
  end.

(** An orchestration whose [get] fails and whose runtimes fail to stop. *)
Definition failing_cleanup (runtime : nat) (task : string) : attempt :=
  Attempt (InvokeReturns (GetRaises (RuntimeError "agent crashed")))
          (Some (RuntimeError "runtime busy")).



(** ** The orchestrator *)

Section Orchestrator.

(** The Python runtime's [json.loads] on a [str]: the decoded document, or
    [None] where it raises; [json_error] is the exception it raises there
    ([json.JSONDecodeError], [RecursionError] or [ValueError]). *)
Variable json_loads : string -> option Json.value.
Variable json_error : string -> exn.

(** [str(e)], the text Python gives an exception. *)
Variable str_exn : exn -> string.

(** The module-level thresholds, read from the environment at import
    ([CLU_CONFIDENCE_THRESHOLD], default 0.7; [CQA_CONFIDENCE], default 0.8). *)
Variable confidence_threshold : Q.
Variable cqa_confidence : Q.

Definition loads (s : string) : M Json.value :=
  match json_loads s with
  | Some v => ret v
  | None => raise (json_error s)
  end.

(** [json.loads] decodes the text or rejects it as not being JSON. *)
Definition loads_safe (s : string) : Prop :=
  json_loads s = None -> json_error s = JSONDecodeError.

(** *** Routing functions *)

Definition route_user_message (participant_descriptions : gmap string string)
  : M StringResult :=
  try_except
    (StringResult_new
       (next_agent participant_descriptions "TranslationAgent")
       "Routing to TranslationAgent for initial translation.")
    (fun e =>
       StringResult_new None
         ("Error routing to TranslationAgent: " +:+ str_exn e)).

Definition route_translation_message (last_message : ChatMessageContent)
    (participant_descriptions : gmap string string) : M StringResult :=
  try_except
    (parsed <- loads (content last_message) ;;
     response <- lift (getitem parsed "response") ;;
     print [Lit "[TranslationAgent] Translated message:"; Lit " "; Fmt response] ;;
     StringResult_new
       (next_agent participant_descriptions "TriageAgent")
       "Routing to TriageAgent for intent classification.")
    (fun e =>
       StringResult_new None
         ("Error routing to TriageAgent: " +:+ str_exn e)).

(** The function has no [return] after its two [if] blocks: for a payload
    whose ["type"] is neither ["cqa_result"] nor ["clu_result"] it returns
    Python's [None], here the outer [None]. *)
Definition route_triage_message (last_message : ChatMessageContent)
    (participant_descriptions : gmap string string)
  : M (option StringResult) :=
  try_except
    (parsed <- loads (content last_message) ;;
     type1 <- lift (get parsed "type") ;;
     if Json.eq_str type1 "cqa_result" then
       print [Lit "[SYSTEM]: CQA result received, checking confidence..."] ;;
       response <- lift (getitem parsed "response") ;;
       answers <- lift (getitem response "answers") ;;
       answer <- lift (getitem0 answers) ;;
       confidence <- lift (getitem answer "confidenceScore") ;;
       above <- lift (ge_float confidence cqa_confidence) ;;
       if above : bool then
         print [Lit "[TriageAgent]: CQA confidence "; Fmt confidence;
                Lit " >= "; Fmt (Json.Num cqa_confidence);
                Lit ", returning FAQ answer"] ;;
         r <- StringResult_new
                (next_agent participant_descriptions "TranslationAgent")
                "Routing to TranslationAgent for final translation of CQA answer." ;;
         ret (Some r)
       else
         print [Lit "[TriageAgent]: CQA confidence "; Fmt confidence;
                Lit " < "; Fmt (Json.Num cqa_confidence);
                Lit ", falling back to Lumi"] ;;
         r <- StringResult_new
                (next_agent participant_descriptions "Lumi")
                "Low CQA confidence, routing to Lumi for deeper analysis." ;;
         ret (Some r)
     else
       type2 <- lift (get parsed "type") ;;
       if Json.eq_str type2 "clu_result" then
         print [Lit "[SYSTEM]: CLU result received, checking intent and entities..."] ;;
         response <- lift (getitem parsed "response") ;;
         result1 <- lift (getitem response "result") ;;
         conversations <- lift (getitem result1 "conversations") ;;
         conversation <- lift (getitem0 conversations) ;;
         intents <- lift (getitem conversation "intents") ;;
         intent0 <- lift (getitem0 intents) ;;
         intent <- lift (getitem intent0 "name") ;;
         response' <- lift (getitem parsed "response") ;;
         result2 <- lift (getitem response' "result") ;;
         conversations' <- lift (getitem result2 "conversations") ;;
         conversation' <- lift (getitem0 conversations') ;;
         intents' <- lift (getitem conversation' "intents") ;;
         intent0' <- lift (getitem0 intents') ;;
         confidence <- lift (getitem intent0' "confidenceScore") ;;
         print [Lit "[TriageAgent]: Detected intent '"; Fmt intent;
                Lit "' with confidence "; Fmt confidence] ;;
         above <- lift (ge_float confidence confidence_threshold) ;;
         if above : bool then
           print [Lit "[TriageAgent]: Routing to Lumi for SAGE agent selection..."] ;;
           r <- StringResult_new
                  (next_agent participant_descriptions "Lumi")
                  "Routing to Lumi for IRI domain agent selection." ;;
           ret (Some r)
         else
           print [Lit "[TriageAgent]: Low CLU confidence "; Fmt confidence;
                  Lit ", routing to Lumi for clarification"] ;;
           r <- StringResult_new
                  (next_agent participant_descriptions "Lumi")
                  "Low CLU confidence, Lumi will request clarification." ;;
           ret (Some r)
       else
         ret None)
    (fun e =>
       print [Lit "[SYSTEM]: Error processing TriageAgent message: "; FmtExn e] ;;
       r <- StringResult_new None "Error processing TriageAgent message." ;;
       ret (Some r)).

Definition route_lumi_message (last_message : ChatMessageContent)
    (participant_descriptions : gmap string string) : M StringResult :=
  try_except
    (parsed <- loads (content last_message) ;;
     target_agent <- lift (get parsed "target_agent") ;;
     iri_domains <- lift (get_default parsed "iri_domains" (Json.Arr [])) ;;
     print [Lit "[Lumi] Routing to "; Fmt target_agent;
            Lit " (IRI domains: "; Fmt iri_domains; Lit ")"] ;;
     target_agent' <-
       (if negb (Json.in_strs target_agent valid_agents) then
          print [Lit "[SYSTEM]: Unknown target agent '"; Fmt target_agent;
                 Lit "', defaulting to GovernanceAgent"] ;;
          ret "GovernanceAgent"
        else ret (str_of target_agent)) ;;
     domains <- lift (str_join ", " iri_domains) ;;
     StringResult_new
       (next_agent participant_descriptions target_agent')
       ("Routing to " +:+ target_agent' +:+ " for " +:+ domains
        +:+ " domain expertise."))
    (fun e =>
       print [Lit "[SYSTEM]: Error processing Lumi message: "; FmtExn e] ;;
       StringResult_new None "Error processing Lumi message.").

Definition route_sage_agent_message (last_message : ChatMessageContent)
    (participant_descriptions : gmap string string) : M StringResult :=
  try_except
    (parsed <- loads (content last_message) ;;
     response <- lift (get_default parsed "response" (Json.Str "")) ;;
     need_more_info <-
       lift (get_default parsed "need_more_info" (Json.Str "False")) ;;
     print [Lit "["; Lit (default "None" (name last_message));
            Lit "]: Response received, need_more_info="; Fmt need_more_info] ;;
     print [Lit "[TranslationAgent]: Translating response back to user language"] ;;
     StringResult_new
       (next_agent participant_descriptions "TranslationAgent")
       "Routing to TranslationAgent for final translation.")
    (fun e =>
       print [Lit "[SYSTEM]: Error processing SAGE agent message: "; FmtExn e] ;;
       StringResult_new None "Error processing SAGE agent message.").

(** *** Utility *)

(** [format_agent_response]: pretty-prints the message; only a
    [json.JSONDecodeError] is handled. *)
Definition format_agent_response (response : option ChatMessageContent)
  : M string :=
  match response with
  | None => ret ""
  | Some r =>
      try_except
        (parsed <- loads (content r) ;;
         print [Lit "["; Lit (display_name r); Lit "]:"; Lit nl;
                Dumps parsed; Lit nl])
        (fun e =>
           match e with
           | JSONDecodeError =>
               print [Lit "["; Lit (display_name r); Lit "]: ";
                      Lit (content r); Lit nl]
           | _ => raise e
           end) ;;
      ret (content r)
  end.

(** *** CustomGroupChatManager *)

Definition filter_results (chat_history : ChatHistory) : M MessageResult :=
  match last chat_history with
  | None =>
      ret (MkMessageResult
             (Message ASSISTANT None "No messages in chat history.")
             "Chat history is empty.")
  | Some last_message =>
      ret (MkMessageResult
             (Message ASSISTANT None (content last_message))
             "Returning the last agent's response.")
  end.

(** The bare [except: pass] swallows whatever the [try] body raises. *)
Definition should_request_user_input (chat_history : ChatHistory)
  : M BooleanResult :=
  flagged <-
    match last chat_history with
    | Some last_message =>
        try_except
          (parsed <- loads (content last_message) ;;
           need_more_info <- lift (get parsed "need_more_info") ;;
           ret (Json.eq_str need_more_info "True"))
          (fun _ => ret false)
    | None => ret false
    end ;;
  if flagged : bool then
    ret (MkBooleanResult true "Agent needs more information from user.")
  else
    ret (MkBooleanResult false "No user input required.").

(** [not last_message or last_message.role == AuthorRole.USER]. *)
Definition user_turn (last_message : option ChatMessageContent) : bool :=
  match last_message with
  | None => true
  | Some m => is_user (role m)
  end.

Definition select_next_agent (chat_history : ChatHistory)
    (participant_descriptions : gmap string string)
  : M (option StringResult) :=
  let last_message := last chat_history in
  format_agent_response last_message ;;
  match last_message with
  | None =>
      print [Lit "[SYSTEM]: User message received, routing to TranslationAgent..."] ;;
      r <- route_user_message participant_descriptions ;;
      ret (Some r)
  | Some m =>
      if user_turn last_message then
        print [Lit "[SYSTEM]: User message received, routing to TranslationAgent..."] ;;
        r <- route_user_message participant_descriptions ;;
        ret (Some r)
      else if name_is m "TranslationAgent" then
        if (3 <? length chat_history)%nat then
          print [Lit "[SYSTEM]: Final translation complete, terminating."] ;;
          r <- StringResult_new None "Final translation complete." ;;
          ret (Some r)
        else
          print [Lit "[SYSTEM]: Initial translation complete, routing to TriageAgent..."] ;;
          r <- route_translation_message m participant_descriptions ;;
          ret (Some r)
      else if name_is m "TriageAgent" then
        print [Lit "[SYSTEM]: Triage complete, routing based on result type..."] ;;
        route_triage_message m participant_descriptions
      else if name_is m "Lumi" then
        print [Lit "[SYSTEM]: Lumi routing to SAGE agent..."] ;;
        r <- route_lumi_message m participant_descriptions ;;
        ret (Some r)
      else if name_in m valid_agents then
        print [Lit "[SYSTEM]: "; Lit (default "None" (name m));
               Lit " response received, routing to TranslationAgent..."] ;;
        r <- route_sage_agent_message m participant_descriptions ;;
        ret (Some r)
      else
        print [Lit "[SYSTEM]: No valid routing logic found, terminating."] ;;
        r <- StringResult_new None "No valid routing logic found." ;;
        ret (Some r)
  end.

Definition should_terminate (chat_history : ChatHistory) : M BooleanResult :=
  match last chat_history with
  | None => ret (MkBooleanResult false "No messages in chat history.")
  | Some last_message =>
      if name_is last_message "TranslationAgent"
         && (3 <? length chat_history)%nat then
        print [Lit "[SYSTEM]: Final translation from ";
               Lit (default "None" (name last_message)); Lit ", terminating."] ;;
        ret (MkBooleanResult true "Chat terminated after final translation.")
      else
        ret (MkBooleanResult false "Chat continues.")
  end.

(** *** SemanticKernelOrchestrator.process_message *)

(** The behaviour of [self.orchestration] on a runtime and a task. *)
Variable orchestration : nat -> string -> attempt.

(** [self.max_retries]. *)
Variable max_retries : Z.

(** [InProcessRuntime()]: a runtime no earlier attempt has used. *)
Definition new_runtime : M nat :=
  fun w => (Returned (next_runtime w),
            World (console w) (S (next_runtime w))).

Definition runtime_start (runtime : nat) : M unit :=
  fun w => (Returned tt, emit (RuntimeStart runtime) w).

Definition invoke (task : string) (runtime : nat) : M get_outcome :=
  fun w =>
    match on_invoke (orchestration runtime task) with
    | InvokeRaises e => (Raised e, emit (Invoke runtime task) w)
    | InvokeReturns r => (Returned r, emit (Invoke runtime task) w)
    end.

Definition get_result (runtime : nat) (orchestration_result : get_outcome)
    (timeout : nat) : M string :=
  fun w =>
    match orchestration_result with
    | GetValue c => (Returned c, emit (Get runtime timeout) w)
    | GetRaises e => (Raised e, emit (Get runtime timeout) w)
    end.

Definition stop_when_idle (task : string) (runtime : nat) : M unit :=
  fun w =>
    match on_stop (orchestration runtime task) with
    | None => (Returned tt, emit (StopWhenIdle runtime) w)
    | Some e => (Raised e, emit (StopWhenIdle runtime) w)
    end.

Definition sleep (seconds : nat) : M unit :=
  fun w => (Returned tt, emit (Sleep seconds) w).

(** The [try ... finally] of one iteration.  [orchestration.invoke] sits
    in the outer [try], which has no [except] clause. *)
Definition run_attempt (task_content : string) (runtime : nat) : M iteration :=
  try_finally
    (orchestration_result <- invoke task_content runtime ;;
     try_except
       (value <- get_result runtime orchestration_result 120 ;;
        print [Lit nl; Lit "========================================"; Lit nl;
               Lit "Final Result:"; Lit nl; Lit value; Lit nl;
               Lit "========================================"] ;;
        final_response <- loads value ;;
        response <- lift (getitem final_response "response") ;;
        final_answer <- lift (getitem response "final_answer") ;;
        response' <- lift (getitem final_response "response") ;;
        need_more_info <-
          lift (get_default response' "need_more_info" (Json.Bool false)) ;;
        print [Lit "[SYSTEM]: Final answer delivered, need_more_info=";
               Fmt need_more_info] ;;
        ret (Return (FinalAnswer final_answer, need_more_info)))
       (fun e =>
          if is_timeout e then
            print [Lit "[TIMEOUT]: Orchestration timed out after 120 seconds"] ;;
            ret (Retry (Failure "timeout" "Orchestration timed out"))
          else
            print [Lit "[EXCEPTION]: Orchestration failed: "; FmtExn e] ;;
            ret (Retry (Failure "exception" (str_exn e)))))
    (try_except
       (stop_when_idle task_content runtime)
       (fun e =>
          print [Lit "[SHUTDOWN ERROR]: Runtime cleanup failed: "; FmtExn e])).

(** The [while retry_count < self.max_retries] loop and the code after it.
    [need_more_info] is still [False] whenever the loop is left by its
    condition.  Every iteration that does not leave the function adds one
    to [retry_count], so [max_retries - retry_count] iterations are enough:
    see [retry_loop_fuel]. *)
Fixpoint retry_loop (fuel : nat) (task_content : string) (retry_count : Z)
    (last_exception : option failure) : M (response_text * Json.value) :=
  let exhausted :=
    print [Lit "[FAILURE]: Max retries ("; FmtInt max_retries;
           Lit ") reached."] ;;
    ret (ErrorResult last_exception, Json.Bool false) in
  match fuel with
  | O => exhausted
  | S fuel' =>
      if (retry_count <? max_retries)%Z then
        print [Lit nl; Lit "[ATTEMPT "; FmtInt (retry_count + 1); Lit "/";
               FmtInt max_retries; Lit "] Starting orchestration..."] ;;
        runtime <- new_runtime ;;
        runtime_start runtime ;;
        it <- run_attempt task_content runtime ;;
        match it with
        | Return r => ret r
        | Retry e =>
            sleep 1 ;;
            retry_loop fuel' task_content (retry_count + 1) (Some e)
        end
      else exhausted
  end.

Definition process_message (task_content : string)
  : M (response_text * Json.value) :=
  retry_loop (Z.to_nat max_retries) task_content 0 None.

(** *** The manager of the test client

    [sk_orchestration_scripts/groupchat_client.py] carries its own
    [CustomGroupChatManager]; its functions are prefixed with [client_]. *)

(** [next((a for a in participant_descriptions.keys() if a == target), None)]
    for a [target] taken from a payload: only a [str] equals a key. *)
Definition next_agent_equal (participant_descriptions : gmap string string)
    (target : Json.value) : option string :=
  head (filter (λ agent, Json.eq_str target agent = true)
               (map_to_list participant_descriptions).*1).

Definition client_format_agent_response (response : option ChatMessageContent)
  : M string :=
  match response with
  | None => ret ""
  | Some r =>
      try_except
        (parsed <- loads (content r) ;;
         print [Lit "["; Lit (display_name r); Lit "]:"; Lit nl;
                Dumps parsed; Lit nl])
        (fun e =>
           match e with
           | JSONDecodeError =>
               print [Lit "["; Lit (display_name r); Lit "]: ";
                      Lit (content r); Lit nl]
           | _ => raise e
           end) ;;
      ret (content r)
  end.

Definition client_should_request_user_input (chat_history : ChatHistory)
  : M BooleanResult :=
  ret (MkBooleanResult false "No user input needed.").

(** The end of the client's [select_next_agent], reached by every branch
    that has not returned. *)
Definition client_no_match : M StringResult :=
  print [Lit "[SYSTEM]: No routing match, terminating."] ;;
  StringResult_new None "No routing logic matched.".

(** [str_value] is [str(v)], the text Python gives a decoded value in an
    f-string. *)
Definition client_select_next_agent (str_value : Json.value -> string)
    (chat_history : ChatHistory)
    (participant_descriptions : gmap string string) : M StringResult :=
  let last_message := last chat_history in
  client_format_agent_response last_message ;;
  if user_turn last_message then
    if (length chat_history =? 1)%nat then
      print [Lit "[SYSTEM]: User message, routing to TranslationAgent..."] ;;
      StringResult_new
        (next_agent participant_descriptions "TranslationAgent")
        "Initial translation."
    else client_no_match
  else
    match last_message with
    | None => client_no_match
    | Some m =>
        if name_is m "TranslationAgent" then
          try_except
            (parsed <- loads (content m) ;;
             response <- lift (get parsed "response") ;;
             print [Lit "[TranslationAgent] Translated:"; Lit " "; Fmt response] ;;
             StringResult_new
               (next_agent participant_descriptions "TriageAgent")
               "Routing to TriageAgent.")
            (fun e => StringResult_new None ("Error: " +:+ str_exn e))
        else if name_is m "TriageAgent" then
          decided <-
            try_except
              (parsed <- loads (content m) ;;
               type1 <- lift (get parsed "type") ;;
               if Json.eq_str type1 "cqa_result" then
                 print [Lit "[SYSTEM]: CQA result, terminating."] ;;
                 r <- StringResult_new None "CQA result received." ;;
                 ret (Some r)
               else
                 type2 <- lift (get parsed "type") ;;
                 if Json.eq_str type2 "clu_result" then
                   response <- lift (getitem parsed "response") ;;
                   result1 <- lift (getitem response "result") ;;
                   conversations <- lift (getitem result1 "conversations") ;;
                   conversation <- lift (getitem0 conversations) ;;
                   intents <- lift (getitem conversation "intents") ;;
                   intent0 <- lift (getitem0 intents) ;;
                   intent <- lift (getitem intent0 "name") ;;
                   print [Lit "[TriageAgent]: Intent '"; Fmt intent;
                          Lit "', routing to Lumi..."] ;;
                   r <- StringResult_new
                          (next_agent participant_descriptions "Lumi")
                          "Routing to Lumi for SAGE agent selection." ;;
                   ret (Some r)
                 else ret None)
              (fun e =>
                 print [Lit "[ERROR]: "; FmtExn e] ;;
                 r <- StringResult_new None "Error processing triage." ;;
                 ret (Some r)) ;;
          match decided with
          | Some r => ret r
          | None => client_no_match
          end
        else if name_is m "Lumi" then
          try_except
            (parsed <- loads (content m) ;;
             target <- lift (get parsed "target_agent") ;;
             print [Lit "[Lumi]: Routing to "; Fmt target] ;;
             StringResult_new
               (next_agent_equal participant_descriptions target)
               ("Routing to " +:+ str_value target +:+ "."))
            (fun e => StringResult_new None ("Error: " +:+ str_exn e))
        else if name_in m valid_agents then
          print [Lit "["; Lit (default "None" (name m));
                 Lit "]: Response received, routing to TranslationAgent..."] ;;
          StringResult_new
            (next_agent participant_descriptions "TranslationAgent")
            "Final translation."
        else client_no_match
    end.

Definition client_should_terminate (chat_history : ChatHistory)
  : M BooleanResult :=
  match last chat_history with
  | None => ret (MkBooleanResult false "No messages.")
  | Some last_message =>
      if name_is last_message "TranslationAgent"
         && (3 <? length chat_history)%nat then
        ret (MkBooleanResult true "Final translation complete.")
      else
        ret (MkBooleanResult false "Continue.")
  end.

(** *** Views of the retry loop used in the statements below *)

(** What an attempt on [runtime] comes to; it does not depend on the world
    the attempt starts in (see [run_attempt_emits]). *)
Definition attempt_outcome (task_content : string) (runtime : nat)
  : outcome iteration :=
  fst (run_attempt task_content runtime (World [] 0)).

(** The [last_exception] recorded for an exception caught from [get]. *)
Definition classify (e : exn) : failure :=
  if is_timeout e then Failure "timeout" "Orchestration timed out"
  else Failure "exception" (str_exn e).

(** The loop read off the outcomes of its attempts: [attempts] iterations
    are left, the next one runs on [runtime]. *)
Fixpoint loop_outcome (attempts : nat) (task_content : string) (runtime : nat)
    (last_exception : option failure)
  : outcome (response_text * Json.value) :=
  match attempts with
  | O => Returned (ErrorResult last_exception, Json.Bool false)
  | S attempts' =>
      match attempt_outcome task_content runtime with
      | Returned (Return r) => Returned r
      | Returned (Retry e) =>
          loop_outcome attempts' task_content (S runtime) (Some e)
      | Raised e => Raised e
      end
  end.

(** ** Properties *)

(** *** Reasoning about computations *)

Ltac mred :=
  cbv beta iota zeta delta
    [bind try_except try_finally ret raise lift print loads StringResult_new
     fst snd].

Lemma world_eta (w : world) : World (console w ++ []) (next_runtime w) = w.
Proof. destruct w; simpl; by rewrite app_nil_r. Qed.

Lemma emits_ret {A} (P : event -> Prop) (a : A) : emits P (ret a).
Proof.
  exists (Returned a), []. split; [constructor|].
  intros w. unfold ret. by rewrite world_eta.
Qed.

Lemma emits_raise {A} (P : event -> Prop) (e : exn) : emits P (@raise A e).
Proof.
  exists (Raised e), []. split; [constructor|].
  intros w. unfold raise. by rewrite world_eta.
Qed.

Lemma emits_print (P : event -> Prop) (line : list fragment) :
  P (Print line) -> emits P (print line).
Proof.
  intros HP. exists (Returned tt), [Print line]. split.
  - by repeat constructor.
  - reflexivity.
Qed.

Lemma emits_lift {A} (P : event -> Prop) (r : exn + A) : emits P (lift r).
Proof. destruct r; [apply emits_raise | apply emits_ret]. Qed.

Lemma emits_StringResult_new (P : event -> Prop) (r : option string)
    (why : string) :
  emits P (StringResult_new r why).
Proof. destruct r; [apply emits_ret | apply emits_raise]. Qed.

Lemma emits_loads (P : event -> Prop) (s : string) : emits P (loads s).
Proof.
  unfold loads. destruct (json_loads s); [apply emits_ret | apply emits_raise].
Qed.

Lemma emits_bind {A B} (P : event -> Prop) (m : M A) (k : A -> M B) :
  emits P m -> (forall a, emits P (k a)) -> emits P (bind m k).
Proof.
  intros (r & out & Hout & Hm) Hk. destruct r as [a|e].
  - destruct (Hk a) as (r' & out' & Hout' & Hka).
    exists r', (out ++ out'). split; [by apply Forall_app|].
    intros w. unfold bind. rewrite Hm, Hka. simpl. by rewrite app_assoc.
  - exists (Raised e), out. split; [done|].
    intros w. unfold bind. by rewrite Hm.
Qed.

Lemma emits_try_except {A} (P : event -> Prop) (body : M A)
    (handler : exn -> M A) :
  emits P body -> (forall e, emits P (handler e)) ->
  emits P (try_except body handler).
Proof.
  intros (r & out & Hout & Hm) Hh. destruct r as [a|e].
  - exists (Returned a), out. split; [done|].
    intros w. unfold try_except. by rewrite Hm.
  - destruct (Hh e) as (r' & out' & Hout' & Hhe).
    exists r', (out ++ out'). split; [by apply Forall_app|].
    intros w. unfold try_except. rewrite Hm, Hhe. simpl. by rewrite app_assoc.
Qed.

Lemma emits_try_finally {A} (P : event -> Prop) (body : M A)
    (cleanup : M unit) :
  emits P body -> emits P cleanup -> emits P (try_finally body cleanup).
Proof.
  intros (r & out & Hout & Hm) (r' & out' & Hout' & Hc).
  exists (match r' with Returned _ => r | Raised e => Raised e end), (out ++ out').
  split; [by apply Forall_app|].
  intros w. unfold try_finally. rewrite Hm, Hc. simpl. rewrite app_assoc.
  by destruct r'.
Qed.

Lemma emits_weaken {A} (P Q : event -> Prop) (m : M A) :
  (forall ev, P ev -> Q ev) -> emits P m -> emits Q m.
Proof.
  intros HPQ (r & out & Hout & Hm). exists r, out. split; [|done].
  eapply Forall_impl; eauto.
Qed.

(** The outcome of such a computation does not depend on the world. *)
Lemma emits_outcome {A} (P : event -> Prop) (m : M A) :
  emits P m -> forall w1 w2, fst (m w1) = fst (m w2).
Proof. intros (r & out & _ & Hm) w1 w2. by rewrite !Hm. Qed.

Lemma emits_world {A} (P : event -> Prop) (m : M A) :
  emits P m ->
  forall w, exists out,
    Forall P out
    /\ console (snd (m w)) = console w ++ out
    /\ next_runtime (snd (m w)) = next_runtime w.
Proof. intros (r & out & Hout & Hm) w. exists out. by rewrite Hm. Qed.

Ltac emits_steps :=
  repeat first
    [ apply emits_ret
    | apply emits_raise
    | apply emits_print; exact I
    | apply emits_lift
    | apply emits_loads
    | apply emits_StringResult_new
    | apply emits_bind; [| intros ?]
    | apply emits_try_except; [| intros ?]
    | match goal with
      | |- emits _ (if ?b then _ else _) => destruct b
      | |- emits _ (match ?x with _ => _ end) => destruct x
      end ].

(** *** The registry lookup *)

Lemma head_filter_eq (x : string) (l : list string) :
  head (filter (λ a, a = x) l) = if decide (x ∈ l) then Some x else None.
Proof.
  induction l as [|a l IH]; simpl.
  - reflexivity.
  - destruct (decide (a = x)) as [->|Hne].
    + rewrite filter_cons_True by reflexivity. simpl.
      rewrite decide_True; [reflexivity | left].
    + rewrite filter_cons_False by assumption. rewrite IH.
      destruct (decide (x ∈ l)) as [Hin|Hnin].
      * rewrite decide_True; [reflexivity | by right].
      * rewrite decide_False; [reflexivity|].
        intros [Heq|Hin]%elem_of_cons; [by subst | done].
Qed.

(** The generator expression finds the wanted name exactly when the registry
    has it. *)
Lemma next_agent_registered (p : gmap string string) (x : string) :
  next_agent p x = if registered p x then Some x else None.
Proof.
  unfold next_agent, registered. rewrite head_filter_eq.
  destruct (p !! x) as [d|] eqn:E.
  - rewrite decide_True; [reflexivity|].
    apply list_elem_of_fmap. exists (x, d). split; [reflexivity|].
    by apply elem_of_map_to_list.
  - rewrite decide_False; [reflexivity|].
    intros [[k d] [-> Hin]]%list_elem_of_fmap.
    apply elem_of_map_to_list in Hin. simpl in E. congruence.
Qed.

(** *** The routing functions only print *)

Lemma route_user_message_prints p : emits is_print (route_user_message p).
Proof. unfold route_user_message. emits_steps. Qed.

Lemma route_translation_message_prints m p :
  emits is_print (route_translation_message m p).
Proof. unfold route_translation_message. emits_steps. Qed.

Lemma route_triage_message_prints m p :
  emits is_print (route_triage_message m p).
Proof. unfold route_triage_message. emits_steps. Qed.

Lemma route_lumi_message_prints m p :
  emits is_print (route_lumi_message m p).
Proof. unfold route_lumi_message. emits_steps. Qed.

Lemma route_sage_agent_message_prints m p :
  emits is_print (route_sage_agent_message m p).
Proof. unfold route_sage_agent_message. emits_steps. Qed.

Lemma format_agent_response_prints r :
  emits is_print (format_agent_response r).
Proof. unfold format_agent_response. emits_steps. Qed.

Lemma select_next_agent_prints h p :
  emits is_print (select_next_agent h p).
Proof.
  unfold select_next_agent.
  apply emits_bind; [apply format_agent_response_prints | intros _].
  destruct (last h) as [m|].
  - repeat match goal with
           | |- emits _ (if ?b then _ else _) => destruct b
           end;
      repeat first
        [ apply emits_ret
        | apply emits_print; exact I
        | apply emits_StringResult_new
        | apply route_user_message_prints
        | apply route_translation_message_prints
        | apply route_triage_message_prints
        | apply route_lumi_message_prints
        | apply route_sage_agent_message_prints
        | apply emits_bind; [| intros ?] ].
  - repeat first
      [ apply emits_ret
      | apply emits_print; exact I
      | apply route_user_message_prints
      | apply emits_bind; [| intros ?] ].
Qed.

(** *** Termination, clarification and result filtering *)

Lemma name_is_true (m : ChatMessageContent) (s : string) :
  name_is m s = true <-> name m = Some s.
Proof.
  unfold name_is. destruct (name m) as [n|].
  - rewrite String.eqb_eq. split; congruence.
  - split; discriminate.
Qed.

(** C1 (amended): [should_terminate] always returns, and it answers true
    exactly when the latest turn's name is TranslationAgent and the log holds
    more than three turns; the length test stands where the specification
    speaks of a Translator turn that is not the first of the exchange. *)
Theorem should_terminate_length (chat_history : ChatHistory) (w : world) :
  exists r,
    fst (should_terminate chat_history w) = Returned r
    /\ (bresult r = true <->
        exists m, last chat_history = Some m
                  /\ name m = Some "TranslationAgent"
                  /\ 3 < length chat_history).
Proof.
  unfold should_terminate. destruct (last chat_history) as [m|] eqn:Hlast.
  - destruct (name_is m "TranslationAgent") eqn:Hname;
      destruct (3 <? length chat_history)%nat eqn:Hlen; simpl.
    + eexists. split; [reflexivity|]. simpl. split; [intros _|done].
      exists m. split; [done|]. split; [by apply name_is_true|].
      by apply Nat.ltb_lt.
    + eexists. split; [reflexivity|]. simpl. split; [done|].
      intros (m' & _ & _ & Hlt). apply Nat.ltb_ge in Hlen. lia.
    + eexists. split; [reflexivity|]. simpl. split; [done|].
      intros (m' & Hm' & Hn & _). inversion Hm'; subst m'.
      apply name_is_true in Hn. congruence.
    + eexists. split; [reflexivity|]. simpl. split; [done|].
      intros (m' & _ & _ & Hlt). apply Nat.ltb_ge in Hlen. lia.
  - eexists. split; [reflexivity|]. simpl. split; [done|].
    intros (m' & Hm' & _). discriminate.
Qed.

(** On a log whose second turn is the first translation (the user's turn
    comes first), a true answer of [should_terminate] does mean that the
    latest Translator turn is a later one. *)
Lemma should_terminate_later_turn (u t : ChatMessageContent)
    (rest : ChatHistory) (w : world) (r : BooleanResult) :
  translator_turn t = true ->
  fst (should_terminate (u :: t :: rest) w) = Returned r ->
  bresult r = true ->
  later_translator_turn (u :: t :: rest) = true.
Proof.
  intros Ht Hrun Htrue.
  assert (exists m, last (u :: t :: rest) = Some m
                    /\ name m = Some "TranslationAgent"
                    /\ 3 < length (u :: t :: rest))
    as (m & Hlast & Hname & Hlen).
  { revert Hrun. unfold should_terminate.
    destruct (last (u :: t :: rest)) as [m|]; [|intros [= <-]; discriminate].
    destruct (name_is m "TranslationAgent") eqn:Hm;
      destruct (3 <? length (u :: t :: rest))%nat eqn:Hl;
      cbn [andb]; mred; intros [= <-]; try discriminate.
    exists m. split; [done|]. split; [by apply name_is_true|].
    by apply Nat.ltb_lt. }
  unfold later_translator_turn.
  destruct rest as [|x rest] using rev_ind; [simpl in Hlen; lia|].
  clear IHrest.
  change (u :: t :: rest ++ [x]) with ((u :: t :: rest) ++ [x]) in *.
  rewrite last_snoc in Hlast. inversion Hlast; subst x.
  rewrite rev_unit.
  apply andb_true_intro. split.
  - by apply name_is_true.
  - apply existsb_exists. exists t. split; [|done].
    apply in_rev. rewrite rev_involutive. right. by left.
Qed.

(** C7: [should_request_user_input] always returns; its answer is true
    exactly when the latest turn's payload decodes to an object whose field
    [need_more_info] is the string "True"; it takes the log alone (no
    registry, no routing decision), prints nothing and leaves the world as
    it found it. *)
Theorem should_request_user_input_flag (chat_history : ChatHistory)
    (w : world) :
  exists r,
    should_request_user_input chat_history w = (Returned r, w)
    /\ (bresult r = true <->
        exists m items,
          last chat_history = Some m
          /\ json_loads (content m) = Some (Json.Obj items)
          /\ Json.lookup "need_more_info" items = Some (Json.Str "True")).
Proof.
  unfold should_request_user_input.
  destruct (last chat_history) as [m|] eqn:Hlast; mred.
  2:{ eexists. split; [reflexivity|]. simpl. split; [done|].
      intros (m & items & Hm & _). discriminate. }
  destruct (json_loads (content m)) as [parsed|] eqn:Hparse; mred.
  2:{ eexists. split; [reflexivity|]. simpl. split; [done|].
      intros (m' & items & Hm' & Hj & _). congruence. }
  destruct parsed as [| b | q | s | l | items];
    try (eexists; split; [reflexivity|]; simpl; split; [done|];
         intros (m' & items' & Hm' & Hj & _); congruence).
  unfold get, get_default.
  destruct (Json.lookup "need_more_info" items) as [v|] eqn:Hflag; mred.
  2:{ eexists. split; [reflexivity|]. simpl. split; [done|].
      intros (m' & items' & Hm' & Hj & Hl). congruence. }
  destruct (Json.eq_str v "True") eqn:Heq.
  - eexists. split; [reflexivity|]. simpl. split; [intros _|done].
    exists m, items. split; [done|]. split; [done|].
    destruct v; try discriminate. simpl in Heq.
    apply String.eqb_eq in Heq. by subst.
  - eexists. split; [reflexivity|]. simpl. split; [done|].
    intros (m' & items' & Hm' & Hj & Hl).
    assert (v = Json.Str "True") as -> by congruence.
    discriminate.
Qed.

(** What [select_next_agent] comes to does not depend on what was printed
    or started before. *)
Lemma select_next_agent_outcome (chat_history : ChatHistory)
    (participant_descriptions : gmap string string) (w1 w2 : world) :
  fst (select_next_agent chat_history participant_descriptions w1)
  = fst (select_next_agent chat_history participant_descriptions w2).
Proof.
  eapply emits_outcome. apply select_next_agent_prints.
Qed.

(** C10: [filter_results] never raises: on an empty history it returns an
    assistant message with the fixed content, on any other history an
    assistant message with the content of the last message, unchanged. *)
Theorem filter_results_total (chat_history : ChatHistory) (w : world) :
  exists r,
    filter_results chat_history w = (Returned r, w)
    /\ role (mresult r) = ASSISTANT
    /\ content (mresult r)
       = match last chat_history with
         | None => "No messages in chat history."
         | Some last_message => content last_message
         end.
Proof.
  unfold filter_results. destruct (last chat_history) as [m|];
    eexists; (split; [reflexivity|]); split; reflexivity.
Qed.

(** *** Next-speaker selection *)

(** [format_agent_response] returns unless [json.loads] raises something
    other than a [JSONDecodeError]. *)
Lemma format_agent_response_returns (r : option ChatMessageContent) (w : world) :
  (forall m, r = Some m -> loads_safe (content m)) ->
  exists s pre,
    Forall is_print pre
    /\ format_agent_response r w
       = (Returned s, World (console w ++ pre) (next_runtime w)).
Proof.
  intros Hsafe.
  destruct r as [m|]; unfold format_agent_response; mred.
  - specialize (Hsafe m eq_refl). unfold loads_safe in Hsafe.
    destruct (json_loads (content m)); mred.
    + eexists _, [_]. split; [|reflexivity]. by repeat constructor.
    + rewrite Hsafe by reflexivity.
      eexists _, [_]. split; [|reflexivity]. by repeat constructor.
  - exists "", []. split; [constructor|]. by rewrite world_eta.
Qed.

(** Any other exception of [json.loads] leaves [format_agent_response], and
    with it [select_next_agent], whoever spoke last. *)
Lemma format_agent_response_escapes (m : ChatMessageContent) (w : world) :
  json_loads (content m) = None ->
  json_error (content m) <> JSONDecodeError ->
  format_agent_response (Some m) w = (Raised (json_error (content m)), w).
Proof.
  intros Hnone Hother. unfold format_agent_response. mred. rewrite Hnone.
  by destruct (json_error (content m)).
Qed.

(** [select_next_agent] on a participant's turn: after the lines it prints
    itself, the decision is the one of the branch chosen by the speaker's
    name. *)
Lemma select_next_agent_dispatch (h : ChatHistory) (p : gmap string string)
    (w : world) (m : ChatMessageContent) :
  last h = Some m ->
  is_user (role m) = false ->
  loads_safe (content m) ->
  exists pre,
    Forall is_print pre
    /\ let w' := World (console w ++ pre) (next_runtime w) in
       select_next_agent h p w =
         if name_is m "TranslationAgent" then
           if (3 <? length h)%nat then (Raised ValidationError, w')
           else wrap (route_translation_message m p w')
         else if name_is m "TriageAgent" then route_triage_message m p w'
         else if name_is m "Lumi" then wrap (route_lumi_message m p w')
         else if name_in m valid_agents then wrap (route_sage_agent_message m p w')
         else (Raised ValidationError, w').
Proof.
  intros Hlast Huser Hsafe.
  destruct (format_agent_response_returns (Some m) w) as (s & pre & Hpre & Hfmt).
  { by intros m' [= <-]. }
  unfold select_next_agent. rewrite Hlast. unfold user_turn. rewrite Huser.
  unfold bind at 1. rewrite Hfmt.
  assert (Hsnoc : forall line,
             Forall is_print (pre ++ [Print line])).
  { intros line. apply Forall_app. split; [done | by repeat constructor]. }
  assert (Hw : forall line,
             emit (Print line) (World (console w ++ pre) (next_runtime w))
             = World (console w ++ (pre ++ [Print line])) (next_runtime w)).
  { intros line. unfold emit. simpl. by rewrite app_assoc. }
  destruct (name_is m "TranslationAgent").
  { destruct (3 <? length h)%nat; eexists; (split; [apply Hsnoc|]); simpl;
      mred; rewrite Hw.
    - reflexivity.
    - reflexivity. }
  destruct (name_is m "TriageAgent").
  { eexists; (split; [apply Hsnoc|]); simpl; mred; rewrite Hw. reflexivity. }
  destruct (name_is m "Lumi").
  { eexists; (split; [apply Hsnoc|]); simpl; mred; rewrite Hw.
    reflexivity. }
  destruct (name_in m valid_agents).
  { eexists; (split; [apply Hsnoc|]); simpl; mred; rewrite Hw.
    reflexivity. }
  eexists; (split; [apply Hsnoc|]); simpl; mred; rewrite Hw. reflexivity.
Qed.

Lemma name_is_other (m : ChatMessageContent) (s t : string) :
  name m = Some s -> s <> t -> name_is m t = false.
Proof.
  intros Hn Hne. unfold name_is. rewrite Hn. by apply String.eqb_neq.
Qed.

(** *** The Dispatcher's turn *)

Lemma in_strs_names_responder (items : list (string * Json.value)) :
  Json.in_strs (default Json.Null (Json.lookup "target_agent" items))
    valid_agents
  = names_responder items.
Proof.
  unfold names_responder.
  destruct (Json.lookup "target_agent" items) as [[| | | | |]|]; reflexivity.
Qed.

Lemma names_responder_valid (items : list (string * Json.value)) :
  names_responder items = true ->
  exists t, Json.lookup "target_agent" items = Some (Json.Str t)
            /\ In t valid_agents.
Proof.
  unfold names_responder.
  destruct (Json.lookup "target_agent" items) as [[| | | t | |]|];
    try discriminate.
  intros (t' & Hin & Heq)%existsb_exists. apply String.eqb_eq in Heq.
  subst t'. eauto.
Qed.

Lemma str_join_joinable (sep : string) (v : Json.value) :
  str_join sep v
  = if joinable v
    then inr (match v with
              | Json.Arr items => join sep (map str_of items)
              | Json.Str s => join sep (chars s)
              | Json.Obj items => join sep (map fst items)
              | _ => ""
              end)
    else inl TypeError.
Proof. destruct v; simpl; try reflexivity. Qed.

Lemma chosen_responder_valid (items : list (string * Json.value)) :
  In (chosen_responder items) valid_agents.
Proof.
  unfold chosen_responder. destruct (names_responder items) eqn:Hn.
  - apply names_responder_valid in Hn as (t & -> & Hin). exact Hin.
  - simpl. tauto.
Qed.

(** A decoded object with joinable [iri_domains]: the chosen responder is
    looked up in the registry, and the substitution of the default is
    printed when it happens.  A responder missing from the registry makes
    the constructor raise, and the [except] clause raises in its turn. *)
Lemma route_lumi_message_object (m : ChatMessageContent)
    (p : gmap string string) (w : world) (items : list (string * Json.value)) :
  json_loads (content m) = Some (Json.Obj items) ->
  domains_joinable items = true ->
  exists why line,
    let out := Print line
               :: (if names_responder items then []
                   else [substitution_line items]) in
    route_lumi_message m p w
    = if registered p (chosen_responder items) then
        (Returned (MkStringResult (chosen_responder items) why),
         World (console w ++ out) (next_runtime w))
      else
        (Raised ValidationError,
         World (console w
                ++ out
                ++ [Print [Lit "[SYSTEM]: Error processing Lumi message: ";
                           FmtExn ValidationError]])
               (next_runtime w)).
Proof.
  intros Hparse Hjoin.
  unfold route_lumi_message. mred. rewrite Hparse.
  unfold get, get_default. mred.
  set (target := match Json.lookup "target_agent" items with
                 | Some x => x | None => Json.Null end).
  assert (Htarget : target = default Json.Null (Json.lookup "target_agent" items))
    by (subst target; by destruct (Json.lookup "target_agent" items)).
  set (domains := match Json.lookup "iri_domains" items with
                  | Some x => x | None => Json.Arr [] end).
  assert (Hdomains : joinable domains = true).
  { subst domains. unfold domains_joinable in Hjoin.
    by destruct (Json.lookup "iri_domains" items). }
  unfold chosen_responder, substitution_line.
  rewrite <- in_strs_names_responder, <- Htarget.
  destruct (Json.lookup "target_agent" items) as [t|] eqn:Ht;
    destruct (Json.lookup "iri_domains" items) as [d|] eqn:Hd;
    subst target domains; simpl in Htarget; mred;
    rewrite str_join_joinable, Hdomains;
    destruct (Json.in_strs _ valid_agents); cbn [negb]; mred;
    rewrite next_agent_registered;
    (destruct (registered p _);
     [ mred; unfold emit; simpl; rewrite <- ?app_assoc; simpl;
       eexists _, _; reflexivity
     | mred; unfold emit; simpl; rewrite <- ?app_assoc; simpl;
       exists ""; eexists; reflexivity ]).
Qed.

(** Anything else ends in the [except] clause, whose own [StringResult]
    is refused: the function raises. *)
Lemma route_lumi_message_error (m : ChatMessageContent)
    (p : gmap string string) (w : world) :
  (forall items, json_loads (content m) = Some (Json.Obj items) ->
                 domains_joinable items = false) ->
  fst (route_lumi_message m p w) = Raised ValidationError.
Proof.
  intros Hbad. unfold route_lumi_message. mred.
  destruct (json_loads (content m)) as [[| b | q | s | l | items]|] eqn:Hparse;
    try reflexivity.
  specialize (Hbad items eq_refl). unfold domains_joinable in Hbad.
  unfold get, get_default. mred.
  destruct (Json.lookup "target_agent" items) as [t|];
    destruct (Json.lookup "iri_domains" items) as [d|]; try discriminate;
    mred; rewrite str_join_joinable, Hbad;
    destruct (Json.in_strs _ valid_agents); reflexivity.
Qed.

(** C5 (amended): on a Dispatcher (Lumi) turn whose payload decodes to an
    object that does not name one of the four known Domain Responders and
    whose [iri_domains] is absent or can be joined, with GovernanceAgent in
    the registry, [select_next_agent] returns GovernanceAgent as the next
    speaker, and the console receives the line that records the
    substitution. *)
Theorem select_next_agent_unknown_target (chat_history : ChatHistory)
    (participant_descriptions : gmap string string) (w : world)
    (m : ChatMessageContent) (items : list (string * Json.value)) :
  last chat_history = Some m ->
  is_user (role m) = false ->
  name m = Some "Lumi" ->
  json_loads (content m) = Some (Json.Obj items) ->
  names_responder items = false ->
  domains_joinable items = true ->
  registered participant_descriptions "GovernanceAgent" = true ->
  exists r out,
    select_next_agent chat_history participant_descriptions w
    = (Returned (Some r), World (console w ++ out) (next_runtime w))
    /\ result r = "GovernanceAgent"
    /\ In (substitution_line items) out.
Proof.
  intros Hlast Huser Hname Hparse Hunknown Hjoin Hreg.
  destruct (select_next_agent_dispatch chat_history participant_descriptions
              w m Hlast Huser) as (pre & _ & Hrun).
  { intros Hnone. congruence. }
  simpl in Hrun.
  rewrite (name_is_other m "Lumi" "TranslationAgent") in Hrun by done.
  rewrite (name_is_other m "Lumi" "TriageAgent") in Hrun by done.
  rewrite (proj2 (name_is_true m "Lumi") Hname) in Hrun.
  destruct (route_lumi_message_object m participant_descriptions
              (World (console w ++ pre) (next_runtime w)) items Hparse Hjoin)
    as (why & line & Hroute).
  cbv zeta in Hroute. unfold chosen_responder in Hroute.
  rewrite Hunknown, Hreg in Hroute.
  rewrite Hroute in Hrun. simpl in Hrun.
  rewrite <- app_assoc in Hrun.
  eexists _, _. split; [exact Hrun|]. split; [reflexivity|].
  apply in_or_app. right. right. by left.
Qed.

(** C9 (amended): with the four Domain Responders in the registry, for a
    payload that decodes to an object whose [iri_domains] is absent or
    joinable [route_lumi_message] returns one of the four known names,
    GovernanceAgent whenever [target_agent] is absent, null or not one of
    them.  Whenever it returns a result at all, the result names one of the
    four and the payload is such an object: a payload that is not valid
    JSON, valid JSON that is not an object, or an object whose
    [iri_domains] cannot be joined, selects no responder. *)
Theorem route_lumi_message_choice (m : ChatMessageContent)
    (participant_descriptions : gmap string string) (w : world) :
  (forall a, In a valid_agents -> registered participant_descriptions a = true) ->
  (forall items,
      json_loads (content m) = Some (Json.Obj items) ->
      domains_joinable items = true ->
      exists r,
        fst (route_lumi_message m participant_descriptions w) = Returned r
        /\ In (result r) valid_agents
        /\ (names_responder items = false -> result r = "GovernanceAgent"))
  /\ (forall r,
        fst (route_lumi_message m participant_descriptions w) = Returned r ->
        In (result r) valid_agents
        /\ exists items,
             json_loads (content m) = Some (Json.Obj items)
             /\ domains_joinable items = true).
Proof.
  intros Hreg. split.
  - intros items Hparse Hjoin.
    destruct (route_lumi_message_object m participant_descriptions w items
                Hparse Hjoin) as (why & line & Hroute).
    cbv zeta in Hroute.
    rewrite (Hreg _ (chosen_responder_valid items)) in Hroute.
    rewrite Hroute. eexists. split; [reflexivity|]. simpl.
    split; [apply chosen_responder_valid|].
    intros Hunknown. unfold chosen_responder. by rewrite Hunknown.
  - intros r Hrun.
    destruct (json_loads (content m)) as [[| b | q | s | l | items]|] eqn:Hparse;
      try (rewrite route_lumi_message_error in Hrun;
           [discriminate | intros items Heq; rewrite Hparse in Heq;
                           discriminate]).
    destruct (domains_joinable items) eqn:Hjoin.
    + destruct (route_lumi_message_object m participant_descriptions w items
                  Hparse Hjoin) as (why & line & Hroute).
      cbv zeta in Hroute. rewrite Hroute in Hrun.
      destruct (registered participant_descriptions (chosen_responder items));
        [|discriminate].
      injection Hrun as <-. simpl.
      split; [apply chosen_responder_valid | eauto].
    + rewrite route_lumi_message_error in Hrun; [discriminate|].
      intros items' Heq. rewrite Hparse in Heq. by injection Heq as <-.
Qed.

(** *** The Router's turn *)

Lemma route_triage_message_cqa (m : ChatMessageContent)
    (p : gmap string string) (w : world) (parsed : Json.value)
    (confidence : Q) :
  json_loads (content m) = Some parsed ->
  cqa_result parsed confidence ->
  exists why,
    fst (route_triage_message m p w)
    = let next := if Qle_bool cqa_confidence confidence
                  then "TranslationAgent" else "Lumi" in
      if registered p next then Returned (Some (MkStringResult next why))
      else Raised ValidationError.
Proof.
  intros Hparse (top & response & answer & others & -> & Htype & Hresp & Hans & Hconf).
  unfold route_triage_message. mred. rewrite Hparse.
  unfold get, get_default, getitem, getitem0, ge_float. mred.
  rewrite Htype.
  change (Json.eq_str (Json.Str "cqa_result") "cqa_result") with true.
  mred.
  rewrite Hresp. mred. rewrite Hans. mred. rewrite Hconf. mred.
  destruct (Qle_bool cqa_confidence confidence); mred;
    rewrite next_agent_registered;
    (destruct (registered p _); [eexists; reflexivity | by exists ""]).
Qed.

Lemma route_triage_message_clu (m : ChatMessageContent)
    (p : gmap string string) (w : world) (parsed intent : Json.value)
    (confidence : Q) :
  json_loads (content m) = Some parsed ->
  clu_result parsed intent confidence ->
  exists why,
    fst (route_triage_message m p w)
    = if registered p "Lumi" then Returned (Some (MkStringResult "Lumi" why))
      else Raised ValidationError.
Proof.
  intros Hparse (top & response & result1 & conversation & conversations
                 & top_intent & intents & -> & Htype & Hresp & Hres & Hconv
                 & Hint & Hname & Hconf).
  unfold route_triage_message. mred. rewrite Hparse.
  unfold get, get_default, getitem, getitem0, ge_float. mred.
  rewrite Htype.
  change (Json.eq_str (Json.Str "clu_result") "cqa_result") with false.
  change (Json.eq_str (Json.Str "clu_result") "clu_result") with true.
  mred.
  rewrite Hresp. mred. rewrite Hres. mred. rewrite Hconv. mred.
  rewrite Hint. mred. rewrite Hname. mred. rewrite Hconf. mred.
  destruct (Qle_bool confidence_threshold confidence); mred;
    rewrite next_agent_registered;
    (destruct (registered p _); [eexists; reflexivity | by exists ""]).
Qed.

(** C4: on a Router (TriageAgent) turn whose payload decodes to a FAQ
    result or to an intent result, with Translator and Dispatcher in the
    registry: a FAQ match whose top answer's confidence is above the FAQ
    threshold is followed by the Translator; a FAQ match below the threshold
    and an intent result of any confidence are followed by the Dispatcher
    (Lumi). *)
Theorem select_next_agent_after_router (chat_history : ChatHistory)
    (participant_descriptions : gmap string string) (w : world)
    (m : ChatMessageContent) (parsed : Json.value) (expected : string) :
  last chat_history = Some m ->
  is_user (role m) = false ->
  name m = Some "TriageAgent" ->
  json_loads (content m) = Some parsed ->
  registered participant_descriptions "TranslationAgent" = true ->
  registered participant_descriptions "Lumi" = true ->
  router_expectation cqa_confidence parsed expected ->
  exists r,
    fst (select_next_agent chat_history participant_descriptions w)
    = Returned (Some r)
    /\ result r = expected.
Proof.
  intros Hlast Huser Hname Hparse Htr Hlumi Hexp.
  destruct (select_next_agent_dispatch chat_history participant_descriptions
              w m Hlast Huser) as (pre & _ & Hrun).
  { intros Hnone. congruence. }
  simpl in Hrun.
  rewrite (name_is_other m "TriageAgent" "TranslationAgent") in Hrun by done.
  rewrite (proj2 (name_is_true m "TriageAgent") Hname) in Hrun.
  rewrite Hrun. clear Hrun.
  destruct Hexp as [confidence Hcqa Habove | confidence Hcqa Hbelow
                   | intent confidence Hclu].
  - destruct (route_triage_message_cqa m participant_descriptions
                (World (console w ++ pre) (next_runtime w)) parsed confidence
                Hparse Hcqa) as (why & ->).
    assert (Qle_bool cqa_confidence confidence = true) as ->.
    { apply Qle_bool_iff. by apply Qlt_le_weak. }
    cbv zeta. rewrite Htr. eauto.
  - destruct (route_triage_message_cqa m participant_descriptions
                (World (console w ++ pre) (next_runtime w)) parsed confidence
                Hparse Hcqa) as (why & ->).
    assert (Qle_bool cqa_confidence confidence = false) as ->.
    { apply not_true_is_false. intros Hle%Qle_bool_iff.
      by apply Qlt_not_le in Hbelow. }
    cbv zeta. rewrite Hlumi. eauto.
  - destruct (route_triage_message_clu m participant_descriptions
                (World (console w ++ pre) (next_runtime w)) parsed intent
                confidence Hparse Hclu) as (why & ->).
    rewrite Hlumi. eauto.
Qed.

(** *** Payloads that are not JSON *)

Lemma route_translation_message_invalid (m : ChatMessageContent)
    (p : gmap string string) (w : world) :
  json_loads (content m) = None ->
  fst (route_translation_message m p w) = Raised ValidationError.
Proof.
  intros Hparse. unfold route_translation_message. mred. by rewrite Hparse.
Qed.

Lemma route_triage_message_invalid (m : ChatMessageContent)
    (p : gmap string string) (w : world) :
  json_loads (content m) = None ->
  fst (route_triage_message m p w) = Raised ValidationError.
Proof.
  intros Hparse. unfold route_triage_message. mred. by rewrite Hparse.
Qed.

Lemma route_sage_agent_message_invalid (m : ChatMessageContent)
    (p : gmap string string) (w : world) :
  json_loads (content m) = None ->
  fst (route_sage_agent_message m p w) = Raised ValidationError.
Proof.
  intros Hparse. unfold route_sage_agent_message. mred. by rewrite Hparse.
Qed.

Lemma fst_wrap {A} (x : outcome A * world) (a : A) :
  fst x = Returned a -> fst (wrap x) = Returned (Some a).
Proof. destruct x as [[?|?] ?]; simpl; congruence. Qed.

Lemma fst_wrap_raised {A} (x : outcome A * world) (e : exn) :
  fst x = Raised e -> fst (wrap x) = Raised e.
Proof. destruct x as [[?|?] ?]; simpl; congruence. Qed.

(** An exception of [json.loads] other than [JSONDecodeError] leaves
    [select_next_agent] from its first statement. *)
Lemma select_next_agent_escapes (h : ChatHistory) (p : gmap string string)
    (w : world) (m : ChatMessageContent) :
  last h = Some m ->
  json_loads (content m) = None ->
  json_error (content m) <> JSONDecodeError ->
  fst (select_next_agent h p w) = Raised (json_error (content m)).
Proof.
  intros Hlast Hnone Hother. unfold select_next_agent. rewrite Hlast.
  unfold bind at 1. by rewrite format_agent_response_escapes.
Qed.

(** C3: when the latest turn is a participant's and its payload is not
    decoded by [json.loads], [select_next_agent] returns nothing, neither a
    next speaker nor a result that reports the failure: it raises.  After a
    [JSONDecodeError] every branch ends in a [StringResult] without a
    speaker, which the constructor refuses with a [ValidationError]; any
    other exception of [json.loads] escapes as it is. *)
Theorem select_next_agent_invalid_json (chat_history : ChatHistory)
    (participant_descriptions : gmap string string) (w : world)
    (m : ChatMessageContent) :
  last chat_history = Some m ->
  is_user (role m) = false ->
  json_loads (content m) = None ->
  fst (select_next_agent chat_history participant_descriptions w)
  = Raised match json_error (content m) with
           | JSONDecodeError => ValidationError
           | e => e
           end.
Proof.
  intros Hlast Huser Hparse.
  destruct (json_error (content m)) eqn:Herror;
    try (rewrite (select_next_agent_escapes _ _ _ m)
           by (try done; rewrite Herror; discriminate);
         by rewrite Herror).
  destruct (select_next_agent_dispatch chat_history participant_descriptions
              w m Hlast Huser) as (pre & _ & Hrun);
    [intros _; exact Herror|].
  cbv zeta in Hrun. rewrite Hrun. clear Hrun.
  destruct (name_is m "TranslationAgent").
  { destruct (3 <? length chat_history)%nat; [reflexivity|].
    apply fst_wrap_raised. by apply route_translation_message_invalid. }
  destruct (name_is m "TriageAgent").
  { by apply route_triage_message_invalid. }
  destruct (name_is m "Lumi").
  { apply fst_wrap_raised. apply route_lumi_message_error.
    intros items Heq. rewrite Hparse in Heq. discriminate. }
  destruct (name_in m valid_agents).
  { apply fst_wrap_raised. by apply route_sage_agent_message_invalid. }
  reflexivity.
Qed.

(** X18: a Router payload that decodes to an object whose ["type"] is neither
    ["cqa_result"] nor ["clu_result"] falls through both [if] blocks of
    [route_triage_message]: the function ends without a [return], and
    [select_next_agent] hands Python's [None] to the framework in place of a
    [StringResult]. *)
Lemma select_next_agent_untyped_router (chat_history : ChatHistory)
    (participant_descriptions : gmap string string) (w : world)
    (m : ChatMessageContent) (top : list (string * Json.value)) :
  last chat_history = Some m ->
  is_user (role m) = false ->
  name m = Some "TriageAgent" ->
  json_loads (content m) = Some (Json.Obj top) ->
  Json.eq_str (default Json.Null (Json.lookup "type" top)) "cqa_result" = false ->
  Json.eq_str (default Json.Null (Json.lookup "type" top)) "clu_result" = false ->
  fst (select_next_agent chat_history participant_descriptions w)
  = Returned None.
Proof.
  intros Hlast Huser Hname Hparse Hcqa Hclu.
  destruct (select_next_agent_dispatch chat_history participant_descriptions
              w m Hlast Huser) as (pre & _ & Hrun).
  { intros Hnone. congruence. }
  simpl in Hrun.
  rewrite (name_is_other m "TriageAgent" "TranslationAgent") in Hrun by done.
  rewrite (proj2 (name_is_true m "TriageAgent") Hname) in Hrun.
  rewrite Hrun. clear Hrun.
  unfold route_triage_message. mred. rewrite Hparse.
  unfold get, get_default. mred.
  destruct (Json.lookup "type" top) as [v|]; simpl in Hcqa, Hclu; mred;
    rewrite ?Hcqa; mred; rewrite ?Hclu; reflexivity.
Qed.

(** *** One attempt *)

Lemma emits_invoke (task : string) (runtime : nat) :
  emits attempt_event (invoke task runtime).
Proof.
  unfold invoke.
  destruct (on_invoke (orchestration runtime task)) as [e|r];
    eexists _, [_]; (split; [|reflexivity]); by repeat constructor.
Qed.

Lemma emits_get_result (runtime : nat) (r : get_outcome) :
  emits attempt_event (get_result runtime r 120).
Proof.
  unfold get_result.
  destruct r; eexists _, [_]; (split; [|reflexivity]); by repeat constructor.
Qed.

Lemma emits_stop_when_idle (task : string) (runtime : nat) :
  emits attempt_event (stop_when_idle task runtime).
Proof.
  unfold stop_when_idle.
  destruct (on_stop (orchestration runtime task));
    eexists _, [_]; (split; [|reflexivity]); by repeat constructor.
Qed.

Lemma run_attempt_emits (task : string) (runtime : nat) :
  emits attempt_event (run_attempt task runtime).
Proof.
  unfold run_attempt. apply emits_try_finally.
  - apply emits_bind; [apply emits_invoke | intros r].
    apply emits_try_except.
    + apply emits_bind; [apply emits_get_result | intros v]. emits_steps.
    + intros e. emits_steps.
  - apply emits_try_except; [apply emits_stop_when_idle | intros e].
    emits_steps.
Qed.

(** An attempt from any world: the outcome is [attempt_outcome], the world
    gains the attempt's events and no runtime. *)
Lemma run_attempt_run (task : string) (runtime : nat) :
  exists out,
    Forall attempt_event out
    /\ forall w,
         run_attempt task runtime w
         = (attempt_outcome task runtime,
            World (console w ++ out) (next_runtime w)).
Proof.
  destruct (run_attempt_emits task runtime) as (r & out & Hout & Hrun).
  exists out. split; [done|]. intros w.
  unfold attempt_outcome. by rewrite !Hrun.
Qed.

Ltac attempt_red :=
  unfold attempt_outcome, run_attempt, invoke, get_result, stop_when_idle;
  mred.

(** [invoke] raises: nothing catches it, the attempt raises. *)
Lemma attempt_outcome_invoke_raises (task : string) (runtime : nat) (e : exn) :
  on_invoke (orchestration runtime task) = InvokeRaises e ->
  attempt_outcome task runtime = Raised e.
Proof.
  intros Hinv. attempt_red. rewrite Hinv.
  by destruct (on_stop (orchestration runtime task)).
Qed.

(** [get] raises: the attempt ends in a retry with the failure classified. *)
Lemma attempt_outcome_get_raises (task : string) (runtime : nat) (e : exn) :
  on_invoke (orchestration runtime task) = InvokeReturns (GetRaises e) ->
  attempt_outcome task runtime = Returned (Retry (classify e)).
Proof.
  intros Hinv. attempt_red. rewrite Hinv. unfold classify.
  destruct (is_timeout e);
    by destruct (on_stop (orchestration runtime task)).
Qed.

(** [invoke] returns: whatever happens next is caught. *)
Lemma attempt_outcome_invoke_returns (task : string) (runtime : nat)
    (r : get_outcome) :
  on_invoke (orchestration runtime task) = InvokeReturns r ->
  exists it, attempt_outcome task runtime = Returned it.
Proof.
  intros Hinv.
  destruct (run_attempt_emits task runtime) as (o & out & _ & Hrun).
  unfold attempt_outcome. rewrite Hrun. simpl.
  specialize (Hrun (World [] 0)). revert Hrun.
  unfold run_attempt, try_finally, bind at 1, invoke. rewrite Hinv.
  set (body := try_except _ _).
  assert (Hbody : forall w0, exists it w1, body w0 = (Returned it, w1)).
  { intros w0. subst body. unfold try_except.
    match goal with |- context [match ?x with _ => _ end] =>
      destruct x as [[it|e] w1] end.
    - eauto.
    - destruct (is_timeout e); mred; eauto. }
  intros Hrun.
  match type of Hrun with context [body ?w0] =>
    destruct (Hbody w0) as (it & w1 & Hb); rewrite Hb in Hrun end.
  unfold try_except, stop_when_idle in Hrun.
  destruct (on_stop (orchestration runtime task)); simpl in Hrun;
    inversion Hrun; eauto.
Qed.

(** The final content decodes to an object with a [response] object: the
    answer is extracted when [final_answer] is there, [need_more_info]
    defaulting to [False]; a missing [final_answer] is a [KeyError], caught
    and recorded for a retry. *)
Lemma attempt_outcome_value (task : string) (runtime : nat) (value : string)
    (top response : list (string * Json.value)) :
  on_invoke (orchestration runtime task) = InvokeReturns (GetValue value) ->
  json_loads value = Some (Json.Obj top) ->
  Json.lookup "response" top = Some (Json.Obj response) ->
  attempt_outcome task runtime
  = Returned
      match Json.lookup "final_answer" response with
      | Some final_answer =>
          Return (FinalAnswer final_answer,
                  default (Json.Bool false)
                          (Json.lookup "need_more_info" response))
      | None =>
          Retry (Failure "exception"
                         (str_exn (KeyError (Json.Str "final_answer"))))
      end.
Proof.
  intros Hinv Hparse Hresp. attempt_red. rewrite Hinv. mred.
  rewrite Hparse. unfold getitem, get_default. mred. rewrite Hresp. mred.
  destruct (Json.lookup "final_answer" response) as [a|]; mred.
  - destruct (Json.lookup "need_more_info" response);
      by destruct (on_stop (orchestration runtime task)).
  - by destruct (on_stop (orchestration runtime task)).
Qed.

(** *** The retry loop *)

Lemma started_app (a b : list event) : started (a ++ b) = started a ++ started b.
Proof.
  induction a as [|ev a IH]; [reflexivity|].
  destruct ev; simpl; by rewrite IH.
Qed.

Lemma pauses_app (a b : list event) : pauses (a ++ b) = pauses a ++ pauses b.
Proof.
  induction a as [|ev a IH]; [reflexivity|].
  destruct ev; simpl; by rewrite IH.
Qed.

Lemma budgets_app (a b : list event) : budgets (a ++ b) = budgets a ++ budgets b.
Proof.
  induction a as [|ev a IH]; [reflexivity|].
  destruct ev; simpl; by rewrite IH.
Qed.

Lemma attempt_events_started (out : list event) :
  Forall attempt_event out -> started out = [].
Proof.
  induction 1 as [|ev out Hev _ IH]; [reflexivity|].
  destruct ev; simpl in *; done.
Qed.

Lemma attempt_events_pauses (out : list event) :
  Forall attempt_event out -> pauses out = [].
Proof.
  induction 1 as [|ev out Hev _ IH]; [reflexivity|].
  destruct ev; simpl in *; done.
Qed.

Lemma attempt_events_budgets (out : list event) :
  Forall attempt_event out -> Forall (eq 120) (budgets out).
Proof.
  induction 1 as [|ev out Hev _ IH]; [constructor|].
  destruct ev; simpl in *; try done. by constructor.
Qed.

(** One iteration of the loop whose condition holds; [out] is what the
    attempt itself adds to the console. *)
Lemma retry_loop_step (fuel : nat) (task : string) (retry_count : Z)
    (last_exception : option failure) (w : world) (out : list event) :
  (forall w0,
     run_attempt task (next_runtime w) w0
     = (attempt_outcome task (next_runtime w),
        World (console w0 ++ out) (next_runtime w0))) ->
  (retry_count < max_retries)%Z ->
  let line := [Lit nl; Lit "[ATTEMPT "; FmtInt (retry_count + 1); Lit "/";
               FmtInt max_retries; Lit "] Starting orchestration..."] in
  let w' := World (console w ++ Print line :: RuntimeStart (next_runtime w) :: out)
                  (S (next_runtime w)) in
  retry_loop (S fuel) task retry_count last_exception w
  = match attempt_outcome task (next_runtime w) with
    | Returned (Return r) => (Returned r, w')
    | Returned (Retry e) =>
        retry_loop fuel task (retry_count + 1) (Some e)
          (World (console w ++ Print line :: RuntimeStart (next_runtime w)
                               :: out ++ [Sleep 1])
                 (S (next_runtime w)))
    | Raised e => (Raised e, w')
    end.
Proof.
  intros Hrun Hlt. apply Z.ltb_lt in Hlt.
  cbn [retry_loop]. rewrite Hlt.
  unfold new_runtime, runtime_start, sleep. mred. rewrite Hrun.
  destruct (attempt_outcome task (next_runtime w)) as [[r|e]|e];
    mred; unfold emit; cbn [console next_runtime];
    rewrite <- ?app_assoc; cbn [app]; reflexivity.
Qed.

(** Leaving the loop by its condition. *)
Lemma retry_loop_exit (fuel : nat) (task : string) (retry_count : Z)
    (last_exception : option failure) (w : world) :
  (max_retries <= retry_count)%Z ->
  retry_loop fuel task retry_count last_exception w
  = (Returned (ErrorResult last_exception, Json.Bool false),
     World (console w
            ++ [Print [Lit "[FAILURE]: Max retries ("; FmtInt max_retries;
                       Lit ") reached."]])
           (next_runtime w)).
Proof.
  intros Hge. apply Z.ltb_ge in Hge.
  destruct fuel; cbn [retry_loop]; rewrite ?Hge; reflexivity.
Qed.

(** Fuel beyond [max_retries - retry_count] is never used: with any two
    amounts of at least that much the loop does the same. *)
Lemma retry_loop_fuel (fuel1 fuel2 : nat) (task : string) (retry_count : Z)
    (last_exception : option failure) (w : world) :
  Z.to_nat (max_retries - retry_count) <= fuel1 ->
  Z.to_nat (max_retries - retry_count) <= fuel2 ->
  retry_loop fuel1 task retry_count last_exception w
  = retry_loop fuel2 task retry_count last_exception w.
Proof.
  revert fuel2 retry_count last_exception w.
  induction fuel1 as [|fuel1 IH]; intros fuel2 rc last w H1 H2.
  - assert (Hge : (max_retries <= rc)%Z) by lia.
    by rewrite !retry_loop_exit.
  - destruct (Z.lt_ge_cases rc max_retries) as [Hlt|Hge].
    + destruct fuel2 as [|fuel2]; [lia|].
      destruct (run_attempt_run task (next_runtime w)) as (out & _ & Hrun).
      rewrite !(retry_loop_step _ task rc last w out Hrun Hlt).
      destruct (attempt_outcome task (next_runtime w)) as [[r|e]|e];
        try reflexivity.
      apply IH; lia.
    + by rewrite !retry_loop_exit.
Qed.

(** The loop from any world: its outcome is [loop_outcome]; it starts [k]
    runtimes, [k] no more than the attempts allowed, each a runtime no
    earlier attempt had; every pause lasts 1, there is at most one per
    attempt, and every [get] is given 120. *)
Lemma retry_loop_run (fuel : nat) (task : string) (retry_count : Z)
    (last_exception : option failure) (w : world) :
  fuel = Z.to_nat (max_retries - retry_count) ->
  exists out k,
    retry_loop fuel task retry_count last_exception w
    = (loop_outcome fuel task (next_runtime w) last_exception,
       World (console w ++ out) (next_runtime w + k))
    /\ k <= fuel
    /\ started out = seq (next_runtime w) k
    /\ Forall (eq 1) (pauses out)
    /\ length (pauses out) <= k
    /\ Forall (eq 120) (budgets out).
Proof.
  revert retry_count last_exception w.
  induction fuel as [|fuel IH]; intros rc last w Hfuel.
  - rewrite retry_loop_exit by lia.
    eexists _, 0. rewrite Nat.add_0_r.
    split; [reflexivity|]. simpl. repeat split; auto.
  - assert (Hlt : (rc < max_retries)%Z) by lia.
    destruct (run_attempt_run task (next_runtime w)) as (out & Hout & Hrun).
    rewrite (retry_loop_step _ task rc last w out Hrun Hlt).
    cbn [loop_outcome].
    pose proof (attempt_events_started out Hout) as Hs.
    pose proof (attempt_events_pauses out Hout) as Hp.
    pose proof (attempt_events_budgets out Hout) as Hb.
    destruct (attempt_outcome task (next_runtime w)) as [[r|e]|e].
    + eexists _, 1. rewrite Nat.add_1_r. split; [reflexivity|].
      simpl. rewrite Hs, Hp. repeat split; auto. lia.
    + destruct (IH (rc + 1)%Z (Some e)
                  (World (console w ++ Print
                            [Lit nl; Lit "[ATTEMPT "; FmtInt (rc + 1); Lit "/";
                             FmtInt max_retries;
                             Lit "] Starting orchestration..."]
                          :: RuntimeStart (next_runtime w) :: out ++ [Sleep 1])
                         (S (next_runtime w))))
        as (out' & k & Hloop & Hk & Hs' & Hp' & Hlen & Hb'); [lia|].
      cbn [console next_runtime] in Hloop, Hs'.
      rewrite Hloop.
      eexists (_ :: _ :: (out ++ [Sleep 1]) ++ out'), (S k).
      split.
      { f_equal. f_equal.
        - rewrite <- app_assoc. simpl. by rewrite <- app_assoc.
        - lia. }
      simpl. rewrite !started_app, !pauses_app, !budgets_app, Hs, Hp.
      simpl. rewrite Hs'.
      split; [lia|]. split; [reflexivity|].
      split; [by constructor|]. split; [lia|].
      apply Forall_app. split; [|done].
      rewrite app_nil_r. exact Hb.
    + eexists _, 1. rewrite Nat.add_1_r. split; [reflexivity|].
      simpl. rewrite Hs, Hp. repeat split; auto. lia.
Qed.

(** [process_message] comes to what its attempts come to. *)
Lemma process_message_outcome (task : string) (w : world) :
  fst (process_message task w)
  = loop_outcome (Z.to_nat max_retries) task (next_runtime w) None.
Proof.
  unfold process_message.
  destruct (retry_loop_run (Z.to_nat max_retries) task 0 None w)
    as (out & k & -> & _); [f_equal; lia | reflexivity].
Qed.

(** X14: whatever the orchestration does, [process_message] starts at most
    [max_retries] runtimes, each one new (consecutive numbers from the
    allocator), gives every [get] the timeout 120, and pauses for 1 at most
    once per attempt and for no other duration. *)
Lemma process_message_attempts (task : string) (w : world) :
  exists out k,
    console (snd (process_message task w)) = console w ++ out
    /\ k <= Z.to_nat max_retries
    /\ started out = seq (next_runtime w) k
    /\ Forall (eq 1) (pauses out)
    /\ length (pauses out) <= k
    /\ Forall (eq 120) (budgets out).
Proof.
  unfold process_message.
  destruct (retry_loop_run (Z.to_nat max_retries) task 0 None w)
    as (out & k & -> & H); [f_equal; lia|].
  by exists out, k.
Qed.

Lemma loop_outcome_all_retry (attempts : nat) (task : string) (runtime : nat)
    (last_exception : option failure) (fail : nat -> failure) :
  (forall i, i < attempts ->
             attempt_outcome task (runtime + i) = Returned (Retry (fail (runtime + i)))) ->
  loop_outcome attempts task runtime last_exception
  = Returned (ErrorResult
                match attempts with
                | O => last_exception
                | S n => Some (fail (runtime + n))
                end,
              Json.Bool false).
Proof.
  revert runtime last_exception.
  induction attempts as [|n IH]; intros runtime last Hall; [reflexivity|].
  cbn [loop_outcome].
  pose proof (Hall 0 ltac:(lia)) as H0. rewrite Nat.add_0_r in H0.
  rewrite H0. rewrite IH.
  - destruct n.
    + by rewrite Nat.add_0_r.
    + by replace (S runtime + n) with (runtime + S n) by lia.
  - intros i Hi. replace (S runtime + i) with (runtime + S i) by lia.
    apply Hall. lia.
Qed.

Lemma loop_outcome_returns (attempts : nat) (task : string) (runtime : nat)
    (last_exception : option failure) :
  (forall r, exists it, attempt_outcome task r = Returned it) ->
  exists v, loop_outcome attempts task runtime last_exception = Returned v.
Proof.
  intros Hall. revert runtime last_exception.
  induction attempts as [|n IH]; intros runtime last; [by eexists|].
  cbn [loop_outcome]. destruct (Hall runtime) as ([r|e] & ->).
  - by eexists.
  - apply IH.
Qed.

(** X15: when [get] raises on every attempt, [process_message] returns the
    structured error result with the classification ("timeout" for
    [asyncio.TimeoutError], "exception" otherwise) and message of the last
    attempt's failure, and [need_more_info] [False]. *)
Lemma process_message_exhausted (task : string) (w : world)
    (raised : nat -> exn) :
  (forall runtime,
     on_invoke (orchestration runtime task)
     = InvokeReturns (GetRaises (raised runtime))) ->
  fst (process_message task w)
  = Returned (ErrorResult
                match Z.to_nat max_retries with
                | O => None
                | S n => Some (classify (raised (next_runtime w + n)))
                end,
              Json.Bool false).
Proof.
  intros Hall. rewrite process_message_outcome.
  apply (loop_outcome_all_retry _ task (next_runtime w) None
           (fun r => classify (raised r))).
  intros i _. by apply attempt_outcome_get_raises.
Qed.

(** X16: as long as [orchestration.invoke] itself returns on every runtime,
    [process_message] returns: a failing [get], a payload that cannot be
    decoded or lacks fields, and a failing [stop_when_idle] are all caught. *)
Lemma process_message_returns (task : string) (w : world) :
  (forall runtime, exists r,
     on_invoke (orchestration runtime task) = InvokeReturns r) ->
  exists v, fst (process_message task w) = Returned v.
Proof.
  intros Hall. rewrite process_message_outcome.
  apply loop_outcome_returns. intros r. destruct (Hall r) as (g & Hg).
  by eapply attempt_outcome_invoke_returns.
Qed.

(** X17: with at least one attempt allowed, an exception raised by
    [orchestration.invoke] on the first attempt leaves [process_message]
    unchanged: it is neither classified nor retried. *)
Lemma process_message_propagates (task : string) (w : world) (e : exn) :
  (0 < max_retries)%Z ->
  on_invoke (orchestration (next_runtime w) task) = InvokeRaises e ->
  fst (process_message task w) = Raised e.
Proof.
  intros Hpos Hinv. rewrite process_message_outcome.
  destruct (Z.to_nat max_retries) as [|n] eqn:Hn; [lia|].
  cbn [loop_outcome]. by rewrite (attempt_outcome_invoke_raises _ _ e).
Qed.


(** *** Postconditions and escaping exceptions *)

Lemma ensures_ret {A} (Q : A -> Prop) (a : A) : Q a -> ensures Q (ret a).
Proof. intros HQ w b [= <-]. exact HQ. Qed.

Lemma ensures_raise {A} (Q : A -> Prop) (e : exn) : ensures Q (@raise A e).
Proof. intros w a. discriminate. Qed.

Lemma ensures_bind {A B} (R : A -> Prop) (Q : B -> Prop) (m : M A)
    (k : A -> M B) :
  ensures R m -> (forall a, R a -> ensures Q (k a)) -> ensures Q (bind m k).
Proof.
  intros Hm Hk w b. unfold bind.
  destruct (m w) as [[a|e] w'] eqn:Hrun; [|discriminate].
  apply Hk. apply (Hm w). by rewrite Hrun.
Qed.

Lemma ensures_bind_any {A B} (Q : B -> Prop) (m : M A) (k : A -> M B) :
  (forall a, ensures Q (k a)) -> ensures Q (bind m k).
Proof.
  intros Hk. apply (ensures_bind (fun _ => True)); [done | auto].
Qed.

Lemma ensures_try_except {A} (Q : A -> Prop) (body : M A)
    (handler : exn -> M A) :
  ensures Q body -> (forall e, ensures Q (handler e)) ->
  ensures Q (try_except body handler).
Proof.
  intros Hbody Hhandler w a. unfold try_except.
  destruct (body w) as [[b|e] w'] eqn:Hrun.
  - intros [= <-]. apply (Hbody w). by rewrite Hrun.
  - apply Hhandler.
Qed.

(** A [StringResult] that is built names the speaker it was given. *)
Lemma ensures_StringResult_new (Q : StringResult -> Prop) (r : option string)
    (why : string) :
  (forall agent, r = Some agent -> Q (MkStringResult agent why)) ->
  ensures Q (StringResult_new r why).
Proof.
  intros HQ w a. destruct r as [agent|]; simpl; [|discriminate].
  intros [= <-]. by apply HQ.
Qed.

Lemma raises_only_weaken {A} (E F : exn -> Prop) (m : M A) :
  (forall e, E e -> F e) -> raises_only E m -> raises_only F m.
Proof. intros HEF Hm w e Hrun. apply HEF. by apply (Hm w). Qed.

Lemma raises_only_ret {A} (E : exn -> Prop) (a : A) : raises_only E (ret a).
Proof. intros w e. discriminate. Qed.

Lemma raises_only_print (E : exn -> Prop) (line : list fragment) :
  raises_only E (print line).
Proof. intros w e. discriminate. Qed.

Lemma raises_only_bind {A B} (E : exn -> Prop) (m : M A) (k : A -> M B) :
  raises_only E m -> (forall a, raises_only E (k a)) ->
  raises_only E (bind m k).
Proof.
  intros Hm Hk w e. unfold bind.
  destruct (m w) as [[a|e'] w'] eqn:Hrun.
  - apply Hk.
  - intros [= <-]. apply (Hm w). by rewrite Hrun.
Qed.

(** A [try] lets through only what its handler raises. *)
Lemma raises_only_try_except {A} (E : exn -> Prop) (body : M A)
    (handler : exn -> M A) :
  (forall e, raises_only E (handler e)) ->
  raises_only E (try_except body handler).
Proof.
  intros Hhandler w e. unfold try_except.
  destruct (body w) as [[a|e'] w']; [discriminate | apply Hhandler].
Qed.

Lemma raises_only_StringResult_new (E : exn -> Prop) (r : option string)
    (why : string) :
  E ValidationError -> raises_only E (StringResult_new r why).
Proof.
  intros HE w e. destruct r; simpl; [discriminate|]. by intros [= <-].
Qed.

Ltac raises_steps :=
  repeat first
    [ apply raises_only_ret
    | apply raises_only_print
    | apply raises_only_StringResult_new; reflexivity
    | apply raises_only_try_except; intros ?
    | apply raises_only_bind; [| intros ?] ].

(** Whatever goes wrong inside a routing function is caught; what leaves it
    is the refusal of the handler's own [StringResult]. *)
Lemma route_user_message_raises p :
  raises_only (eq ValidationError) (route_user_message p).
Proof. unfold route_user_message. raises_steps. Qed.

Lemma route_translation_message_raises m p :
  raises_only (eq ValidationError) (route_translation_message m p).
Proof. unfold route_translation_message. raises_steps. Qed.

Lemma route_triage_message_raises m p :
  raises_only (eq ValidationError) (route_triage_message m p).
Proof. unfold route_triage_message. raises_steps. Qed.

Lemma route_lumi_message_raises m p :
  raises_only (eq ValidationError) (route_lumi_message m p).
Proof. unfold route_lumi_message. raises_steps. Qed.

Lemma route_sage_agent_message_raises m p :
  raises_only (eq ValidationError) (route_sage_agent_message m p).
Proof. unfold route_sage_agent_message. raises_steps. Qed.

(** [format_agent_response] raises only what [json.loads] raised on the
    message it was given. *)
Lemma format_agent_response_raises (r : option ChatMessageContent) :
  raises_only
    (fun e => exists m, r = Some m /\ json_loads (content m) = None
                        /\ e = json_error (content m))
    (format_agent_response r).
Proof.
  intros w e. destruct r as [m|]; unfold format_agent_response; mred;
    [|discriminate].
  destruct (json_loads (content m)) eqn:Hparse; mred; [discriminate|].
  destruct (json_error (content m)) eqn:Herror; mred;
    try discriminate; intros [= <-]; eauto.
Qed.

(** *** The user's turn and the empty log *)

(** X1: on an empty log, and on any log whose latest message has the user
    role and a content that [json.loads] decodes or rejects as not being
    JSON, [select_next_agent] hands the exchange to TranslationAgent,
    whatever the message's name and content; with no TranslationAgent in
    the registry both the [try] and the [except] clause of
    [route_user_message] fail to build their result, and the function
    raises. *)
Theorem select_next_agent_user_turn (chat_history : ChatHistory)
    (participant_descriptions : gmap string string) (w : world) :
  user_turn (last chat_history) = true ->
  (forall m, last chat_history = Some m -> loads_safe (content m)) ->
  fst (select_next_agent chat_history participant_descriptions w)
  = if registered participant_descriptions "TranslationAgent" then
      Returned
        (Some (MkStringResult
                 "TranslationAgent"
                 "Routing to TranslationAgent for initial translation."))
    else Raised ValidationError.
Proof.
  intros Huser Hsafe.
  destruct (format_agent_response_returns (last chat_history) w Hsafe)
    as (s & pre & _ & Hfmt).
  unfold select_next_agent. unfold bind at 1. rewrite Hfmt.
  assert (Hroute : forall w',
             fst (bind (print [Lit "[SYSTEM]: User message received, routing to TranslationAgent..."])
                    (fun _ => bind (route_user_message participant_descriptions)
                                (fun r => ret (Some r))) w')
             = if registered participant_descriptions "TranslationAgent" then
                 Returned
                   (Some (MkStringResult
                            "TranslationAgent"
                            "Routing to TranslationAgent for initial translation."))
               else Raised ValidationError).
  { intros w'. unfold route_user_message. mred.
    rewrite next_agent_registered.
    by destruct (registered participant_descriptions "TranslationAgent"). }
  destruct (last chat_history) as [m|]; [rewrite Huser|]; apply Hroute.
Qed.

(** X2: the only exception that a routing failure lets out of
    [select_next_agent] is pydantic's [ValidationError]: every [KeyError],
    [IndexError], [TypeError] or [AttributeError] met while reading a
    payload is caught by the [except] clause of the routing function.  The
    one other exception that can leave it is the one [json.loads] raised
    on the latest message's content in [format_agent_response]. *)
Theorem select_next_agent_raises (chat_history : ChatHistory)
    (participant_descriptions : gmap string string) (w : world) (e : exn) :
  fst (select_next_agent chat_history participant_descriptions w) = Raised e ->
  e = ValidationError
  \/ exists m, last chat_history = Some m
               /\ json_loads (content m) = None
               /\ e = json_error (content m).
Proof.
  revert w e.
  change (raises_only
            (fun e => e = ValidationError
                      \/ exists m, last chat_history = Some m
                                   /\ json_loads (content m) = None
                                   /\ e = json_error (content m))
            (select_next_agent chat_history participant_descriptions)).
  unfold select_next_agent. cbv zeta.
  apply raises_only_bind.
  { eapply raises_only_weaken; [|apply format_agent_response_raises].
    intros e He. by right. }
  intros _.
  assert (Hweak : forall A (m : M A),
             raises_only (eq ValidationError) m ->
             raises_only
               (fun e => e = ValidationError
                         \/ exists m, last chat_history = Some m
                                      /\ json_loads (content m) = None
                                      /\ e = json_error (content m)) m).
  { intros A m. apply raises_only_weaken. intros e <-. by left. }
  destruct (last chat_history) as [m|];
    repeat match goal with
           | |- raises_only _ (if ?b then _ else _) => destruct b
           end;
    apply Hweak;
    repeat first
      [ apply raises_only_ret
      | apply raises_only_print
      | apply raises_only_StringResult_new; reflexivity
      | apply route_user_message_raises
      | apply route_translation_message_raises
      | apply route_triage_message_raises
      | apply route_lumi_message_raises
      | apply route_sage_agent_message_raises
      | apply raises_only_bind; [| intros ?] ].
Qed.

(** *** What the routing functions can return *)

Lemma next_agent_Some (p : gmap string string) (x n : string) :
  next_agent p x = Some n -> n = x /\ registered p x = true.
Proof.
  rewrite next_agent_registered. destruct (registered p x); [|discriminate].
  intros [= <-]. by split.
Qed.

Lemma in_strs_valid (v : Json.value) :
  Json.in_strs v valid_agents = true -> In (str_of v) valid_agents.
Proof.
  unfold Json.in_strs. intros (s & Hin & Heq)%existsb_exists.
  destruct v; try discriminate. simpl in Heq. apply String.eqb_eq in Heq.
  simpl. by subst.
Qed.

Ltac routed_leaf :=
  let agent := fresh "agent" in
  let Hagent := fresh "Hagent" in
  intros agent Hagent;
  first
    [ discriminate Hagent
    | eexists; split; [|exact Hagent];
      cbv [pipeline_agents valid_agents In]; tauto ].

Ltac ensures_steps p :=
  repeat first
    [ apply ensures_ret; first [exact I | assumption]
    | apply ensures_raise
    | apply ensures_StringResult_new; routed_leaf
    | apply ensures_try_except; [| intros ?]
    | match goal with
      | |- ensures _ (bind (StringResult_new _ _) _) =>
          apply (ensures_bind (routed p));
          [apply ensures_StringResult_new; routed_leaf | intros ? ?]
      end
    | apply ensures_bind_any; intros ?
    | match goal with
      | |- ensures _ (if ?b then _ else _) => destruct b
      end ].

Lemma route_user_message_routed p : ensures (routed p) (route_user_message p).
Proof. unfold route_user_message. ensures_steps p. Qed.

Lemma route_translation_message_routed m p :
  ensures (routed p) (route_translation_message m p).
Proof. unfold route_translation_message. ensures_steps p. Qed.

Lemma route_triage_message_routed m p :
  ensures (fun decision =>
             match decision with
             | Some r => routed p r
             | None => True
             end)
          (route_triage_message m p).
Proof. unfold route_triage_message. ensures_steps p. Qed.

Lemma route_sage_agent_message_routed m p :
  ensures (routed p) (route_sage_agent_message m p).
Proof. unfold route_sage_agent_message. ensures_steps p. Qed.

Lemma route_lumi_message_routed m p :
  ensures (routed p) (route_lumi_message m p).
Proof.
  unfold route_lumi_message.
  apply ensures_try_except; [|intros e; ensures_steps p].
  apply ensures_bind_any; intros parsed.
  apply ensures_bind_any; intros target_agent.
  apply ensures_bind_any; intros iri_domains.
  apply ensures_bind_any; intros _.
  apply (ensures_bind (fun t => In t valid_agents)).
  - destruct (Json.in_strs target_agent valid_agents) eqn:Hin; cbn [negb].
    + apply ensures_ret. by apply in_strs_valid.
    + apply ensures_bind_any; intros _. apply ensures_ret.
      cbv [valid_agents In]. tauto.
  - intros t Ht. apply ensures_bind_any; intros domains.
    apply ensures_StringResult_new. intros agent Hagent.
    exists t. split; [|exact Hagent].
    right. right. right. exact Ht.
Qed.

(** Every [StringResult] that [select_next_agent] returns is the result of
    a routing function. *)
Lemma select_next_agent_routed (h : ChatHistory) (p : gmap string string) :
  ensures (fun decision =>
             match decision with
             | Some r => routed p r
             | None => True
             end)
          (select_next_agent h p).
Proof.
  unfold select_next_agent. cbv zeta.
  apply ensures_bind_any; intros _.
  assert (Hwrap : forall m : M StringResult,
             ensures (routed p) m ->
             ensures (fun decision =>
                        match decision with
                        | Some r => routed p r
                        | None => True
                        end)
                     (bind m (fun r => ret (Some r)))).
  { intros m Hm. apply (ensures_bind (routed p)); [done|].
    intros r Hr. by apply ensures_ret. }
  destruct (last h) as [m|];
    repeat match goal with
           | |- ensures _ (if ?b then _ else _) => destruct b
           end;
    apply ensures_bind_any; intros _;
    first
      [ apply route_triage_message_routed
      | apply Hwrap;
        first
          [ apply route_user_message_routed
          | apply route_translation_message_routed
          | apply route_lumi_message_routed
          | apply route_sage_agent_message_routed
          | apply ensures_StringResult_new; routed_leaf ] ].
Qed.

(** X3: a next speaker named by [select_next_agent] is always a key of the
    registry it was given, and one of the seven names of the pipeline; a
    name that is not registered is never returned. *)
Theorem select_next_agent_registered (chat_history : ChatHistory)
    (participant_descriptions : gmap string string) (w : world)
    (r : StringResult) (next : string) :
  fst (select_next_agent chat_history participant_descriptions w)
  = Returned (Some r) ->
  result r = next ->
  registered participant_descriptions next = true
  /\ In next pipeline_agents.
Proof.
  intros Hrun Hnext.
  destruct (select_next_agent_routed chat_history participant_descriptions
              w (Some r) Hrun) as (x & Hx & Hres).
  apply next_agent_Some in Hres as [Heq Hreg]. rewrite <- Hnext, Heq.
  by split.
Qed.

(** X4: termination must be asked before routing.  On every log on which
    [should_terminate] answers true and whose latest message is a
    participant's, [select_next_agent] has no result to give: the
    [StringResult] without a speaker that it builds for "Final translation
    complete." is refused by the constructor. *)
Theorem select_next_agent_on_terminal_log (chat_history : ChatHistory)
    (participant_descriptions : gmap string string) (w1 w2 : world)
    (m : ChatMessageContent) (verdict : BooleanResult) :
  last chat_history = Some m ->
  is_user (role m) = false ->
  loads_safe (content m) ->
  fst (should_terminate chat_history w1) = Returned verdict ->
  bresult verdict = true ->
  fst (select_next_agent chat_history participant_descriptions w2)
  = Raised ValidationError.
Proof.
  intros Hlast Huser Hsafe Hverdict Htrue.
  destruct (select_next_agent_dispatch chat_history participant_descriptions
              w2 m Hlast Huser Hsafe) as (pre & _ & Hdispatch).
  cbv zeta in Hdispatch. rewrite Hdispatch. clear Hdispatch.
  unfold should_terminate in Hverdict. rewrite Hlast in Hverdict.
  destruct (name_is m "TranslationAgent");
    destruct (3 <? length chat_history)%nat; cbn [andb] in Hverdict;
    try reflexivity;
    injection Hverdict as <-; discriminate.
Qed.

(** *** The first translation and the responders' turns *)

(** X5: on the first TranslationAgent turn (a log of at most three turns)
    whose payload decodes to an object, the next speaker is TriageAgent as
    soon as the object has a ["response"] key and TriageAgent is in the
    registry, whatever is stored under the key; without the key, or
    without TriageAgent, the function raises. *)
Theorem select_next_agent_first_translation (chat_history : ChatHistory)
    (participant_descriptions : gmap string string) (w : world)
    (m : ChatMessageContent) (items : list (string * Json.value)) :
  last chat_history = Some m ->
  is_user (role m) = false ->
  name m = Some "TranslationAgent" ->
  length chat_history <= 3 ->
  json_loads (content m) = Some (Json.Obj items) ->
  fst (select_next_agent chat_history participant_descriptions w)
  = match Json.lookup "response" items with
    | Some _ =>
        if registered participant_descriptions "TriageAgent" then
          Returned
            (Some (MkStringResult
                     "TriageAgent"
                     "Routing to TriageAgent for intent classification."))
        else Raised ValidationError
    | None => Raised ValidationError
    end.
Proof.
  intros Hlast Huser Hname Hlen Hparse.
  destruct (select_next_agent_dispatch chat_history participant_descriptions
              w m Hlast Huser) as (pre & _ & Hrun).
  { intros Hnone. congruence. }
  cbv zeta in Hrun.
  rewrite (proj2 (name_is_true m "TranslationAgent") Hname) in Hrun.
  assert ((3 <? length chat_history)%nat = false) as Hshort
    by (apply Nat.ltb_ge; lia).
  rewrite Hshort in Hrun. rewrite Hrun. clear Hrun.
  unfold route_translation_message, wrap. mred. rewrite Hparse.
  unfold getitem. mred.
  destruct (Json.lookup "response" items); mred; [|reflexivity].
  rewrite next_agent_registered.
  by destruct (registered participant_descriptions "TriageAgent").
Qed.

Lemma name_is_valid_agent (m : ChatMessageContent) (n : string) :
  name m = Some n -> In n valid_agents ->
  name_is m "TranslationAgent" = false
  /\ name_is m "TriageAgent" = false
  /\ name_is m "Lumi" = false
  /\ name_in m valid_agents = true.
Proof.
  intros Hname Hin. unfold name_in, name_is. rewrite Hname.
  cbv [valid_agents In] in Hin.
  destruct Hin as [<-|[<-|[<-|[<-|[]]]]]; by repeat split.
Qed.

(** X6: after a Domain Responder's turn whose payload decodes to an object
    the next speaker is TranslationAgent, provided it is registered,
    whatever the object holds: the [need_more_info] flag and the [response]
    field play no part in the routing. *)
Theorem select_next_agent_after_responder (chat_history : ChatHistory)
    (participant_descriptions : gmap string string) (w : world)
    (m : ChatMessageContent) (responder : string)
    (items : list (string * Json.value)) :
  last chat_history = Some m ->
  is_user (role m) = false ->
  name m = Some responder ->
  In responder valid_agents ->
  json_loads (content m) = Some (Json.Obj items) ->
  registered participant_descriptions "TranslationAgent" = true ->
  fst (select_next_agent chat_history participant_descriptions w)
  = Returned
      (Some (MkStringResult
               "TranslationAgent"
               "Routing to TranslationAgent for final translation.")).
Proof.
  intros Hlast Huser Hname Hin Hparse Hreg.
  destruct (select_next_agent_dispatch chat_history participant_descriptions
              w m Hlast Huser) as (pre & _ & Hrun).
  { intros Hnone. congruence. }
  cbv zeta in Hrun.
  destruct (name_is_valid_agent m responder Hname Hin)
    as (Ht & Hr & Hl & Hv).
  rewrite Ht, Hr, Hl, Hv in Hrun. rewrite Hrun. clear Hrun.
  apply fst_wrap. unfold route_sage_agent_message. mred. rewrite Hparse.
  unfold get_default. mred.
  destruct (Json.lookup "response" items);
    destruct (Json.lookup "need_more_info" items); mred;
    by rewrite next_agent_registered, Hreg.
Qed.

(** *** The Dispatcher's choice in full *)

Lemma names_responder_target (items : list (string * Json.value))
    (target : string) :
  Json.lookup "target_agent" items = Some (Json.Str target) ->
  In target valid_agents ->
  names_responder items = true /\ chosen_responder items = target.
Proof.
  intros Htarget Hin.
  assert (Hnames : names_responder items = true).
  { unfold names_responder. rewrite Htarget.
    apply existsb_exists. exists target. split; [done|].
    apply String.eqb_refl. }
  split; [done|]. unfold chosen_responder. by rewrite Hnames, Htarget.
Qed.

(** X7: a Dispatcher payload that names one of the four known Domain
    Responders (with [iri_domains] absent or joinable) is routed to exactly
    that responder when it is registered. *)
Theorem select_next_agent_known_target (chat_history : ChatHistory)
    (participant_descriptions : gmap string string) (w : world)
    (m : ChatMessageContent) (items : list (string * Json.value))
    (target : string) :
  last chat_history = Some m ->
  is_user (role m) = false ->
  name m = Some "Lumi" ->
  json_loads (content m) = Some (Json.Obj items) ->
  Json.lookup "target_agent" items = Some (Json.Str target) ->
  In target valid_agents ->
  domains_joinable items = true ->
  registered participant_descriptions target = true ->
  exists r,
    fst (select_next_agent chat_history participant_descriptions w)
    = Returned (Some r)
    /\ result r = target.
Proof.
  intros Hlast Huser Hname Hparse Htarget Hin Hjoin Hreg.
  destruct (select_next_agent_dispatch chat_history participant_descriptions
              w m Hlast Huser) as (pre & Hpre & Hrun).
  { intros Hnone. congruence. }
  cbv zeta in Hrun.
  rewrite (name_is_other m "Lumi" "TranslationAgent") in Hrun by done.
  rewrite (name_is_other m "Lumi" "TriageAgent") in Hrun by done.
  rewrite (proj2 (name_is_true m "Lumi") Hname) in Hrun.
  destruct (names_responder_target items target Htarget Hin)
    as (Hnames & Hchosen).
  destruct (route_lumi_message_object m participant_descriptions
              (World (console w ++ pre) (next_runtime w)) items Hparse Hjoin)
    as (why & line & Hroute).
  cbv zeta in Hroute. rewrite Hnames, Hchosen, Hreg in Hroute.
  rewrite Hroute in Hrun. rewrite Hrun.
  eexists. by split.
Qed.

(** X8: when the responder the Dispatcher's payload stands for is missing
    from the registry, [route_lumi_message] has no result: the constructor
    refuses the [StringResult] of the [try] block, the [except] clause
    catches that and fails to build its own. *)
Theorem route_lumi_message_unregistered (m : ChatMessageContent)
    (participant_descriptions : gmap string string) (w : world)
    (items : list (string * Json.value)) :
  json_loads (content m) = Some (Json.Obj items) ->
  domains_joinable items = true ->
  registered participant_descriptions (chosen_responder items) = false ->
  exists out,
    route_lumi_message m participant_descriptions w
    = (Raised ValidationError, World (console w ++ out) (next_runtime w))
    /\ last out = Some (Print [Lit "[SYSTEM]: Error processing Lumi message: ";
                               FmtExn ValidationError]).
Proof.
  intros Hparse Hjoin Hreg.
  destruct (route_lumi_message_object m participant_descriptions w items
              Hparse Hjoin) as (why & line & Hroute).
  cbv zeta in Hroute. rewrite Hreg in Hroute. rewrite Hroute.
  eexists. split; [reflexivity|]. apply last_snoc.
Qed.

(** *** The Router's FAQ results at and around the threshold *)

(** X9: the FAQ threshold is inclusive.  For a FAQ result with top
    confidence [c] the next speaker is TranslationAgent exactly when
    [cqa_confidence <= c], a confidence equal to the threshold included,
    and Lumi exactly when [c < cqa_confidence]. *)
Theorem select_next_agent_faq_threshold (chat_history : ChatHistory)
    (participant_descriptions : gmap string string) (w : world)
    (m : ChatMessageContent) (parsed : Json.value) (confidence : Q) :
  last chat_history = Some m ->
  is_user (role m) = false ->
  name m = Some "TriageAgent" ->
  json_loads (content m) = Some parsed ->
  cqa_result parsed confidence ->
  registered participant_descriptions "TranslationAgent" = true ->
  registered participant_descriptions "Lumi" = true ->
  exists r,
    fst (select_next_agent chat_history participant_descriptions w)
    = Returned (Some r)
    /\ (result r = "TranslationAgent" <-> (cqa_confidence <= confidence)%Q)
    /\ (result r = "Lumi" <-> (confidence < cqa_confidence)%Q).
Proof.
  intros Hlast Huser Hname Hparse Hcqa Htr Hlumi.
  destruct (select_next_agent_dispatch chat_history participant_descriptions
              w m Hlast Huser) as (pre & _ & Hrun).
  { intros Hnone. congruence. }
  cbv zeta in Hrun.
  rewrite (name_is_other m "TriageAgent" "TranslationAgent") in Hrun by done.
  rewrite (proj2 (name_is_true m "TriageAgent") Hname) in Hrun.
  rewrite Hrun. clear Hrun.
  destruct (route_triage_message_cqa m participant_descriptions
              (World (console w ++ pre) (next_runtime w)) parsed confidence
              Hparse Hcqa) as (why & ->).
  cbv zeta.
  destruct (Qle_bool cqa_confidence confidence) eqn:Hle.
  - rewrite Htr. eexists. split; [reflexivity|]. simpl.
    apply Qle_bool_iff in Hle.
    split; [by split|]. split; [discriminate|].
    intros Hlt. by apply Qlt_not_le in Hlt.
  - rewrite Hlumi. eexists. split; [reflexivity|]. simpl.
    assert (Hnle : ~ (cqa_confidence <= confidence)%Q).
    { intros H%Qle_bool_iff. congruence. }
    split; [split; [discriminate | done]|].
    split; [intros _|done]. by apply Qnot_le_lt.
Qed.

(** X10: a Router payload typed as a FAQ result whose top confidence cannot
    be read (no [response], no [answers], an empty list of answers, a
    confidence given as a string) ends in the [except] clause, which fails
    to build its result: [select_next_agent] raises, and the payload is not
    passed on to Lumi. *)
Theorem select_next_agent_unreadable_faq (chat_history : ChatHistory)
    (participant_descriptions : gmap string string) (w : world)
    (m : ChatMessageContent) (top : list (string * Json.value)) :
  last chat_history = Some m ->
  is_user (role m) = false ->
  name m = Some "TriageAgent" ->
  json_loads (content m) = Some (Json.Obj top) ->
  Json.lookup "type" top = Some (Json.Str "cqa_result") ->
  unreadable_faq top ->
  fst (select_next_agent chat_history participant_descriptions w)
  = Raised ValidationError.
Proof.
  intros Hlast Huser Hname Hparse Htype Hbad.
  destruct (select_next_agent_dispatch chat_history participant_descriptions
              w m Hlast Huser) as (pre & _ & Hrun).
  { intros Hnone. congruence. }
  cbv zeta in Hrun.
  rewrite (name_is_other m "TriageAgent" "TranslationAgent") in Hrun by done.
  rewrite (proj2 (name_is_true m "TriageAgent") Hname) in Hrun.
  rewrite Hrun. clear Hrun.
  unfold route_triage_message. mred. rewrite Hparse.
  unfold get, get_default, getitem, getitem0, ge_float. mred.
  rewrite Htype.
  change (Json.eq_str (Json.Str "cqa_result") "cqa_result") with true.
  mred.
  destruct Hbad as [Hresp | response Hresp Hans | response Hresp Hans
                   | response answer others text Hresp Hans Hconf].
  - rewrite Hresp. reflexivity.
  - rewrite Hresp. mred. rewrite Hans. reflexivity.
  - rewrite Hresp. mred. rewrite Hans. reflexivity.
  - rewrite Hresp. mred. rewrite Hans. mred. rewrite Hconf. reflexivity.
Qed.

(** *** Runtimes are released; no attempts; recovery *)

Lemma lifecycle_app (a b : list event) :
  lifecycle (a ++ b) = lifecycle a ++ lifecycle b.
Proof.
  induction a as [|ev a IH]; [reflexivity|].
  destruct ev; simpl; by rewrite IH.
Qed.

Lemma body_events_lifecycle (out : list event) :
  Forall body_event out -> lifecycle out = [].
Proof.
  induction 1 as [|ev out Hev _ IH]; [reflexivity|].
  destruct ev; simpl in *; done.
Qed.

Lemma emits_body_invoke (task : string) (runtime : nat) :
  emits body_event (invoke task runtime).
Proof.
  unfold invoke.
  destruct (on_invoke (orchestration runtime task)) as [e|r];
    eexists _, [_]; (split; [|reflexivity]); by repeat constructor.
Qed.

Lemma emits_body_get_result (runtime : nat) (r : get_outcome) (timeout : nat) :
  emits body_event (get_result runtime r timeout).
Proof.
  unfold get_result.
  destruct r; eexists _, [_]; (split; [|reflexivity]); by repeat constructor.
Qed.

(** The events of one attempt hold exactly one stop, of its own runtime:
    the [finally] clause runs on every way out of the [try]. *)
Lemma run_attempt_lifecycle (task : string) (runtime : nat)
    (out : list event) :
  (forall w,
     run_attempt task runtime w
     = (attempt_outcome task runtime,
        World (console w ++ out) (next_runtime w))) ->
  lifecycle out = [StopWhenIdle runtime].
Proof.
  intros Hrun.
  assert (Hbody : emits body_event
            (orchestration_result <- invoke task runtime ;;
             try_except
               (value <- get_result runtime orchestration_result 120 ;;
                print [Lit nl; Lit "========================================";
                       Lit nl; Lit "Final Result:"; Lit nl; Lit value; Lit nl;
                       Lit "========================================"] ;;
                final_response <- loads value ;;
                response <- lift (getitem final_response "response") ;;
                final_answer <- lift (getitem response "final_answer") ;;
                response' <- lift (getitem final_response "response") ;;
                need_more_info <-
                  lift (get_default response' "need_more_info"
                          (Json.Bool false)) ;;
                print [Lit "[SYSTEM]: Final answer delivered, need_more_info=";
                       Fmt need_more_info] ;;
                ret (Return (FinalAnswer final_answer, need_more_info)))
               (fun e =>
                  if is_timeout e then
                    print [Lit "[TIMEOUT]: Orchestration timed out after 120 seconds"] ;;
                    ret (Retry (Failure "timeout" "Orchestration timed out"))
                  else
                    print [Lit "[EXCEPTION]: Orchestration failed: "; FmtExn e] ;;
                    ret (Retry (Failure "exception" (str_exn e)))))).
  { apply emits_bind; [apply emits_body_invoke | intros r].
    apply emits_try_except.
    - apply emits_bind; [apply emits_body_get_result | intros v]. emits_steps.
    - intros e. emits_steps. }
  destruct Hbody as (rb & outb & Houtb & Hb).
  specialize (Hrun (World [] 0)). revert Hrun.
  unfold run_attempt, try_finally. rewrite Hb.
  unfold try_except, stop_when_idle, print, emit.
  destruct (on_stop (orchestration runtime task)) as [e|];
    cbn [console next_runtime app]; intros [= _ <-];
    rewrite <- ?app_assoc, lifecycle_app, (body_events_lifecycle _ Houtb);
    reflexivity.
Qed.

Lemma retry_loop_lifecycle (fuel : nat) (task : string) (retry_count : Z)
    (last_exception : option failure) (w : world) :
  fuel = Z.to_nat (max_retries - retry_count) ->
  exists out k,
    console (snd (retry_loop fuel task retry_count last_exception w))
    = console w ++ out
    /\ k <= fuel
    /\ lifecycle out
       = flat_map (fun runtime => [RuntimeStart runtime; StopWhenIdle runtime])
                  (seq (next_runtime w) k).
Proof.
  revert retry_count last_exception w.
  induction fuel as [|fuel IH]; intros rc last w Hfuel.
  - rewrite retry_loop_exit by lia. eexists _, 0. by repeat split.
  - assert (Hlt : (rc < max_retries)%Z) by lia.
    destruct (run_attempt_run task (next_runtime w)) as (out & Hout & Hrun).
    pose proof (run_attempt_lifecycle _ _ _ Hrun) as Hlife.
    rewrite (retry_loop_step _ task rc last w out Hrun Hlt).
    destruct (attempt_outcome task (next_runtime w)) as [[r|e]|e].
    + eexists _, 1. split; [reflexivity|]. split; [lia|].
      cbn [lifecycle]. by rewrite Hlife.
    + destruct (IH (rc + 1)%Z (Some e)
                  (World (console w ++ Print
                            [Lit nl; Lit "[ATTEMPT "; FmtInt (rc + 1); Lit "/";
                             FmtInt max_retries;
                             Lit "] Starting orchestration..."]
                          :: RuntimeStart (next_runtime w) :: out ++ [Sleep 1])
                         (S (next_runtime w))))
        as (out' & k & Hcon & Hk & Hlife'); [lia|].
      cbn [console next_runtime] in Hcon, Hlife'.
      eexists (_ :: _ :: (out ++ [Sleep 1]) ++ out'), (S k).
      split.
      { rewrite Hcon. rewrite <- app_assoc. simpl.
        by rewrite <- app_assoc. }
      split; [lia|].
      cbn [lifecycle]. rewrite !lifecycle_app, Hlife, Hlife'. reflexivity.
    + eexists _, 1. split; [reflexivity|]. split; [lia|].
      cbn [lifecycle]. by rewrite Hlife.
Qed.

(** X11: every runtime [process_message] starts is stopped before the next
    one is started and before the function is left, whether the attempt
    returned, failed or raised: among the events of a call, starts and
    stops alternate, runtime by runtime, for at most [max_retries]
    runtimes. *)
Theorem process_message_runtime_lifecycle (task : string) (w : world) :
  exists out k,
    console (snd (process_message task w)) = console w ++ out
    /\ k <= Z.to_nat max_retries
    /\ lifecycle out
       = flat_map (fun runtime => [RuntimeStart runtime; StopWhenIdle runtime])
                  (seq (next_runtime w) k).
Proof.
  unfold process_message. apply retry_loop_lifecycle. f_equal. lia.
Qed.

(** X12: with [max_retries] zero or negative no attempt is made: no runtime
    is started, one line is printed, and the result is the structured error
    built from a [last_exception] that is still [None]. *)
Theorem process_message_no_attempts (task : string) (w : world) :
  (max_retries <= 0)%Z ->
  process_message task w
  = (Returned (ErrorResult None, Json.Bool false),
     World (console w
            ++ [Print [Lit "[FAILURE]: Max retries ("; FmtInt max_retries;
                       Lit ") reached."]])
           (next_runtime w)).
Proof.
  intros Hle. unfold process_message. by apply retry_loop_exit.
Qed.

Lemma loop_outcome_recovers (attempts k : nat) (task : string) (runtime : nat)
    (last_exception : option failure) (r : response_text * Json.value) :
  k < attempts ->
  (forall i, i < k ->
             exists e, attempt_outcome task (runtime + i) = Returned (Retry e)) ->
  attempt_outcome task (runtime + k) = Returned (Return r) ->
  loop_outcome attempts task runtime last_exception = Returned r.
Proof.
  revert attempts runtime last_exception.
  induction k as [|k IH]; intros attempts runtime last Hlt Hfail Hok.
  - destruct attempts as [|n]; [lia|]. cbn [loop_outcome].
    rewrite Nat.add_0_r in Hok. by rewrite Hok.
  - destruct attempts as [|n]; [lia|]. cbn [loop_outcome].
    destruct (Hfail 0 ltac:(lia)) as (e & He).
    rewrite Nat.add_0_r in He. rewrite He.
    apply IH; [lia| |].
    + intros i Hi. replace (S runtime + i) with (runtime + S i) by lia.
      apply Hfail. lia.
    + by replace (S runtime + k) with (runtime + S k) by lia.
Qed.

(** X13: an answer after failures.  When the first [k] attempts fail in
    [get] ([k] below [max_retries]) and the next attempt delivers a payload
    with [response.final_answer], [process_message] returns that answer and
    its flag; nothing of the failed attempts is in the result. *)
Theorem process_message_recovers (task : string) (w : world) (k : nat)
    (raised : nat -> exn) (value : string)
    (top response : list (string * Json.value)) (final_answer : Json.value) :
  (Z.of_nat k < max_retries)%Z ->
  (forall i, i < k ->
     on_invoke (orchestration (next_runtime w + i) task)
     = InvokeReturns (GetRaises (raised i))) ->
  on_invoke (orchestration (next_runtime w + k) task)
  = InvokeReturns (GetValue value) ->
  json_loads value = Some (Json.Obj top) ->
  Json.lookup "response" top = Some (Json.Obj response) ->
  Json.lookup "final_answer" response = Some final_answer ->
  fst (process_message task w)
  = Returned (FinalAnswer final_answer,
              default (Json.Bool false)
                      (Json.lookup "need_more_info" response)).
Proof.
  intros Hk Hfail Hok Hparse Hresp Hanswer.
  rewrite process_message_outcome.
  apply (loop_outcome_recovers _ k); [lia| |].
  - intros i Hi. eexists. apply attempt_outcome_get_raises. by apply Hfail.
  - rewrite (attempt_outcome_value _ _ value top response Hok Hparse Hresp).
    by rewrite Hanswer.
Qed.

(** X22: a Router payload typed as an intent result whose top intent cannot
    be read (no [response], no conversation, no scored intent, a top intent
    without [name], a confidence given as a string) ends in the [except]
    clause, which fails to build its result: [select_next_agent] raises,
    and the Dispatcher is not reached. *)
Theorem select_next_agent_unreadable_intent (chat_history : ChatHistory)
    (participant_descriptions : gmap string string) (w : world)
    (m : ChatMessageContent) (top : list (string * Json.value)) :
  last chat_history = Some m ->
  is_user (role m) = false ->
  name m = Some "TriageAgent" ->
  json_loads (content m) = Some (Json.Obj top) ->
  Json.lookup "type" top = Some (Json.Str "clu_result") ->
  unreadable_intent top ->
  fst (select_next_agent chat_history participant_descriptions w)
  = Raised ValidationError.
Proof.
  intros Hlast Huser Hname Hparse Htype Hbad.
  destruct (select_next_agent_dispatch chat_history participant_descriptions
              w m Hlast Huser) as (pre & _ & Hrun).
  { intros Hnone. congruence. }
  cbv zeta in Hrun.
  rewrite (name_is_other m "TriageAgent" "TranslationAgent") in Hrun by done.
  rewrite (proj2 (name_is_true m "TriageAgent") Hname) in Hrun.
  rewrite Hrun. clear Hrun.
  unfold route_triage_message. mred. rewrite Hparse.
  unfold get, get_default, getitem, getitem0, ge_float. mred.
  rewrite Htype.
  change (Json.eq_str (Json.Str "clu_result") "cqa_result") with false.
  change (Json.eq_str (Json.Str "clu_result") "clu_result") with true.
  mred.
  destruct Hbad as
    [Hresp
    | response result1 Hresp Hres Hconv
    | response result1 conversation conversations Hresp Hres Hconv Hint
    | response result1 conversation top_intent conversations intents
        Hresp Hres Hconv Hint Hn
    | response result1 conversation top_intent conversations intents intent
        text Hresp Hres Hconv Hint Hn Hconf].
  - rewrite Hresp. reflexivity.
  - rewrite Hresp. mred. rewrite Hres. mred. rewrite Hconv. reflexivity.
  - rewrite Hresp. mred. rewrite Hres. mred. rewrite Hconv. mred.
    rewrite Hint. reflexivity.
  - rewrite Hresp. mred. rewrite Hres. mred. rewrite Hconv. mred.
    rewrite Hint. mred. rewrite Hn. reflexivity.
  - rewrite Hresp. mred. rewrite Hres. mred. rewrite Hconv. mred.
    rewrite Hint. mred. rewrite Hn. mred. rewrite Hconf. reflexivity.
Qed.

(** *** The manager of the test client *)

Lemma client_format_agent_response_returns (r : option ChatMessageContent)
    (w : world) :
  (forall m, r = Some m -> loads_safe (content m)) ->
  exists s pre,
    Forall is_print pre
    /\ client_format_agent_response r w
       = (Returned s, World (console w ++ pre) (next_runtime w)).
Proof.
  intros Hsafe.
  destruct r as [m|]; unfold client_format_agent_response; mred.
  - specialize (Hsafe m eq_refl). unfold loads_safe in Hsafe.
    destruct (json_loads (content m)); mred.
    + eexists _, [_]. split; [|reflexivity]. by repeat constructor.
    + rewrite Hsafe by reflexivity.
      eexists _, [_]. split; [|reflexivity]. by repeat constructor.
  - exists "", []. split; [constructor|]. by rewrite world_eta.
Qed.

Lemma client_format_agent_response_raises (r : option ChatMessageContent) :
  raises_only
    (fun e => exists m, r = Some m /\ json_loads (content m) = None
                        /\ e = json_error (content m))
    (client_format_agent_response r).
Proof.
  intros w e. destruct r as [m|]; unfold client_format_agent_response; mred;
    [|discriminate].
  destruct (json_loads (content m)) eqn:Hparse; mred; [discriminate|].
  destruct (json_error (content m)) eqn:Herror; mred;
    try discriminate; intros [= <-]; eauto.
Qed.

(** A decoded payload is printed by [format_agent_response] without an
    exception. *)
Lemma decoded_safe (h : ChatHistory) (m : ChatMessageContent)
    (parsed : Json.value) :
  last h = Some m ->
  json_loads (content m) = Some parsed ->
  forall m', last h = Some m' -> loads_safe (content m').
Proof.
  intros Hlast Hparse m' Hm' Hnone. rewrite Hlast in Hm'.
  injection Hm' as <-. congruence.
Qed.

(** Only a [str] equal to a key of the registry is found in it. *)
Lemma next_agent_equal_registered (p : gmap string string) (target : Json.value) :
  next_agent_equal p target
  = match target with
    | Json.Str t => if registered p t then Some t else None
    | _ => None
    end.
Proof.
  assert (Hnone : forall l : list string,
             (forall a, Json.eq_str target a = false) ->
             head (filter (λ agent, Json.eq_str target agent = true) l) = None).
  { intros l Hfalse. induction l as [|a l IH]; [done|].
    rewrite filter_cons_False; [done|]. by rewrite Hfalse. }
  unfold next_agent_equal.
  destruct target as [| b | q | t | items | items]; try by apply Hnone.
  rewrite <- next_agent_registered. unfold next_agent. f_equal.
  apply list_filter_iff. intros a. simpl. rewrite String.eqb_eq.
  split; congruence.
Qed.

(** After its own printing of the latest message the client's
    [select_next_agent] is left with the choice of a branch. *)
Ltac client_start h w Hsafe :=
  let s := fresh "s" in
  let pre := fresh "pre" in
  let Hfmt := fresh "Hfmt" in
  destruct (client_format_agent_response_returns (last h) w Hsafe)
    as (s & pre & _ & Hfmt);
  unfold client_select_next_agent; unfold bind at 1; rewrite Hfmt;
  clear Hfmt.

(** X23: the test client's [select_next_agent] on the user's turn: a log
    of exactly one message is handed to TranslationAgent when that is
    registered; on the empty log, on every longer log that ends with a
    user message and when TranslationAgent is missing the function has no
    result and raises. *)
Theorem client_select_next_agent_user_turn (str_value : Json.value -> string)
    (chat_history : ChatHistory)
    (participant_descriptions : gmap string string) (w : world) :
  user_turn (last chat_history) = true ->
  (forall m, last chat_history = Some m -> loads_safe (content m)) ->
  fst (client_select_next_agent str_value chat_history
         participant_descriptions w)
  = if (length chat_history =? 1)%nat
       && registered participant_descriptions "TranslationAgent"
    then Returned (MkStringResult "TranslationAgent" "Initial translation.")
    else Raised ValidationError.
Proof.
  intros Huser Hsafe.
  client_start chat_history w Hsafe. rewrite Huser.
  destruct (length chat_history =? 1)%nat; cbn [andb]; [|reflexivity].
  mred. rewrite next_agent_registered.
  by destruct (registered participant_descriptions "TranslationAgent").
Qed.

(** X24: in the test client a Router payload typed as a FAQ result never
    yields a result: the [StringResult] without a speaker built for "CQA
    result received." is refused inside the [try] block, the [except]
    clause prints the error and fails to build its own.  No confidence is
    read. *)
Theorem client_select_next_agent_faq (str_value : Json.value -> string)
    (chat_history : ChatHistory)
    (participant_descriptions : gmap string string) (w : world)
    (m : ChatMessageContent) (top : list (string * Json.value)) :
  last chat_history = Some m ->
  is_user (role m) = false ->
  name m = Some "TriageAgent" ->
  json_loads (content m) = Some (Json.Obj top) ->
  Json.lookup "type" top = Some (Json.Str "cqa_result") ->
  exists out,
    client_select_next_agent str_value chat_history participant_descriptions w
    = (Raised ValidationError, World (console w ++ out) (next_runtime w))
    /\ last out = Some (Print [Lit "[ERROR]: "; FmtExn ValidationError]).
Proof.
  intros Hlast Huser Hname Hparse Htype.
  client_start chat_history w (decoded_safe _ _ _ Hlast Hparse).
  rewrite Hlast. unfold user_turn. rewrite Huser.
  rewrite (name_is_other m "TriageAgent" "TranslationAgent") by done.
  rewrite (proj2 (name_is_true m "TriageAgent") Hname).
  mred. rewrite Hparse. unfold get, get_default. mred. rewrite Htype.
  change (Json.eq_str (Json.Str "cqa_result") "cqa_result") with true.
  mred. unfold emit. simpl. rewrite <- !app_assoc.
  eexists. split; [reflexivity|].
  rewrite !app_assoc. apply last_snoc.
Qed.

(** X25: in the test client a Router payload that decodes to an object
    typed neither as a FAQ result nor as an intent result reaches the end
    of the function, whose [StringResult] without a speaker is refused:
    the function raises. *)
Theorem client_select_next_agent_untyped_router
    (str_value : Json.value -> string) (chat_history : ChatHistory)
    (participant_descriptions : gmap string string) (w : world)
    (m : ChatMessageContent) (top : list (string * Json.value)) :
  last chat_history = Some m ->
  is_user (role m) = false ->
  name m = Some "TriageAgent" ->
  json_loads (content m) = Some (Json.Obj top) ->
  Json.eq_str (default Json.Null (Json.lookup "type" top)) "cqa_result" = false ->
  Json.eq_str (default Json.Null (Json.lookup "type" top)) "clu_result" = false ->
  fst (client_select_next_agent str_value chat_history
         participant_descriptions w)
  = Raised ValidationError.
Proof.
  intros Hlast Huser Hname Hparse Hcqa Hclu.
  client_start chat_history w (decoded_safe _ _ _ Hlast Hparse).
  rewrite Hlast. unfold user_turn. rewrite Huser.
  rewrite (name_is_other m "TriageAgent" "TranslationAgent") by done.
  rewrite (proj2 (name_is_true m "TriageAgent") Hname).
  unfold client_no_match. mred. rewrite Hparse. unfold get, get_default. mred.
  destruct (Json.lookup "type" top) as [v|]; simpl in Hcqa, Hclu; mred;
    rewrite ?Hcqa; mred; rewrite ?Hclu; reflexivity.
Qed.

(** X26: the test client's [select_next_agent] has no test for the final
    translation: after any TranslationAgent turn whose payload decodes to
    an object the next speaker is TriageAgent (when registered), also on
    the logs of more than three messages on which the client's
    [should_terminate] answers true. *)
Theorem client_select_next_agent_after_translator
    (str_value : Json.value -> string) (chat_history : ChatHistory)
    (participant_descriptions : gmap string string) (w1 w2 : world)
    (m : ChatMessageContent) (items : list (string * Json.value)) :
  last chat_history = Some m ->
  is_user (role m) = false ->
  name m = Some "TranslationAgent" ->
  json_loads (content m) = Some (Json.Obj items) ->
  registered participant_descriptions "TriageAgent" = true ->
  fst (client_select_next_agent str_value chat_history
         participant_descriptions w1)
  = Returned (MkStringResult "TriageAgent" "Routing to TriageAgent.")
  /\ fst (client_should_terminate chat_history w2)
     = Returned
         (if (3 <? length chat_history)%nat
          then MkBooleanResult true "Final translation complete."
          else MkBooleanResult false "Continue.").
Proof.
  intros Hlast Huser Hname Hparse Hreg. split.
  - client_start chat_history w1 (decoded_safe _ _ _ Hlast Hparse).
    rewrite Hlast. unfold user_turn. rewrite Huser.
    rewrite (proj2 (name_is_true m "TranslationAgent") Hname).
    mred. rewrite Hparse. unfold get, get_default. mred.
    destruct (Json.lookup "response" items); mred;
      by rewrite next_agent_registered, Hreg.
  - unfold client_should_terminate. rewrite Hlast.
    rewrite (proj2 (name_is_true m "TranslationAgent") Hname).
    by destruct (3 <? length chat_history)%nat.
Qed.

(** X27: in the test client the Dispatcher's [target_agent] is taken as it
    is: a text naming a key of the registry is the next speaker, whichever
    participant it names, and no default responder is substituted; for any
    other value, the absent field included, the function has no result
    and raises. *)
Theorem client_select_next_agent_target (str_value : Json.value -> string)
    (chat_history : ChatHistory)
    (participant_descriptions : gmap string string) (w : world)
    (m : ChatMessageContent) (items : list (string * Json.value)) :
  last chat_history = Some m ->
  is_user (role m) = false ->
  name m = Some "Lumi" ->
  json_loads (content m) = Some (Json.Obj items) ->
  let target := default Json.Null (Json.lookup "target_agent" items) in
  fst (client_select_next_agent str_value chat_history
         participant_descriptions w)
  = match target with
    | Json.Str t =>
        if registered participant_descriptions t then
          Returned (MkStringResult
                      t ("Routing to " +:+ str_value target +:+ "."))
        else Raised ValidationError
    | _ => Raised ValidationError
    end.
Proof.
  intros Hlast Huser Hname Hparse target.
  client_start chat_history w (decoded_safe _ _ _ Hlast Hparse).
  rewrite Hlast. unfold user_turn. rewrite Huser.
  rewrite (name_is_other m "Lumi" "TranslationAgent") by done.
  rewrite (name_is_other m "Lumi" "TriageAgent") by done.
  rewrite (proj2 (name_is_true m "Lumi") Hname).
  mred. rewrite Hparse. unfold get, get_default. mred. subst target.
  destruct (Json.lookup "target_agent" items) as [v|]; simpl default; mred;
    rewrite next_agent_equal_registered; [|reflexivity].
  destruct v as [| b | q | t | l | o]; try reflexivity.
  by destruct (registered participant_descriptions t).
Qed.

(** X28: in the test client the turn of a Domain Responder is handed to
    TranslationAgent (when registered) without its payload being decoded by
    the routing: the result is the same for a payload that is not JSON. *)
Theorem client_select_next_agent_after_responder
    (str_value : Json.value -> string) (chat_history : ChatHistory)
    (participant_descriptions : gmap string string) (w : world)
    (m : ChatMessageContent) (responder : string) :
  last chat_history = Some m ->
  is_user (role m) = false ->
  name m = Some responder ->
  In responder valid_agents ->
  loads_safe (content m) ->
  fst (client_select_next_agent str_value chat_history
         participant_descriptions w)
  = if registered participant_descriptions "TranslationAgent"
    then Returned (MkStringResult "TranslationAgent" "Final translation.")
    else Raised ValidationError.
Proof.
  intros Hlast Huser Hname Hin Hsafe.
  assert (Hsafe' : forall m', last chat_history = Some m' ->
                              loads_safe (content m')).
  { intros m' Hm'. rewrite Hlast in Hm'. by injection Hm' as <-. }
  client_start chat_history w Hsafe'. rewrite Hlast. unfold user_turn.
  rewrite Huser.
  destruct (name_is_valid_agent m responder Hname Hin)
    as (Ht & Hr & Hl & Hv).
  rewrite Ht, Hr, Hl, Hv. mred. rewrite next_agent_registered.
  by destruct (registered participant_descriptions "TranslationAgent").
Qed.

Ltac client_leaf p :=
  let agent := fresh "agent" in
  let Hagent := fresh "Hagent" in
  intros agent Hagent;
  first
    [ discriminate Hagent
    | by apply next_agent_Some in Hagent as [-> ?] ].

Ltac client_steps p :=
  repeat first
    [ apply ensures_ret; first [exact I | assumption]
    | apply ensures_raise
    | apply ensures_StringResult_new; client_leaf p
    | apply ensures_try_except; [| intros ?]
    | match goal with
      | |- ensures _ (bind (StringResult_new _ _) _) =>
          apply (ensures_bind (fun r => registered p (result r) = true));
          [apply ensures_StringResult_new; client_leaf p | intros ? ?]
      end
    | apply ensures_bind_any; intros ?
    | match goal with
      | |- ensures _ (if ?b then _ else _) => destruct b
      end ].

Lemma client_select_next_agent_known (str_value : Json.value -> string)
    (h : ChatHistory) (p : gmap string string) :
  ensures (fun r => registered p (result r) = true)
          (client_select_next_agent str_value h p).
Proof.
  unfold client_select_next_agent. cbv zeta.
  apply ensures_bind_any; intros _.
  destruct (user_turn (last h)).
  { unfold client_no_match. client_steps p. }
  destruct (last h) as [m|]; [|unfold client_no_match; client_steps p].
  destruct (name_is m "TranslationAgent"); [client_steps p|].
  destruct (name_is m "TriageAgent").
  { apply (ensures_bind
             (fun decided =>
                match decided with
                | Some r => registered p (result r) = true
                | None => True
                end)).
    - client_steps p.
    - intros [r|] Hr; [by apply ensures_ret|].
      unfold client_no_match. client_steps p. }
  destruct (name_is m "Lumi").
  { apply ensures_try_except; [|intros e; client_steps p].
    apply ensures_bind_any; intros parsed.
    apply ensures_bind_any; intros target.
    apply ensures_bind_any; intros _.
    apply ensures_StringResult_new. intros agent. simpl.
    rewrite next_agent_equal_registered.
    destruct target as [| b | q | t | items | items]; try discriminate.
    destruct (registered p t) eqn:Hreg; [|discriminate].
    by intros [= <-]. }
  destruct (name_in m valid_agents); [client_steps p|].
  unfold client_no_match. client_steps p.
Qed.

Lemma client_no_match_raises :
  raises_only (eq ValidationError) client_no_match.
Proof. unfold client_no_match. raises_steps. Qed.

Lemma client_select_next_agent_escape (str_value : Json.value -> string)
    (h : ChatHistory) (p : gmap string string) :
  raises_only
    (fun e => e = ValidationError
              \/ exists m, last h = Some m
                           /\ json_loads (content m) = None
                           /\ e = json_error (content m))
    (client_select_next_agent str_value h p).
Proof.
  unfold client_select_next_agent. cbv zeta.
  apply raises_only_bind.
  { eapply raises_only_weaken; [|apply client_format_agent_response_raises].
    intros e He. by right. }
  intros _.
  apply (raises_only_weaken (eq ValidationError)); [intros e <-; by left|].
  destruct (user_turn (last h)).
  { destruct (length h =? 1)%nat;
      [raises_steps | apply client_no_match_raises]. }
  destruct (last h) as [m|]; [|apply client_no_match_raises].
  destruct (name_is m "TranslationAgent"); [raises_steps|].
  destruct (name_is m "TriageAgent").
  { apply raises_only_bind; [raises_steps|].
    intros [r|]; [apply raises_only_ret | apply client_no_match_raises]. }
  destruct (name_is m "Lumi"); [raises_steps|].
  destruct (name_in m valid_agents); [raises_steps|].
  apply client_no_match_raises.
Qed.

(** X29: the test client's [select_next_agent] names only keys of the
    registry it was given; it never returns a result without a speaker,
    and what it raises instead is pydantic's [ValidationError], or the
    exception [json.loads] raised on the latest message's content. *)
Theorem client_select_next_agent_total (str_value : Json.value -> string)
    (chat_history : ChatHistory)
    (participant_descriptions : gmap string string) (w : world) :
  match fst (client_select_next_agent str_value chat_history
               participant_descriptions w) with
  | Returned r => registered participant_descriptions (result r) = true
  | Raised e =>
      e = ValidationError
      \/ exists m, last chat_history = Some m
                   /\ json_loads (content m) = None
                   /\ e = json_error (content m)
  end.
Proof.
  destruct (fst (client_select_next_agent str_value chat_history
                   participant_descriptions w)) as [r|e] eqn:Hrun.
  - by apply (client_select_next_agent_known str_value chat_history
                participant_descriptions w).
  - by apply (client_select_next_agent_escape str_value chat_history
                participant_descriptions w).
Qed.

(** X30: the test client's [should_terminate] takes the same decision as
    the orchestrator's on every log, under reasons of its own, and prints
    nothing while doing so. *)
Theorem client_should_terminate_agrees (chat_history : ChatHistory)
    (w1 w2 : world) :
  exists r1 r2,
    fst (should_terminate chat_history w1) = Returned r1
    /\ client_should_terminate chat_history w2 = (Returned r2, w2)
    /\ bresult r1 = bresult r2.
Proof.
  unfold should_terminate, client_should_terminate.
  destruct (last chat_history) as [m|]; [|by eexists _, _].
  destruct (name_is m "TranslationAgent" && (3 <? length chat_history)%nat);
    by eexists _, _.
Qed.

End Orchestrator.

(** ** The thresholds and the decision *)

Lemma same_routing_bind {A} (m : M A)
    (k1 k2 : A -> M (option StringResult)) (w : world) :
  (forall a w', same_routing (fst (k1 a w')) (fst (k2 a w'))) ->
  same_routing (fst (bind m k1 w)) (fst (bind m k2 w)).
Proof.
  intros Hk. unfold bind. destruct (m w) as [[a|e] w']; [apply Hk | exact I].
Qed.

Lemma same_routing_refl (o : outcome (option StringResult)) : same_routing o o.
Proof. by destruct o. Qed.

(** The [except] clause of [route_triage_message] turns whatever the [try]
    block raised into the same exception. *)
Lemma route_triage_message_except (body1 body2 : M (option StringResult))
    (handler : exn -> M (option StringResult)) (w : world) :
  (forall e w', fst (handler e w') = Raised ValidationError) ->
  same_routing (fst (body1 w)) (fst (body2 w)) ->
  next_speaker (fst (try_except body1 handler w))
  = next_speaker (fst (try_except body2 handler w)).
Proof.
  intros Hhandler Hsame. unfold try_except.
  destruct (body1 w) as [[d1|e1] w1]; destruct (body2 w) as [[d2|e2] w2];
    simpl in Hsame; try contradiction.
  - destruct d1, d2; simpl in *; congruence.
  - by rewrite !Hhandler.
Qed.

(** The CLU threshold only chooses between two reasons for the same next
    speaker. *)
Lemma route_triage_message_threshold (json_loads : string -> option Json.value)
    (json_error : string -> exn) (threshold1 threshold2 cqa_confidence : Q)
    (m : ChatMessageContent) (p : gmap string string) (w : world) :
  next_speaker
    (fst (route_triage_message json_loads json_error threshold1
            cqa_confidence m p w))
  = next_speaker
      (fst (route_triage_message json_loads json_error threshold2
              cqa_confidence m p w)).
Proof.
  unfold route_triage_message. apply route_triage_message_except.
  { intros e w'. reflexivity. }
  repeat first
    [ match goal with
      | |- same_routing ?o ?o => apply same_routing_refl
      | |- same_routing (fst ((if ?b then _ else _) _)) _ => destruct b
      end
    | apply same_routing_bind; intros ? ? ].
  match goal with
  | |- context [ge_float ?confidence threshold1] =>
      unfold ge_float; destruct confidence; try exact I
  end;
    destruct (Qle_bool threshold1 _), (Qle_bool threshold2 _);
    cbv beta iota zeta delta
      [bind ret raise lift print StringResult_new fst snd];
    destruct (next_agent p "Lumi"); reflexivity.
Qed.

Lemma next_speaker_bind {A} (m : M A)
    (k1 k2 : A -> M (option StringResult)) (w : world) :
  (forall a w', next_speaker (fst (k1 a w')) = next_speaker (fst (k2 a w'))) ->
  next_speaker (fst (bind m k1 w)) = next_speaker (fst (bind m k2 w)).
Proof.
  intros Hk. unfold bind. destruct (m w) as [[a|e] w']; [apply Hk | done].
Qed.

(** C8 (amended): the routing decision of [select_next_agent] (the next
    speaker, the absence of one, or the exception) is a function of the
    log, the registry and the FAQ threshold [cqa_confidence]: it is the
    same from any two worlds, whatever was printed or started before, and
    under any two values of the CLU threshold [confidence_threshold]. *)
Theorem select_next_agent_deterministic
    (json_loads : string -> option Json.value) (json_error : string -> exn)
    (str_exn : exn -> string) (threshold1 threshold2 cqa_confidence : Q)
    (chat_history : ChatHistory)
    (participant_descriptions : gmap string string) (w1 w2 : world) :
  next_speaker
    (fst (select_next_agent json_loads json_error str_exn threshold1
            cqa_confidence chat_history participant_descriptions w1))
  = next_speaker
      (fst (select_next_agent json_loads json_error str_exn threshold2
              cqa_confidence chat_history participant_descriptions w2)).
Proof.
  rewrite (select_next_agent_outcome json_loads json_error str_exn threshold2
             cqa_confidence chat_history participant_descriptions w2 w1).
  unfold select_next_agent. cbv zeta.
  apply next_speaker_bind. intros _ w.
  destruct (last chat_history) as [m|]; [|reflexivity].
  destruct (user_turn (Some m)); [reflexivity|].
  destruct (name_is m "TranslationAgent").
  { destruct (3 <? length chat_history)%nat; reflexivity. }
  destruct (name_is m "TriageAgent").
  { apply next_speaker_bind. intros _ w'.
    apply route_triage_message_threshold. }
  destruct (name_is m "Lumi"); [reflexivity|].
  destruct (name_in m valid_agents); reflexivity.
Qed.

(** C8, counterexample: the same log and registry under two values of the
    FAQ threshold.  A FAQ match of confidence 0.92 is handed to the
    Translator under the threshold 0.8 and to the Dispatcher under 0.95:
    the decision is not a function of the log and the registry alone. *)
Lemma select_next_agent_threshold_dependence :
  next_speaker
    (fst (select_next_agent Decoder.decode py_json_error py_str_exn
            default_confidence_threshold default_cqa_confidence
            faq_router_log registry initial_world))
  = Returned (Some "TranslationAgent")
  /\ next_speaker
       (fst (select_next_agent Decoder.decode py_json_error py_str_exn
               default_confidence_threshold strict_cqa_confidence
               faq_router_log registry initial_world))
     = Returned (Some "Lumi").
Proof. split; reflexivity. Qed.

(** ** The properties at concrete inputs *)

(** C1, counterexample: the three turns of the FAQ scenario (Translator,
    Router, Translator).  The latest turn is a Translator turn, not the
    first one, and it follows the Router's direct FAQ answer; the log has
    three turns, and [should_terminate] answers false. *)
Lemma should_terminate_counterexample :
  later_translator_turn faq_log = true
  /\ follows_answer faq_log = true
  /\ fst (should_terminate faq_log initial_world)
     = Returned (MkBooleanResult false "Chat continues.").
Proof. repeat split; reflexivity. Qed.

(** C2, the failing input: [orchestration.invoke] raises on the first
    attempt.  The exception leaves [process_message]; no structured error
    result is returned and no second attempt is made. *)
Theorem process_message_invoke_failure :
  process_message Decoder.decode py_json_error py_str_exn failing_invoke
    default_max_retries first_aid_task initial_world
  = (Raised (RuntimeError "agent registration failed"),
     World [Print [Lit nl; Lit "[ATTEMPT "; FmtInt 1; Lit "/"; FmtInt 3;
                   Lit "] Starting orchestration..."];
            RuntimeStart 0;
            Invoke 0 first_aid_task;
            StopWhenIdle 0]
           1).
Proof. reflexivity. Qed.

(** Scenario E: three timeouts in a row.  Three attempts on three runtimes,
    a pause of 1 after each, and the structured error result with the
    classification of the last failure. *)
Lemma process_message_three_timeouts :
  let run := process_message Decoder.decode py_json_error py_str_exn timing_out
               default_max_retries first_aid_task initial_world in
  fst run
  = Returned (ErrorResult (Some (Failure "timeout" "Orchestration timed out")),
              Json.Bool false)
  /\ started (console (snd run)) = [0; 1; 2]
  /\ pauses (console (snd run)) = [1; 1; 1]
  /\ budgets (console (snd run)) = [120; 120; 120].
Proof. repeat split; reflexivity. Qed.

(** C3, the failing input: a Router turn whose payload is not JSON.  The
    [except] clause of [route_triage_message] builds a [StringResult]
    without a speaker, which the constructor refuses: [select_next_agent]
    raises where a routing failure was to be returned. *)
Lemma select_next_agent_invalid_json_witness :
  (last garbled_router_log = Some garbled_triage
   /\ is_user (role garbled_triage) = false
   /\ Decoder.decode (content garbled_triage) = None)
  /\ fst (select_next_agent Decoder.decode py_json_error py_str_exn
            default_confidence_threshold default_cqa_confidence
            garbled_router_log registry initial_world)
     = Raised ValidationError.
Proof.
  split; [repeat split; reflexivity|].
  apply (select_next_agent_invalid_json Decoder.decode py_json_error
           py_str_exn default_confidence_threshold default_cqa_confidence
           garbled_router_log registry initial_world garbled_triage);
    reflexivity.
Defined.

(** The Router payload of an unknown type: Python's [None] is what
    [select_next_agent] returns. *)
Lemma select_next_agent_untyped_router_example :
  fst (select_next_agent Decoder.decode py_json_error py_str_exn
         default_confidence_threshold default_cqa_confidence
         untyped_router_log registry initial_world)
  = Returned None.
Proof. reflexivity. Qed.

(** C4, witness: a FAQ match of confidence 0.92 against the threshold 0.8 is
    followed by the Translator; one of confidence 0.35 and an intent result
    of confidence 0.21 are followed by the Dispatcher. *)
Lemma select_next_agent_after_router_witness :
  (exists r,
     fst (select_next_agent Decoder.decode py_json_error py_str_exn
            default_confidence_threshold default_cqa_confidence
            faq_router_log registry initial_world)
     = Returned (Some r)
     /\ result r = "TranslationAgent")
  /\ (exists r,
        fst (select_next_agent Decoder.decode py_json_error py_str_exn
               default_confidence_threshold default_cqa_confidence
               weak_faq_router_log registry initial_world)
        = Returned (Some r)
        /\ result r = "Lumi")
  /\ (exists r,
        fst (select_next_agent Decoder.decode py_json_error py_str_exn
               default_confidence_threshold default_cqa_confidence
               intent_router_log registry initial_world)
        = Returned (Some r)
        /\ result r = "Lumi").
Proof.
  split; [|split].
  - eapply (select_next_agent_after_router Decoder.decode py_json_error py_str_exn
              default_confidence_threshold default_cqa_confidence
              faq_router_log registry initial_world faq_match);
      try reflexivity.
    apply (faq_above _ _ (92 # 100)); [|reflexivity].
    do 4 eexists. repeat split; reflexivity.
  - eapply (select_next_agent_after_router Decoder.decode py_json_error py_str_exn
              default_confidence_threshold default_cqa_confidence
              weak_faq_router_log registry initial_world weak_faq_match);
      try reflexivity.
    apply (faq_below _ _ (35 # 100)); [|reflexivity].
    do 4 eexists. repeat split; reflexivity.
  - eapply (select_next_agent_after_router Decoder.decode py_json_error py_str_exn
              default_confidence_threshold default_cqa_confidence
              intent_router_log registry initial_world weak_intent);
      try reflexivity.
    apply (intent_any _ _ (Json.Str "Recordability") (21 # 100)).
    do 7 eexists. repeat split; reflexivity.
Defined.

(** C5, counterexample: the Dispatcher names "UnknownAgent" in a payload
    whose [iri_domains] is null.  The payload is a JSON object, its target
    is none of the four responders and GovernanceAgent is registered, yet
    the next speaker is not GovernanceAgent: joining the domains raises
    after the substitution, and the function has no result. *)
Lemma select_next_agent_null_domains :
  last null_domains_log = Some null_domains
  /\ name null_domains = Some "Lumi"
  /\ Decoder.decode (content null_domains)
     = Some (Json.Obj [("target_agent", Json.Str "UnknownAgent");
                       ("iri_domains", Json.Null)])
  /\ registered registry "GovernanceAgent" = true
  /\ fst (select_next_agent Decoder.decode py_json_error py_str_exn
            default_confidence_threshold default_cqa_confidence
            null_domains_log registry initial_world)
     = Raised ValidationError.
Proof. repeat split; reflexivity. Qed.

(** C5, witness: the Dispatcher names "UnknownAgent". *)
Lemma select_next_agent_unknown_target_witness :
  exists r out,
    select_next_agent Decoder.decode py_json_error py_str_exn
      default_confidence_threshold default_cqa_confidence
      dispatcher_log registry initial_world
    = (Returned (Some r), World (console initial_world ++ out)
                                (next_runtime initial_world))
    /\ result r = "GovernanceAgent"
    /\ In (Print [Lit "[SYSTEM]: Unknown target agent '";
                  Fmt (Json.Str "UnknownAgent");
                  Lit "', defaulting to GovernanceAgent"]) out.
Proof.
  apply (select_next_agent_unknown_target Decoder.decode py_json_error
            py_str_exn default_confidence_threshold default_cqa_confidence
            dispatcher_log registry initial_world unknown_target
            [("target_agent", Json.Str "UnknownAgent");
             ("intent", Json.Str "Recordability");
             ("entities", Json.Arr []);
             ("iri_domains", Json.Arr [Json.Str "Governance"]);
             ("terminated", Json.Str "False")]);
    reflexivity.
Defined.



(** C9, counterexample: the payload [[]] is valid JSON, the four responders
    are registered, and no responder is selected: [parsed.get] raises, the
    [except] clause takes over and the function has no result. *)
Lemma route_lumi_message_array_payload :
  Decoder.decode (content array_payload) = Some (Json.Arr [])
  /\ (forall a, In a valid_agents -> registered registry a = true)
  /\ fst (route_lumi_message Decoder.decode py_json_error array_payload
            registry initial_world)
     = Raised ValidationError.
Proof.
  split; [reflexivity|]. split; [|reflexivity].
  intros a [<-|[<-|[<-|[<-|[]]]]]; reflexivity.
Qed.

(** C9, witness: the payload names "UnknownAgent", GovernanceAgent is
    selected. *)
Lemma route_lumi_message_choice_witness :
  (forall a, In a valid_agents -> registered registry a = true)
  /\ exists r,
       fst (route_lumi_message Decoder.decode py_json_error unknown_target
              registry initial_world)
       = Returned r
       /\ result r = "GovernanceAgent".
Proof.
  assert (Hreg : forall a, In a valid_agents -> registered registry a = true).
  { intros a [<-|[<-|[<-|[<-|[]]]]]; reflexivity. }
  split; [exact Hreg|].
  destruct (route_lumi_message_choice Decoder.decode py_json_error
              unknown_target registry initial_world Hreg) as [Hobject _].
  destruct (Hobject [("target_agent", Json.Str "UnknownAgent");
                     ("intent", Json.Str "Recordability");
                     ("entities", Json.Arr []);
                     ("iri_domains", Json.Arr [Json.Str "Governance"]);
                     ("terminated", Json.Str "False")]
                    eq_refl eq_refl) as (r & Hrun & _ & Hdefault).
  exists r. split; [exact Hrun|]. apply Hdefault. reflexivity.
Defined.

(** Scenario C: the Governance responder's payload carries
    [need_more_info: "True"]; the final translation's payload, whose flag is
    nested and a JSON boolean, does not ask for user input. *)
Lemma should_request_user_input_examples :
  should_request_user_input Decoder.decode py_json_error clarification_log initial_world
  = (Returned (MkBooleanResult true "Agent needs more information from user."),
     initial_world)
  /\ should_request_user_input Decoder.decode py_json_error faq_log initial_world
     = (Returned (MkBooleanResult false "No user input required."),
        initial_world).
Proof. split; reflexivity. Qed.

(** ** The intent router and the entity lookup *)

(** X19: for a response in which the prediction can be read,
    [parse_response] always forwards the intent, the entities, the
    confidence and the response itself, and only sets the [error] field: to
    "No intent recognized" when the top intent is the string "None"
    (whatever the confidence), otherwise to "CLU confidence threshold not
    met" when the confidence is below the threshold, otherwise to [None]
    with no warning logged. *)
Theorem parse_response_flags (confidence_threshold : Q)
    (response intent entities : Json.value) (confidence : Q) :
  clu_prediction response intent entities confidence ->
  exists error warnings,
    parse_response confidence_threshold response
    = inr (Json.Obj [("kind", Json.Str "clu_result");
                     ("error", error);
                     ("intent", intent);
                     ("entities", entities);
                     ("confidence", Json.Num confidence);
                     ("api_response", response)],
           warnings)
    /\ (intent = Json.Str "None" -> error = Json.Str "No intent recognized")
    /\ (intent <> Json.Str "None" ->
        (confidence < confidence_threshold)%Q ->
        error = Json.Str "CLU confidence threshold not met")
    /\ (intent <> Json.Str "None" ->
        (confidence_threshold <= confidence)%Q ->
        error = Json.Null /\ warnings = []).
Proof.
  intros (top & result & prediction & first & others & -> & Hres & Hpred
          & Hint & Hconf & Htop & Hent).
  unfold parse_response, and_then, getitem, getitem0, lt_float.
  rewrite Hres, Hpred, Hint, Hconf, Htop, Hent.
  assert (Hnone : Json.eq_str intent "None" = true <-> intent = Json.Str "None").
  { destruct intent; simpl; try (split; discriminate).
    rewrite String.eqb_eq. split; congruence. }
  assert (Hle_iff : Qle_bool confidence_threshold confidence = true
                    <-> (confidence_threshold <= confidence)%Q)
    by apply Qle_bool_iff.
  destruct (Qle_bool confidence_threshold confidence) eqn:Hle; cbn [negb];
    destruct (Json.eq_str intent "None") eqn:Heq;
    eexists _, _; (split; [reflexivity|]).
  - assert (Hi : intent = Json.Str "None") by (by apply Hnone).
    split; [done|]. split; intros Hn; congruence.
  - assert (Hn : intent <> Json.Str "None")
      by (intros Hn%Hnone; discriminate).
    split; [intros ?; congruence|].
    split; [|done].
    intros _ Hlt. exfalso. apply (Qlt_not_le _ _ Hlt). by apply Hle_iff.
  - assert (Hi : intent = Json.Str "None") by (by apply Hnone).
    split; [done|]. split; intros Hn; congruence.
  - assert (Hn : intent <> Json.Str "None")
      by (intros Hn%Hnone; discriminate).
    split; [intros ?; congruence|].
    split; [done|].
    intros _ Hge%Hle_iff. discriminate.
Qed.

Lemma get_entity_skip (triage_agent : bool) (entity_name : string)
    (ent : Json.value) (rest : list Json.value) :
  other_entity triage_agent entity_name ent ->
  get_entity triage_agent (ent :: rest) entity_name
  = get_entity triage_agent rest entity_name.
Proof.
  intros (items & -> & Hcat & Hname).
  cbn [get_entity]. unfold and_then, get, get_default.
  destruct triage_agent.
  - specialize (Hname eq_refl).
    destruct (Json.lookup "name" items); simpl default in Hname;
      rewrite Hname;
      destruct (Json.lookup "category" items); simpl default in Hcat;
      by rewrite Hcat.
  - destruct (Json.lookup "category" items); simpl default in Hcat;
      by rewrite Hcat.
Qed.

(** X20: [get_entity] answers with the first entity that carries the
    wanted name (as its category, or as its name when the router is the
    triage agent): it returns that entity's ["text"], or raises the
    [KeyError] of a missing ["text"], and never looks at the entities that
    follow. *)
Theorem get_entity_first_match (triage_agent : bool) (entity_name : string)
    (before after : list Json.value) (ent : Json.value) :
  Forall (other_entity triage_agent entity_name) before ->
  named_entity triage_agent entity_name ent ->
  get_entity triage_agent (before ++ ent :: after) entity_name
  = getitem ent "text".
Proof.
  intros Hbefore (items & -> & Hmatch).
  induction Hbefore as [|x before Hx _ IH].
  - cbn [app get_entity]. unfold and_then, get, get_default.
    destruct triage_agent.
    + destruct Hmatch as [Hcat | [_ Hname]].
      * destruct (Json.lookup "name" items) as [n|]; simpl default;
          [destruct (Json.eq_str n entity_name)|]; try reflexivity;
          destruct (Json.lookup "category" items); simpl default in Hcat;
          try discriminate; by rewrite Hcat.
      * destruct (Json.lookup "name" items) as [n|]; simpl default in Hname;
          try discriminate. by rewrite Hname.
    + destruct Hmatch as [Hcat | [? _]]; [|discriminate].
      destruct (Json.lookup "category" items); simpl default in Hcat;
        try discriminate; by rewrite Hcat.
  - rewrite <- app_comm_cons, get_entity_skip by done. exact IH.
Qed.

(** X21: when no entity carries the wanted name, the empty list included,
    [get_entity] returns [None]; it does not raise. *)
Theorem get_entity_absent (triage_agent : bool) (entity_name : string)
    (entities : list Json.value) :
  Forall (other_entity triage_agent entity_name) entities ->
  get_entity triage_agent entities entity_name = inr Json.Null.
Proof.
  induction 1 as [|x entities Hx _ IH]; [reflexivity|].
  by rewrite get_entity_skip.
Qed.

(** ** The further properties at concrete inputs *)

(** X1, witness: the empty log and the log of the user's first message go
    to TranslationAgent; without it in the registry the function raises. *)
Lemma select_next_agent_user_turn_witness :
  fst (select_next_agent Decoder.decode py_json_error py_str_exn
         default_confidence_threshold default_cqa_confidence
         [] registry initial_world)
  = Returned (Some (MkStringResult
                      "TranslationAgent"
                      "Routing to TranslationAgent for initial translation."))
  /\ fst (select_next_agent Decoder.decode py_json_error py_str_exn
            default_confidence_threshold default_cqa_confidence
            [user_turn_msg] registry initial_world)
     = Returned (Some (MkStringResult
                         "TranslationAgent"
                         "Routing to TranslationAgent for initial translation."))
  /\ fst (select_next_agent Decoder.decode py_json_error py_str_exn
            default_confidence_threshold default_cqa_confidence
            [user_turn_msg] registry_without_translator initial_world)
     = Raised ValidationError.
Proof.
  split; [|split].
  - apply (select_next_agent_user_turn Decoder.decode py_json_error
             py_str_exn default_confidence_threshold default_cqa_confidence
             [] registry initial_world); [reflexivity|].
    intros m Hm. discriminate.
  - apply (select_next_agent_user_turn Decoder.decode py_json_error
             py_str_exn default_confidence_threshold default_cqa_confidence
             [user_turn_msg] registry initial_world); [reflexivity|].
    intros m Hm Hnone. reflexivity.
  - apply (select_next_agent_user_turn Decoder.decode py_json_error
             py_str_exn default_confidence_threshold default_cqa_confidence
             [user_turn_msg] registry_without_translator initial_world);
      [reflexivity|].
    intros m Hm Hnone. reflexivity.
Defined.

(** X2, witness: the exception raised on the complete FAQ exchange. *)
Lemma select_next_agent_raises_witness :
  fst (select_next_agent Decoder.decode py_json_error py_str_exn
         default_confidence_threshold default_cqa_confidence
         garbled_final_log registry initial_world)
  = Raised ValidationError
  /\ (ValidationError = ValidationError
      \/ exists m, last garbled_final_log = Some m
                   /\ Decoder.decode (content m) = None
                   /\ ValidationError = py_json_error (content m)).
Proof.
  split; [reflexivity|].
  apply (select_next_agent_raises Decoder.decode py_json_error py_str_exn
           default_confidence_threshold default_cqa_confidence
           garbled_final_log registry initial_world ValidationError).
  reflexivity.
Defined.

(** X3, witness: the responder chosen after the Dispatcher's turn is a key
    of the registry. *)
Lemma select_next_agent_registered_witness :
  registered registry "GovernanceAgent" = true
  /\ In "GovernanceAgent" pipeline_agents.
Proof.
  apply (select_next_agent_registered Decoder.decode py_json_error py_str_exn
           default_confidence_threshold default_cqa_confidence
           dispatcher_log registry initial_world
           (MkStringResult
              "GovernanceAgent"
              "Routing to GovernanceAgent for Governance domain expertise.")
           "GovernanceAgent");
    reflexivity.
Defined.

(** X4, witness: the complete FAQ exchange. *)
Lemma select_next_agent_on_terminal_log_witness :
  fst (should_terminate final_log initial_world)
  = Returned (MkBooleanResult true "Chat terminated after final translation.")
  /\ fst (select_next_agent Decoder.decode py_json_error py_str_exn
            default_confidence_threshold default_cqa_confidence
            final_log registry initial_world)
     = Raised ValidationError.
Proof.
  split; [reflexivity|].
  apply (select_next_agent_on_terminal_log Decoder.decode py_json_error
           py_str_exn default_confidence_threshold default_cqa_confidence
           final_log registry initial_world initial_world
           outbound_translation
           (MkBooleanResult true "Chat terminated after final translation."));
    try reflexivity.
  intros Hnone. reflexivity.
Defined.

(** X5, witness: the inbound translation of the first question. *)
Lemma select_next_agent_first_translation_witness :
  fst (select_next_agent Decoder.decode py_json_error py_str_exn
         default_confidence_threshold default_cqa_confidence
         [user_turn_msg; inbound_translation] registry initial_world)
  = Returned (Some (MkStringResult
                      "TriageAgent"
                      "Routing to TriageAgent for intent classification.")).
Proof.
  apply (select_next_agent_first_translation Decoder.decode py_json_error
           py_str_exn default_confidence_threshold default_cqa_confidence
           [user_turn_msg; inbound_translation] registry initial_world
           inbound_translation
           [("origin_language", Json.Str "en");
            ("response",
             Json.Obj [("current_question",
                        Json.Str "What is considered first aid?")]);
            ("target_language", Json.Str "en")]);
    try reflexivity.
  simpl. lia.
Defined.

(** X6, witness: the Governance responder asks for more information and
    the next speaker is still the Translator. *)
Lemma select_next_agent_after_responder_witness :
  fst (select_next_agent Decoder.decode py_json_error py_str_exn
         default_confidence_threshold default_cqa_confidence
         clarification_log registry initial_world)
  = Returned (Some (MkStringResult
                      "TranslationAgent"
                      "Routing to TranslationAgent for final translation.")).
Proof.
  apply (select_next_agent_after_responder Decoder.decode py_json_error
           py_str_exn default_confidence_threshold default_cqa_confidence
           clarification_log registry initial_world clarification_request
           "GovernanceAgent"
           [("response", Json.Str "Which treatment was given?");
            ("terminated", Json.Str "False");
            ("need_more_info", Json.Str "True")]);
    try reflexivity.
  cbv [valid_agents In]. tauto.
Defined.

(** X7, witness: the Dispatcher names SciencesAgent. *)
Lemma select_next_agent_known_target_witness :
  exists r,
    fst (select_next_agent Decoder.decode py_json_error py_str_exn
           default_confidence_threshold default_cqa_confidence
           known_dispatcher_log registry initial_world)
    = Returned (Some r)
    /\ result r = "SciencesAgent".
Proof.
  apply (select_next_agent_known_target Decoder.decode py_json_error
           py_str_exn default_confidence_threshold default_cqa_confidence
           known_dispatcher_log registry initial_world known_target
           [("target_agent", Json.Str "SciencesAgent");
            ("intent", Json.Str "ExposureLimits");
            ("entities", Json.Arr []);
            ("iri_domains", Json.Arr [Json.Str "Sciences"; Json.Str "Governance"]);
            ("terminated", Json.Str "False")]
           "SciencesAgent");
    try reflexivity.
  cbv [valid_agents In]. tauto.
Defined.

(** X8, witness: the default responder is not registered. *)
Lemma route_lumi_message_unregistered_witness :
  exists out,
    route_lumi_message Decoder.decode py_json_error unknown_target
      registry_without_governance initial_world
    = (Raised ValidationError,
       World (console initial_world ++ out) (next_runtime initial_world))
    /\ last out = Some (Print [Lit "[SYSTEM]: Error processing Lumi message: ";
                               FmtExn ValidationError]).
Proof.
  apply (route_lumi_message_unregistered Decoder.decode py_json_error
           unknown_target registry_without_governance initial_world
           [("target_agent", Json.Str "UnknownAgent");
            ("intent", Json.Str "Recordability");
            ("entities", Json.Arr []);
            ("iri_domains", Json.Arr [Json.Str "Governance"]);
            ("terminated", Json.Str "False")]);
    reflexivity.
Defined.

(** X9, witness: a confidence of 0.8 against the threshold 0.8. *)
Lemma select_next_agent_faq_threshold_witness :
  exists r,
    fst (select_next_agent Decoder.decode py_json_error py_str_exn
           default_confidence_threshold default_cqa_confidence
           threshold_faq_log registry initial_world)
    = Returned (Some r)
    /\ result r = "TranslationAgent".
Proof.
  destruct (select_next_agent_faq_threshold Decoder.decode py_json_error py_str_exn
              default_confidence_threshold default_cqa_confidence
              threshold_faq_log registry initial_world threshold_faq
              (Json.Obj
                 [("type", Json.Str "cqa_result");
                  ("response",
                   Json.Obj [("answers",
                              Json.Arr [Json.Obj [("confidenceScore",
                                                   Json.Num (8 # 10))]])]);
                  ("terminated", Json.Str "True")])
              (8 # 10))
    as (r & Hrun & Htranslator & _); try reflexivity.
  - do 4 eexists. repeat split; reflexivity.
  - exists r. split; [exact Hrun|]. apply Htranslator. discriminate.
Defined.

(** X10, witness: a FAQ result without answers. *)
Lemma select_next_agent_unreadable_faq_witness :
  fst (select_next_agent Decoder.decode py_json_error py_str_exn
         default_confidence_threshold default_cqa_confidence
         empty_faq_log registry initial_world)
  = Raised ValidationError.
Proof.
  apply (select_next_agent_unreadable_faq Decoder.decode py_json_error
           py_str_exn default_confidence_threshold default_cqa_confidence
           empty_faq_log registry initial_world empty_faq
           [("type", Json.Str "cqa_result");
            ("response", Json.Obj [("answers", Json.Arr [])]);
            ("terminated", Json.Str "True")]);
    try reflexivity.
  apply (faq_no_answer _ [("answers", Json.Arr [])]); reflexivity.
Defined.

(** X12, witness: [max_retries = 0]. *)
Lemma process_message_no_attempts_witness :
  process_message Decoder.decode py_json_error py_str_exn failing_invoke 0
    first_aid_task initial_world
  = (Returned (ErrorResult None, Json.Bool false),
     World [Print [Lit "[FAILURE]: Max retries ("; FmtInt 0;
                   Lit ") reached."]]
           0).
Proof.
  apply (process_message_no_attempts Decoder.decode py_json_error py_str_exn failing_invoke
           0 first_aid_task initial_world).
  reflexivity.
Defined.

(** X13, witness: the first runtime times out, the second delivers. *)
Lemma process_message_recovers_witness :
  fst (process_message Decoder.decode py_json_error py_str_exn
         (flaky (content outbound_translation)) default_max_retries
         first_aid_task initial_world)
  = Returned (FinalAnswer (Json.Str "See 1904.7(b)(5)(ii)."), Json.Bool false).
Proof.
  apply (process_message_recovers Decoder.decode py_json_error py_str_exn
           (flaky (content outbound_translation)) default_max_retries
           first_aid_task initial_world 1 (fun _ => TimeoutError)
           (content outbound_translation)
           [("origin_language", Json.Str "en");
            ("source_language", Json.Str "en");
            ("response",
             Json.Obj [("final_answer", Json.Str "See 1904.7(b)(5)(ii).");
                       ("need_more_info", Json.Bool false)])]
           [("final_answer", Json.Str "See 1904.7(b)(5)(ii).");
            ("need_more_info", Json.Bool false)]
           (Json.Str "See 1904.7(b)(5)(ii)."));
    try reflexivity.
  intros i Hi. destruct i; [reflexivity | lia].
Defined.

(** X15, witness: three timeouts. *)
Lemma process_message_exhausted_witness :
  fst (process_message Decoder.decode py_json_error py_str_exn timing_out
         default_max_retries first_aid_task initial_world)
  = Returned (ErrorResult (Some (Failure "timeout" "Orchestration timed out")),
              Json.Bool false).
Proof.
  apply (process_message_exhausted Decoder.decode py_json_error py_str_exn timing_out
           default_max_retries first_aid_task initial_world
           (fun _ => TimeoutError)).
  reflexivity.
Defined.

(** X16, witness: [get] fails and the runtimes fail to stop. *)
Lemma process_message_returns_witness :
  exists v,
    fst (process_message Decoder.decode py_json_error py_str_exn failing_cleanup
           default_max_retries first_aid_task initial_world)
    = Returned v.
Proof.
  apply (process_message_returns Decoder.decode py_json_error py_str_exn failing_cleanup
           default_max_retries first_aid_task initial_world).
  intros runtime. eexists. reflexivity.
Defined.

(** X17, witness: [invoke] raises. *)
Lemma process_message_propagates_witness :
  fst (process_message Decoder.decode py_json_error py_str_exn failing_invoke
         default_max_retries first_aid_task initial_world)
  = Raised (RuntimeError "agent registration failed").
Proof.
  apply (process_message_propagates Decoder.decode py_json_error py_str_exn failing_invoke
           default_max_retries first_aid_task initial_world);
    reflexivity.
Defined.

(** X18, witness: a Router payload of type "other". *)
Lemma select_next_agent_untyped_router_witness :
  fst (select_next_agent Decoder.decode py_json_error py_str_exn
         default_confidence_threshold default_cqa_confidence
         untyped_router_log registry initial_world)
  = Returned None.
Proof.
  apply (select_next_agent_untyped_router Decoder.decode py_json_error py_str_exn
           default_confidence_threshold default_cqa_confidence
           untyped_router_log registry initial_world untyped_triage
           [("type", Json.Str "other"); ("response", Json.Str "n/a")]);
    reflexivity.
Defined.

(** X19, witness: the top intent "None" with confidence 0.95, and the
    intent "Recordability" with confidence 0.4, against the threshold 0.7. *)
Lemma parse_response_flags_witness :
  (exists warnings,
     parse_response default_confidence_threshold (clu_response "None" (95 # 100))
     = inr (Json.Obj [("kind", Json.Str "clu_result");
                      ("error", Json.Str "No intent recognized");
                      ("intent", Json.Str "None");
                      ("entities", stitches_entities);
                      ("confidence", Json.Num (95 # 100));
                      ("api_response", clu_response "None" (95 # 100))],
            warnings))
  /\ (exists warnings,
        parse_response default_confidence_threshold
          (clu_response "Recordability" (4 # 10))
        = inr (Json.Obj [("kind", Json.Str "clu_result");
                         ("error", Json.Str "CLU confidence threshold not met");
                         ("intent", Json.Str "Recordability");
                         ("entities", stitches_entities);
                         ("confidence", Json.Num (4 # 10));
                         ("api_response",
                          clu_response "Recordability" (4 # 10))],
               warnings)).
Proof.
  split.
  - destruct (parse_response_flags default_confidence_threshold
                (clu_response "None" (95 # 100)) (Json.Str "None")
                stitches_entities (95 # 100))
      as (error & warnings & Hrun & Hnone & _).
    + do 5 eexists. repeat split; reflexivity.
    + exists warnings. rewrite Hrun. by rewrite (Hnone eq_refl).
  - destruct (parse_response_flags default_confidence_threshold
                (clu_response "Recordability" (4 # 10))
                (Json.Str "Recordability") stitches_entities (4 # 10))
      as (error & warnings & Hrun & _ & Hlow & _).
    + do 5 eexists. repeat split; reflexivity.
    + exists warnings. rewrite Hrun.
      rewrite Hlow; [reflexivity | discriminate | reflexivity].
Defined.

(** X20, witness: two TreatmentType entities, the first one is taken. *)
Lemma get_entity_first_match_witness :
  get_entity false
    [Json.Obj [("category", Json.Str "InjuryType");
               ("text", Json.Str "laceration")];
     Json.Obj [("category", Json.Str "TreatmentType");
               ("text", Json.Str "stitches")];
     Json.Obj [("category", Json.Str "TreatmentType");
               ("text", Json.Str "bandage")]]
    "TreatmentType"
  = inr (Json.Str "stitches").
Proof.
  apply (get_entity_first_match false "TreatmentType"
           [Json.Obj [("category", Json.Str "InjuryType");
                      ("text", Json.Str "laceration")]]
           [Json.Obj [("category", Json.Str "TreatmentType");
                      ("text", Json.Str "bandage")]]
           (Json.Obj [("category", Json.Str "TreatmentType");
                      ("text", Json.Str "stitches")])).
  - constructor; [|constructor].
    eexists. split; [reflexivity|]. split; [reflexivity | discriminate].
  - eexists. split; [reflexivity|]. by left.
Defined.

(** X21, witness: no NAICSCode entity among the three. *)
Lemma get_entity_absent_witness :
  get_entity false
    [Json.Obj [("category", Json.Str "InjuryType");
               ("text", Json.Str "laceration")];
     Json.Obj [("category", Json.Str "TreatmentType");
               ("text", Json.Str "stitches")];
     Json.Obj [("category", Json.Str "TreatmentType");
               ("text", Json.Str "bandage")]]
    "NAICSCode"
  = inr Json.Null.
Proof.
  apply (get_entity_absent false "NAICSCode").
  repeat (constructor;
          [eexists; split; [reflexivity|]; split; [reflexivity | discriminate]|]).
  constructor.
Defined.

(** X22, witness: an intent result without a scored intent. *)
Lemma select_next_agent_unreadable_intent_witness :
  fst (select_next_agent Decoder.decode py_json_error py_str_exn
         default_confidence_threshold default_cqa_confidence
         empty_intents_log registry initial_world)
  = Raised ValidationError.
Proof.
  apply (select_next_agent_unreadable_intent Decoder.decode py_json_error
           py_str_exn default_confidence_threshold default_cqa_confidence
           empty_intents_log registry initial_world empty_intents
           [("type", Json.Str "clu_result");
            ("response",
             Json.Obj [("result",
                        Json.Obj [("conversations",
                                   Json.Arr [Json.Obj [("intents",
                                                        Json.Arr [])]])])]);
            ("terminated", Json.Str "False")]);
    try reflexivity.
  apply (intent_no_intents _
           [("result",
             Json.Obj [("conversations",
                        Json.Arr [Json.Obj [("intents", Json.Arr [])]])])]
           [("conversations", Json.Arr [Json.Obj [("intents", Json.Arr [])]])]
           [("intents", Json.Arr [])] []);
    reflexivity.
Defined.

(** X23, witness: a first user message goes to TranslationAgent; a second
    question on a longer log and the empty log have no result. *)
Lemma client_select_next_agent_user_turn_witness :
  fst (client_select_next_agent Decoder.decode py_json_error py_str_exn
         py_str_value [user_turn_msg] registry initial_world)
  = Returned (MkStringResult "TranslationAgent" "Initial translation.")
  /\ fst (client_select_next_agent Decoder.decode py_json_error py_str_exn
            py_str_value follow_up_log registry initial_world)
     = Raised ValidationError
  /\ fst (client_select_next_agent Decoder.decode py_json_error py_str_exn
            py_str_value [] registry initial_world)
     = Raised ValidationError.
Proof.
  split; [|split].
  - apply (client_select_next_agent_user_turn Decoder.decode py_json_error
             py_str_exn py_str_value [user_turn_msg] registry initial_world);
      [reflexivity|].
    intros m Hm Hnone. reflexivity.
  - apply (client_select_next_agent_user_turn Decoder.decode py_json_error
             py_str_exn py_str_value follow_up_log registry initial_world);
      [reflexivity|].
    intros m Hm Hnone. reflexivity.
  - apply (client_select_next_agent_user_turn Decoder.decode py_json_error
             py_str_exn py_str_value [] registry initial_world);
      [reflexivity|].
    intros m Hm. discriminate.
Defined.

(** X24, witness: a strong FAQ match has no result in the client. *)
Lemma client_select_next_agent_faq_witness :
  exists out,
    client_select_next_agent Decoder.decode py_json_error py_str_exn
      py_str_value faq_router_log registry initial_world
    = (Raised ValidationError,
       World (console initial_world ++ out) (next_runtime initial_world))
    /\ last out = Some (Print [Lit "[ERROR]: "; FmtExn ValidationError]).
Proof.
  apply (client_select_next_agent_faq Decoder.decode py_json_error
           py_str_exn py_str_value faq_router_log registry initial_world
           faq_match
           [("type", Json.Str "cqa_result");
            ("response",
             Json.Obj
               [("answers",
                 Json.Arr
                   [Json.Obj
                      [("confidenceScore", Json.Num 0.92);
                       ("answer", Json.Str "See 1904.7(b)(5)(ii).")]])]);
            ("terminated", Json.Str "True")]);
    reflexivity.
Defined.

(** X25, witness: the Router payload typed "other". *)
Lemma client_select_next_agent_untyped_router_witness :
  fst (client_select_next_agent Decoder.decode py_json_error py_str_exn
         py_str_value untyped_router_log registry initial_world)
  = Raised ValidationError.
Proof.
  apply (client_select_next_agent_untyped_router Decoder.decode py_json_error
           py_str_exn py_str_value untyped_router_log registry initial_world
           untyped_triage
           [("type", Json.Str "other"); ("response", Json.Str "n/a")]);
    reflexivity.
Defined.

(** X26, witness: on the complete FAQ exchange the client's
    [should_terminate] answers true while its [select_next_agent] still
    names TriageAgent. *)
Lemma client_select_next_agent_after_translator_witness :
  fst (client_select_next_agent Decoder.decode py_json_error py_str_exn
         py_str_value final_log registry initial_world)
  = Returned (MkStringResult "TriageAgent" "Routing to TriageAgent.")
  /\ fst (client_should_terminate final_log initial_world)
     = Returned (MkBooleanResult true "Final translation complete.").
Proof.
  apply (client_select_next_agent_after_translator Decoder.decode
           py_json_error py_str_exn py_str_value final_log registry
           initial_world initial_world outbound_translation
           [("origin_language", Json.Str "en");
            ("source_language", Json.Str "en");
            ("response",
             Json.Obj
               [("final_answer", Json.Str "See 1904.7(b)(5)(ii).");
                ("need_more_info", Json.Bool false)])]);
    reflexivity.
Defined.

(** X27, witness: a target naming TranslationAgent is followed; an unknown
    target and a missing one have no result. *)
Lemma client_select_next_agent_target_witness :
  fst (client_select_next_agent Decoder.decode py_json_error py_str_exn
         py_str_value translator_target_log registry initial_world)
  = Returned (MkStringResult "TranslationAgent" "Routing to TranslationAgent.")
  /\ fst (client_select_next_agent Decoder.decode py_json_error py_str_exn
            py_str_value dispatcher_log registry initial_world)
     = Raised ValidationError
  /\ fst (client_select_next_agent Decoder.decode py_json_error py_str_exn
            py_str_value missing_target_log registry initial_world)
     = Raised ValidationError.
Proof.
  split; [|split].
  - apply (client_select_next_agent_target Decoder.decode py_json_error
             py_str_exn py_str_value translator_target_log registry
             initial_world translator_target
             [("target_agent", Json.Str "TranslationAgent");
              ("terminated", Json.Str "False")]);
      reflexivity.
  - apply (client_select_next_agent_target Decoder.decode py_json_error
             py_str_exn py_str_value dispatcher_log registry initial_world
             unknown_target
             [("target_agent", Json.Str "UnknownAgent");
              ("intent", Json.Str "Recordability");
              ("entities", Json.Arr []);
              ("iri_domains", Json.Arr [Json.Str "Governance"]);
              ("terminated", Json.Str "False")]);
      reflexivity.
  - apply (client_select_next_agent_target Decoder.decode py_json_error
             py_str_exn py_str_value missing_target_log registry
             initial_world missing_target
             [("terminated", Json.Str "False")]);
      reflexivity.
Defined.

(** X28, witness: a responder's answer in plain text is handed to
    TranslationAgent. *)
Lemma client_select_next_agent_after_responder_witness :
  fst (client_select_next_agent Decoder.decode py_json_error py_str_exn
         py_str_value plain_answer_log registry initial_world)
  = Returned (MkStringResult "TranslationAgent" "Final translation.").
Proof.
  apply (client_select_next_agent_after_responder Decoder.decode
           py_json_error py_str_exn py_str_value plain_answer_log registry
           initial_world plain_answer "SciencesAgent");
    try reflexivity.
  - cbv [valid_agents In]. tauto.
  - intros Hnone. reflexivity.
Defined.
